(** * cppan: manifest loader, source discovery, registry client, package
    cache and build-file emitter of [src/cppan.cpp], as a shallow embedding.

    Strings are [string]; keyed containers ([std::map], [std::set],
    [std::unordered_set]) are stdpp's [gmap] and [gset]; the file system is a
    finite map from paths to nodes; exceptions are the [Throw] outcome of a
    small state-and-trace monad. *)

From Stdlib Require Import ZArith Lia Ascii.
From stdpp Require Import base option list strings gmap pretty sorting.

Set Warnings "-register-all,-clear-no-such-hyp".
Local Open Scope Z_scope.

(** ** Outcomes: a value, or a thrown exception with its message *)

Inductive outcome (A : Type) : Type :=
  | Done (a : A)
  | Throw (msg : string).
Arguments Done {A} a.
Arguments Throw {A} msg.

Definition is_done {A} (r : outcome A) : bool :=
  match r with Done _ => true | Throw _ => false end.

Definition obind {A B} (r : outcome A) (k : A → outcome B) : outcome B :=
  match r with Done a => k a | Throw m => Throw m end.

Declare Scope outcome_scope.
Delimit Scope outcome_scope with out.
Notation "'do' x <- r ; k" := (obind r (fun x => k))
  (at level 10, x pattern, r at level 100, k at level 200) : outcome_scope.
Notation "'exec' r ; k" := (obind r (fun _ : unit => k))
  (at level 10, r at level 100, k at level 200) : outcome_scope.

(** [for (x : xs) acc = f(acc, x)], stopping at the first exception. *)
Fixpoint ofold {A B} (f : A → B → outcome A) (a : A) (xs : list B) : outcome A :=
  match xs with
  | [] => Done a
  | x :: xs' => obind (f a x) (fun a' => ofold f a' xs')
  end.

(** ** std::string helpers *)

Module Str.

(** ["\n"] and the double quote *)
Definition nl : string := String (ascii_of_nat 10) EmptyString.
Definition quote : string := String (ascii_of_nat 34) EmptyString.

(** [std::replace(s.begin(), s.end(), a, b)] *)
Fixpoint replace (a b : ascii) (s : string) : string :=
  match s with
  | EmptyString => EmptyString
  | String c s' => String (if decide (c = a) then b else c) (replace a b s')
  end.

Definition empty (s : string) : bool :=
  match s with EmptyString => true | _ => false end.

(** [s.resize(s.size() - 1)] on a non-empty string: the last character,
    whatever it is, goes. *)
Fixpoint drop_last (s : string) : string :=
  match s with
  | EmptyString => EmptyString
  | String _ EmptyString => EmptyString
  | String c s' => String c (drop_last s')
  end.

Fixpoint last (s : string) : option ascii :=
  match s with
  | EmptyString => None
  | String c EmptyString => Some c
  | String _ s' => last s'
  end.

(** [is >> s]: leading white space is skipped and the characters up to the
    next white space are read; nothing is read from an empty stream. *)
Definition first_token (s : string) : string :=
  match String.words s with
  | [] => EmptyString
  | w :: _ => w
  end.

(** Split at every occurrence of [sep]; the pieces may be empty. *)
Fixpoint split_go (sep : ascii) (cur : string) (s : string) : list string :=
  match s with
  | EmptyString => [String.rev cur]
  | String c s' =>
      if decide (c = sep) then String.rev cur :: split_go sep EmptyString s'
      else split_go sep (String c cur) s'
  end.
Definition split (sep : ascii) (s : string) : list string :=
  split_go sep EmptyString s.

Fixpoint join (sep : string) (l : list string) : string :=
  match l with
  | [] => EmptyString
  | [x] => x
  | x :: l' => x +:+ sep +:+ join sep l'
  end.

(** [boost::algorithm::to_upper_copy] in the C locale. *)
Definition upper_char (c : ascii) : ascii :=
  let n := N_of_ascii c in
  if ((97 <=? n) && (n <=? 122))%N then ascii_of_N (n - 32) else c.
Fixpoint to_upper (s : string) : string :=
  match s with
  | EmptyString => EmptyString
  | String c s' => String (upper_char c) (to_upper s')
  end.

End Str.

(** ** YAML nodes (yaml-cpp) *)

Module YAML.

Inductive Node : Type :=
  | Undefined
  | Null
  | Scalar (s : string)
  | Sequence (items : list Node)
  | Map (entries : list (Node * Node)).

Definition IsDefined (n : Node) : bool :=
  match n with Undefined => false | _ => true end.
Definition IsScalar (n : Node) : bool :=
  match n with Scalar _ => true | _ => false end.
Definition IsSequence (n : Node) : bool :=
  match n with Sequence _ => true | _ => false end.
Definition IsMap (n : Node) : bool :=
  match n with Map _ => true | _ => false end.

Definition key_is (key : string) (k : Node) : bool :=
  match k with Scalar s => bool_decide (s = key) | _ => false end.

Fixpoint find_entry (key : string) (entries : list (Node * Node)) : Node :=
  match entries with
  | [] => Undefined
  | (k, v) :: rest => if key_is key k then v else find_entry key rest
  end.

(** [node[key]] on a const node: the value of the first entry of a map with
    that key; an undefined node when a map, a sequence or a null node has
    none; [BadSubscript] on a scalar and [InvalidNode] on an undefined
    node. *)
Definition subscript (n : Node) (key : string) : outcome Node :=
  match n with
  | Map entries => Done (find_entry key entries)
  | Sequence _ | Null => Done Undefined
  | Scalar _ => Throw "operator[] call on a scalar"
  | Undefined => Throw "invalid node; this may result from using a map iterator as a sequence iterator, or vice-versa"
  end.

(** [n.as<String>()] *)
Definition as_String (n : Node) : outcome string :=
  match n with
  | Scalar s => Done s
  | _ => Throw "bad conversion"
  end.

(** [for (const auto &v : n)] over a sequence. *)
Definition items (n : Node) : list Node :=
  match n with Sequence l => l | _ => [] end.
(** [for (const auto &v : n)] over a map: [v.first], [v.second]. *)
Definition entries (n : Node) : list (Node * Node) :=
  match n with Map l => l | _ => [] end.

End YAML.
Import YAML.

Local Open Scope outcome_scope.

(** [get_scalar<String>(node, key, default_)] *)
Definition get_scalar (node : Node) (key : string) (default_ : string) : outcome string :=
  do n <- subscript node key;
  if IsDefined n then
    if negb (IsScalar n) then Throw ("'" +:+ key +:+ "' should be a scalar")
    else as_String n
  else Done default_.

(** ** Insertion blocks *)

(** The structs of [cppan.h], which is not among the sources, have the
    fields the code under study reads and writes, under the names it uses;
    they are the fields of the specification's data model. *)
Record BuildSystemConfigInsertions : Type := {
  pre_sources : string;
  post_sources : string;
  post_target : string;
  post_alias : string;
}.

(** [get_config_insertion(n, key, dst)]: the new value of [dst]. *)
Definition get_config_insertion (n : Node) (key : string) : outcome string :=
  do dst <- get_scalar n key "";
  if negb (Str.empty dst) then Done (Str.drop_last dst) (* remove trailing \n *)
  else Done dst.

(** [BuildSystemConfigInsertions::get_config_insertions(n)] *)
Definition get_config_insertions (n : Node) : outcome BuildSystemConfigInsertions :=
  do a <- get_config_insertion n "pre_sources";
  do b <- get_config_insertion n "post_sources";
  do c <- get_config_insertion n "post_target";
  do d <- get_config_insertion n "post_alias";
  Done {| pre_sources := a; post_sources := b; post_target := c; post_alias := d |}.

(** ** Paths and the file system (boost::filesystem) *)

Module Fs.

(** A path is the sequence of its elements, as [path::begin()] .. [end()]
    yields them; an absolute path starts with the root element ["/"]. *)
Abbreviation path := (list string).

Definition nonempty (s : string) : bool := negb (Str.empty s).

(** Elements of a path given in the generic format: separators split,
    repeated separators count once, a leading separator is the root
    element and a trailing one yields the element ["."]. *)
Definition of_string (s : string) : path :=
  let names := List.filter nonempty (Str.split "/" s) in
  let root := match s with String "/" _ => ["/"] | _ => [] end in
  let dot := match names, Str.last s with
             | _ :: _, Some "/"%char => ["."]
             | _, _ => []
             end in
  root ++ names ++ dot.

Definition strip_root (p : path) : path :=
  match p with
  | "/" :: rest => rest
  | _ => p
  end.

(** [a / b]: [b] is appended to [a]; a root in [b] is one more separator. *)
Definition div (a b : path) : path := a ++ strip_root b.

(** [(a / b).string()] for two paths held as strings. *)
Definition div_string (a b : string) : string :=
  if Str.empty b then a
  else if Str.empty a then b
  else match Str.last a, b with
       | Some "/"%char, _ | _, String "/" _ => a +:+ b
       | _, _ => a +:+ "/" +:+ b
       end.

(** [p.string()] *)
Definition to_string (p : path) : string :=
  match p with
  | "/" :: rest => "/" +:+ Str.join "/" rest
  | _ => Str.join "/" p
  end.

(** Every path [p] lies below, and [p] itself. *)
Fixpoint prefixes (p : path) : list path :=
  match p with
  | [] => [[]]
  | x :: p' => [] :: ((λ q, x :: q) <$> prefixes p')
  end.

(** [p.parent_path()] *)
Definition parent_path (p : path) : path := removelast p.

(** [path(p.string() + suffix)]: the suffix lands in the last element. *)
Fixpoint add_suffix (p : path) (suffix : string) : path :=
  match p with
  | [] => [suffix]
  | [x] => [x +:+ suffix]
  | x :: p' => x :: add_suffix p' suffix
  end.

(** [a < b]: lexicographic on the elements, each compared as a string. *)
Fixpoint compare (a b : path) : comparison :=
  match a, b with
  | [], [] => Eq
  | [], _ :: _ => Lt
  | _ :: _, [] => Gt
  | x :: a', y :: b' =>
      match String.compare x y with
      | Eq => compare a' b'
      | c => c
      end
  end.
Definition lt (a b : path) : bool :=
  match compare a b with Lt => true | _ => false end.

(** [p.filename()] of a path held as a string, and [p.extension()]: from the
    last dot of the file name on; none for ["."] and [".."]. *)
Definition filename (p : string) : string :=
  List.last (Str.split "/" p) EmptyString.

Fixpoint after_last_dot (acc : option string) (s : string) : option string :=
  match s with
  | EmptyString => acc
  | String c s' =>
      after_last_dot (if decide (c = "."%char) then Some s else acc) s'
  end.

Definition extension (p : string) : string :=
  let name := filename p in
  if bool_decide (name = "." ∨ name = "..") then EmptyString
  else default EmptyString (after_last_dot None name).

Definition has_extension (p : string) : bool := nonempty (extension p).

(** The file system: what is at a path. *)
Inductive node : Type :=
  | File (content : string)
  | Dir.

Abbreviation tree := (gmap path node).

(** [fs::exists(p)] *)
Definition exists_ (t : tree) (p : path) : bool := bool_decide (is_Some (t !! p)).

(** [fs::is_directory(p)] *)
Definition is_directory (t : tree) (p : path) : bool :=
  match t !! p with Some Dir => true | _ => false end.

(** [fs::create_directories(p)]: [p] and the directories above it that
    are missing; an error when a file is in the way. *)
Definition create_directories (p : path) (t : tree) : outcome tree :=
  let above := List.filter (λ q, negb (bool_decide (q = []))) (prefixes p) in
  if existsb (λ q, match t !! q with Some (File _) => true | _ => false end) above
  then Throw "boost::filesystem::create_directories: Not a directory"
  else Done (fold_left (λ t q, <[q := Dir]> t) above t).

(** [fs::remove_all(p)]: [p] and everything below it. *)
Definition remove_all (p : path) (t : tree) : tree :=
  filter (λ kv, ¬ p `prefix_of` kv.1) t.

Definition has_children (t : tree) (p : path) : bool :=
  bool_decide (filter (λ kv, p `prefix_of` kv.1 ∧ kv.1 ≠ p) t ≠ ∅).

(** [fs::remove(p)]: a file or an empty directory goes; nothing happens
    when nothing is there; a directory that is not empty is an error. *)
Definition remove (p : path) (t : tree) : outcome tree :=
  match t !! p with
  | None => Done t
  | Some (File _) => Done (delete p t)
  | Some Dir =>
      if has_children t p then Throw "boost::filesystem::remove: Directory not empty"
      else Done (delete p t)
  end.

(** [std::ifstream ifile(p); ifile >> s]: the first token of a regular
    file; [s] stays empty when the file cannot be opened or read. *)
Definition read_token (t : tree) (p : path) : string :=
  match t !! p with
  | Some (File content) => Str.first_token content
  | _ => EmptyString
  end.

(** [std::ofstream ofile(p)] opens when [p] is not a directory and the
    directory it lies in exists (a single name lies in the current one). *)
Definition can_open_for_writing (t : tree) (p : path) : bool :=
  match t !! p with
  | Some Dir => false
  | _ => match p with
         | [] => false
         | [_] => true
         | _ => is_directory t (parent_path p)
         end
  end.

End Fs.
Import (notations) Fs.

(** ** Package names and versions *)

Module ProjectPath.

(** Modelled from the spec: [project_path.h] is not among the sources.  A
    project path is an ordered sequence of dotted name segments; it renders
    back to the dotted form, and to a file-system path by substituting the
    separator; [a / b] resolves [b] against the prefix [a]. *)
Abbreviation t := (list string).

Definition of_String (s : string) : t :=
  if Str.empty s then [] else Str.split "." s.

Definition toString (p : t) : string := Str.join "." p.

Definition empty (p : t) : bool :=
  match p with [] => true | _ => false end.

Definition div (a b : t) : t := a ++ b.

Definition toFileSystemPath (p : t) : string := Str.join "/" p.

(** Modelled from the spec: a path is absolute when it begins with a
    recognized owner segment, relative otherwise; which segments are
    recognized is the argument [owner]. *)
Definition is_relative (owner : string → bool) (p : t) : bool :=
  match p with
  | s :: _ => negb (owner s)
  | [] => true
  end.

End ProjectPath.

Module Version.

(** Modelled from the spec: the [Version] class is not among the sources.
    Three signed integers where [-1] denotes "any", or a branch name. *)
Record t : Type := mk {
  major : Z;
  minor : Z;
  patch : Z;
  branch : string;
}.

Definition any : t := {| major := -1; minor := -1; patch := -1; branch := "" |}.

(** Modelled from the spec: true when a branch name is present. *)
Definition isBranch (v : t) : bool := negb (Str.empty (branch v)).

Fixpoint until_any (l : list Z) : list Z :=
  match l with
  | [] => []
  | x :: l' => if decide (x = -1) then [] else x :: until_any l'
  end.

(** Modelled from the spec: ["*"] when all three are [-1], otherwise the
    dotted form truncated at the first [-1]. *)
Definition toAnyVersion (v : t) : string :=
  if bool_decide (major v = -1 ∧ minor v = -1 ∧ patch v = -1) then "*"
  else Str.join "." (pretty <$> until_any [major v; minor v; patch v]).

Definition set_patch (x : Z) (v : t) : t :=
  {| major := major v; minor := minor v; patch := x; branch := branch v |}.
Definition set_minor (x : Z) (v : t) : t :=
  {| major := major v; minor := x; patch := patch v; branch := branch v |}.

End Version.

(** ** Dependencies *)

Inductive PackageFlag : Type :=
  | pfHeaderOnly
  | pfExecutable
  | pfPrivate
  | pfDirectDependency.

Inductive PackagesDirType : Type :=
  | Local
  | User
  | System.

(** What the headers that are not among the sources declare and the code
    under study uses: the owner segments that make a project path absolute,
    the bit each [PackageFlag] has in a dependency's flags, the conversions
    between a [Version] and its string, the host a [Config] starts with and
    the build-time [CONFIG_ROOT]. *)
Class Declarations : Type := {
  is_owner_segment : string → bool;
  flag_index : PackageFlag → N;
  Version_of_String : string → outcome Version.t;
  Version_toString : Version.t → string;
  default_host : string;
  CONFIG_ROOT : string;
}.

Module Dependency.

Inductive t : Type := mk {
  package : ProjectPath.t;
  version : Version.t;
  flags : N;
  md5 : string;
  package_dir : Fs.path;
  package_dir_type : option PackagesDirType;
  patches : list string;
  dependencies : gmap string t;
}.

(** [Dependency dependency;]: any version, no flag, nothing else. *)
Definition default : t :=
  {| package := []; version := Version.any; flags := 0%N; md5 := "";
     package_dir := []; package_dir_type := None; patches := [];
     dependencies := ∅ |}.

Definition set_package (x : ProjectPath.t) (d : t) : t :=
  mk x (version d) (flags d) (md5 d) (package_dir d) (package_dir_type d)
     (patches d) (dependencies d).
Definition set_version (x : Version.t) (d : t) : t :=
  mk (package d) x (flags d) (md5 d) (package_dir d) (package_dir_type d)
     (patches d) (dependencies d).
Definition set_flags (x : N) (d : t) : t :=
  mk (package d) (version d) x (md5 d) (package_dir d) (package_dir_type d)
     (patches d) (dependencies d).
Definition set_md5 (x : string) (d : t) : t :=
  mk (package d) (version d) (flags d) x (package_dir d) (package_dir_type d)
     (patches d) (dependencies d).
Definition set_package_dir (x : Fs.path) (d : t) : t :=
  mk (package d) (version d) (flags d) (md5 d) x (package_dir_type d)
     (patches d) (dependencies d).
Definition set_package_dir_type (x : option PackagesDirType) (d : t) : t :=
  mk (package d) (version d) (flags d) (md5 d) (package_dir d) x
     (patches d) (dependencies d).
Definition set_patches (x : list string) (d : t) : t :=
  mk (package d) (version d) (flags d) (md5 d) (package_dir d)
     (package_dir_type d) x (dependencies d).
Definition set_dependencies (x : gmap string t) (d : t) : t :=
  mk (package d) (version d) (flags d) (md5 d) (package_dir d)
     (package_dir_type d) (patches d) x.

(** [d.flags[f]] and [d.flags.set(f)] *)
Definition flag {decl : Declarations} (f : PackageFlag) (d : t) : bool :=
  N.testbit (flags d) (flag_index f).
Definition set_flag {decl : Declarations} (f : PackageFlag) (d : t) : t :=
  set_flags (N.lor (flags d) (N.shiftl 1 (flag_index f))) d.

(** Modelled from the spec: [d.get_package_dir_type(default_type)] is
    declared in [cppan.h]; the directory type of a dependency is its own
    choice, and inherited (the given one) when it has none. *)
Definition get_package_dir_type (default_type : option PackagesDirType) (d : t)
  : option PackagesDirType :=
  match package_dir_type d with
  | Some ty => Some ty
  | None => default_type
  end.

End Dependency.

Abbreviation Dependencies := (gmap string Dependency.t).

(** ** PackageInfo *)

Module PackageInfo.

Record t : Type := mk {
  dependency : Dependency.t;
  target_name : string;
  variable_name : string;
}.

(** [PackageInfo::PackageInfo(const Dependency &d)] *)
Definition make (d : Dependency.t) : t :=
  let v := Version.toAnyVersion (Dependency.version d) in
  let name := ProjectPath.toString (Dependency.package d) in
  {| dependency := d;
     target_name := name +:+ (if bool_decide (v = "*") then "" else "-" +:+ v);
     variable_name :=
       Str.replace "." "_"
         (name +:+ "_" +:+ (if bool_decide (v = "*") then "" else "_" +:+ v)) |}.

End PackageInfo.

(** ** Iteration over ordered containers *)

(** [for (auto &x : s)] over a [std::set<String>]: in ascending order. *)
Definition set_items (X : gset string) : list string :=
  merge_sort (λ a b, String.le a b) (elements X).

(** [for (auto &kv : m)] over a [std::map<String, T>]: in ascending key
    order. *)
Definition map_items {A} (m : gmap string A) : list (string * A) :=
  merge_sort (λ a b, String.le a.1 b.1) (map_to_list m).

(** ** Options and projects *)

Module Options.

Record t : Type := mk {
  definitions : list (string * string);   (* a multimap, in key order *)
  include_directories : gset string;
  link_directories : gset string;
  link_libraries : gset string;
  global_definitions : gset string;
  bs_insertions : BuildSystemConfigInsertions;
}.

End Options.

(** The directories are a [std::set<path>] in the code, as is
    [exclude_from_build]; they are kept here as the set of their strings.
    The code lists them in the order of paths (element by element) and
    holds two spellings of one path once, [set_items] lists the strings in
    their own order: what is proved of them is which lines are written,
    not their order. *)
Record IncludeDirectories : Type := {
  public_ : gset string;
  private_ : gset string;
}.

Module Project.

Record t : Type := mk {
  package : ProjectPath.t;
  cppan_filename : string;
  license : string;
  empty : bool;
  shared_only : bool;
  static_only : bool;
  root_directory : string;
  sources : gset string;
  build_files : gset string;
  files : gset string;
  exclude_from_build : gset string;
  include_directories : IncludeDirectories;
  header_only : bool;
  dependencies : Dependencies;
  options : gmap string Options.t;
  bs_insertions : BuildSystemConfigInsertions;
}.

Definition set_package (x : ProjectPath.t) (p : t) : t :=
  mk x (cppan_filename p) (license p) (empty p) (shared_only p) (static_only p)
     (root_directory p) (sources p) (build_files p) (files p)
     (exclude_from_build p) (include_directories p) (header_only p)
     (dependencies p) (options p) (bs_insertions p).
Definition set_cppan_filename (x : string) (p : t) : t :=
  mk (package p) x (license p) (empty p) (shared_only p) (static_only p)
     (root_directory p) (sources p) (build_files p) (files p)
     (exclude_from_build p) (include_directories p) (header_only p)
     (dependencies p) (options p) (bs_insertions p).
Definition set_sources (x : gset string) (p : t) : t :=
  mk (package p) (cppan_filename p) (license p) (empty p) (shared_only p)
     (static_only p) (root_directory p) x (build_files p) (files p)
     (exclude_from_build p) (include_directories p) (header_only p)
     (dependencies p) (options p) (bs_insertions p).
Definition set_files (x : gset string) (p : t) : t :=
  mk (package p) (cppan_filename p) (license p) (empty p) (shared_only p)
     (static_only p) (root_directory p) (sources p) (build_files p) x
     (exclude_from_build p) (include_directories p) (header_only p)
     (dependencies p) (options p) (bs_insertions p).
Definition set_header_only (x : bool) (p : t) : t :=
  mk (package p) (cppan_filename p) (license p) (empty p) (shared_only p)
     (static_only p) (root_directory p) (sources p) (build_files p) (files p)
     (exclude_from_build p) (include_directories p) x
     (dependencies p) (options p) (bs_insertions p).
Definition set_dependencies (x : Dependencies) (p : t) : t :=
  mk (package p) (cppan_filename p) (license p) (empty p) (shared_only p)
     (static_only p) (root_directory p) (sources p) (build_files p) (files p)
     (exclude_from_build p) (include_directories p) (header_only p)
     x (options p) (bs_insertions p).

End Project.

(** ** Source discovery *)

Definition source_mime_types : list string :=
  ["text/x-asm"; "text/x-c"; "text/x-c++"; "text/plain"; "text/html"; "text/tex"].

Definition header_file_extensions : list string :=
  [".h"; ".hh"; ".hpp"; ".hxx"; ".h++"; ".HPP"].

Definition source_file_extensions : list string :=
  [".c"; ".cc"; ".cpp"; ".cxx"; ".c++"; ".CPP"].

Definition other_source_file_extensions : list string :=
  [".s"; ".S"; ".asm"; ".ipp"].

(** [std::any_of(src.begin(), src.end(), [&e](s) { return s == e; })] *)
Definition any_equal (e : string) (src : list string) : bool :=
  existsb (λ s, bool_decide (s = e)) src.

Definition is_allowed_file_extension (p : string) : bool :=
  let e := Fs.extension p in
  if any_equal e header_file_extensions
     || any_equal e source_file_extensions
     || any_equal e other_source_file_extensions
  then true else false.

(** [s.substr(0, s.find(c))] *)
Fixpoint before_char (c : ascii) (s : string) : string :=
  match s with
  | EmptyString => EmptyString
  | String x s' => if decide (x = c) then EmptyString else String x (before_char c s')
  end.

(** [is_valid_file_type(types, p, s, &error, check_ext)]: the result and the
    error text, empty when there is none. *)
Definition is_valid_file_type (types : list string) (p s : string) (check_ext : bool)
  : bool * string :=
  let mime := before_char ";" s in
  let ok := any_equal mime types in
  let ok := if negb ok && check_ext then is_allowed_file_extension p else ok in
  (ok, if negb ok then "not supported: " +:+ p +:+ ", mime: " +:+ mime else "").

Definition is_valid_source (p : string) : bool :=
  if negb (Fs.has_extension p) then false
  else bool_decide (Fs.extension p ∈ source_file_extensions).

(** [std::none_of(X.begin(), X.end(), P)] *)
Definition none_of (P : string → bool) (X : gset string) : bool :=
  forallb (λ x, negb (P x)) (elements X).

(** What source discovery asks of the world around it: the file system
    below the project, [std::regex], the [file] tool, and [check_filename],
    which [common.h] declares. *)
Record Discovery : Type := {
  (** [fs::exists(p / i)] for a pattern [i] *)
  exists_under : string → bool;
  (** [fs::recursive_directory_iterator(p)]: every entry below [p], as its
      path relative to [p], with [fs::is_regular_file] of it *)
  walk : outcome (list (string * bool));
  (** [std::regex(e)], and [std::regex_match(s, std::regex(e))] *)
  regex_compiles : string → bool;
  regex_match : string → string → bool;
  check_filename : string → bool;
  (** the lines, empty ones apart, that [file -ib] prints for the files *)
  file_ib : list string → outcome (list string);
  (** [fs::exists] and [fs::file_size] of [root_directory / license] *)
  license_size : option Z;
  (** [fs::copy_file(cppan_filename, root_directory / cppan_filename)] *)
  copy_manifest : outcome unit;
}.

Definition concat_lines (l : list string) : string :=
  fold_left (λ acc e, acc +:+ e) l "".

(** [check_file_types(files, root)] *)
Definition check_file_types (E : Discovery) (files : gset string) (root : string)
  : outcome unit :=
  if bool_decide (files = ∅) then Done tt
  else
    let fl := elements files in
    let errors :=
      concat_lines
        (omap (λ file,
                 let s := Fs.div_string root file in
                 if negb (check_filename E s)
                 then Some ("File '" +:+ s +:+ "' has prohibited symbols" +:+ Str.nl)
                 else None) fl) in
    if negb (Str.empty errors)
    then Throw ("Project sources did not pass file checks:" +:+ Str.nl +:+ errors)
    else
      do lines <- file_ib E fl;
      if negb (bool_decide (length lines = length fl))
      then Throw "Error during file checking"
      else
        let errors :=
          concat_lines
            (omap (λ '(file, line),
                     let error := (is_valid_file_type source_mime_types file line true).2 in
                     if negb (Str.empty error) then Some (error +:+ Str.nl) else None)
                  (zip fl lines)) in
        if negb (Str.empty errors)
        then Throw ("Project did not pass file checks:" +:+ Str.nl +:+ errors)
        else Done tt.

(** The first half of [Project::findSources(p)], up to and including the
    file checks: the patterns that name an existing file move to [files],
    the others are matched as regular expressions against every regular file
    below the root. *)
Definition resolve_files (E : Discovery) (this : Project.t) : outcome Project.t :=
  let literal := filter (λ i, exists_under E i = true) (Project.sources this) in
  let files := Project.files this ∪ literal in
  let sources := Project.sources this ∖ literal in
  if bool_decide (sources = ∅) && bool_decide (files = ∅) && negb (Project.empty this)
  then Throw "'files' must be populated"
  else if negb (forallb (regex_compiles E) (elements sources))
  then Throw "regex_error"
  else
    do entries <- walk E;
    let matched :=
      List.filter (λ '(s, regular),
                     regular && existsb (λ e, regex_match E e s) (elements sources))
                  entries in
    let files := files ∪ list_to_set (matched.*1) in
    if bool_decide (files = ∅) && negb (Project.empty this)
    then Throw "no files found"
    else
      exec check_file_types E files (Project.root_directory this);
      Done (Project.set_files files (Project.set_sources sources this)).

(** [Project::findSources(p)] *)
Definition findSources (E : Discovery) (this : Project.t) : outcome Project.t :=
  do this <- resolve_files E this;
  let this :=
    Project.set_header_only (none_of is_valid_source (Project.files this)) this in
  do this <-
    (if negb (Str.empty (Project.license this)) then
       match license_size E with
       | None => Throw "License does not exists"
       | Some size =>
           if 512 * 1024 <? size
           then Throw "license is invalid (should be text/plain and less than 512 KB)"
           else Done (Project.set_files
                        (Project.files this ∪ {[ Project.license this ]}) this)
       end
     else Done this);
  exec (if negb (Str.empty (Project.root_directory this))
        then copy_manifest E else Done tt);
  Done (Project.set_files
          (Project.files this ∪ {[ Project.cppan_filename this ]}) this).

(** ** Property trees (boost::property_tree) *)

Module pt.

(** A node holds its data as a string and an ordered list of keyed
    children. *)
Inductive ptree : Type :=
  | Tree (data : string) (children : list (string * ptree)).

Definition data (t : ptree) : string := match t with Tree d _ => d end.
Definition children (t : ptree) : list (string * ptree) :=
  match t with Tree _ c => c end.

Definition empty_tree : ptree := Tree "" [].

(** [t.empty()]: no children. *)
Definition empty (t : ptree) : bool :=
  match children t with [] => true | _ => false end.

(** [t.find(key)]: the first child with the key, [None] for [not_found()]. *)
Fixpoint assoc (key : string) (l : list (string * ptree)) : option ptree :=
  match l with
  | [] => None
  | (k, v) :: rest => if decide (k = key) then Some v else assoc key rest
  end.
Definition find (key : string) (t : ptree) : option ptree := assoc key (children t).

(** [t.get_child(key)] for a key without separators. *)
Definition get_child (key : string) (t : ptree) : outcome ptree :=
  match find key t with
  | Some c => Done c
  | None => Throw ("No such node (" +:+ key +:+ ")")
  end.

Definition digit (c : ascii) : option Z :=
  let n := Z.of_N (N_of_ascii c) in
  if (48 <=? n) && (n <=? 57) then Some (n - 48) else None.

Fixpoint skip_space (s : string) : string :=
  match s with
  | String c s' => if Ascii.is_space c then skip_space s' else s
  | EmptyString => s
  end.

(** The longest run of digits in front of [s], its value after [acc], how
    many there were, and what follows. *)
Fixpoint read_digits (acc : Z) (n : nat) (s : string) : Z * nat * string :=
  match s with
  | String c s' =>
      match digit c with
      | Some d => read_digits (10 * acc + d) (S n) s'
      | None => (acc, n, s)
      end
  | EmptyString => (acc, n, s)
  end.

(** [is >> number]: white space, an optional sign, digits. *)
Definition read_number (s : string) : option (bool * Z * string) :=
  let s := skip_space s in
  let '(neg, s) := match s with
                   | String "-" s' => (true, s')
                   | String "+" s' => (false, s')
                   | _ => (false, s)
                   end in
  let '(m, n, rest) := read_digits 0 0 s in
  match n with
  | O => None
  | S _ => Some (neg, m, rest)
  end.

(** The stream translator: after the value only white space may follow. *)
Definition at_end (rest : string) : bool := Str.empty (skip_space rest).

(** [t.get_value<int>()] *)
Definition get_value_int (t : ptree) : outcome Z :=
  match read_number (data t) with
  | Some (neg, m, rest) =>
      let v := if neg then - m else m in
      if at_end rest && (- 2 ^ 31 <=? v) && (v <=? 2 ^ 31 - 1)
      then Done v else Throw "ptree_bad_data"
  | None => Throw "ptree_bad_data"
  end.

(** [t.get_value<uint64_t>()]: a negative number wraps around. *)
Definition get_value_uint64 (t : ptree) : outcome Z :=
  match read_number (data t) with
  | Some (neg, m, rest) =>
      if at_end rest && (m <=? 2 ^ 64 - 1)
      then Done (if neg then (- m) mod 2 ^ 64 else m)
      else Throw "ptree_bad_data"
  | None => Throw "ptree_bad_data"
  end.

(** [t.get_value<String>()] *)
Definition get_value_String (t : ptree) : string := data t.

(** [t.get<T>(key)] *)
Definition get_int (key : string) (t : ptree) : outcome Z :=
  obind (get_child key t) get_value_int.
Definition get_uint64 (key : string) (t : ptree) : outcome Z :=
  obind (get_child key t) get_value_uint64.
Definition get_String (key : string) (t : ptree) : outcome string :=
  obind (get_child key t) (λ c, Done (get_value_String c)).

Fixpoint replace_first (key : string) (v : ptree) (l : list (string * ptree))
  : list (string * ptree) :=
  match l with
  | [] => []
  | (k, c) :: rest =>
      if decide (k = key) then (k, v) :: rest else (k, c) :: replace_first key v rest
  end.

(** A child under [key] becomes [v]: the first one with the key when there
    is one, a new last one otherwise. *)
Definition set_child (key : string) (v : ptree) (t : ptree) : ptree :=
  match find key t with
  | Some _ => Tree (data t) (replace_first key v (children t))
  | None => Tree (data t) (children t ++ [(key, v)])
  end.

(** [t.put_child(path_type(name, sep), v)] with the path already split at
    its separators: the nodes on the way are created when missing. *)
Fixpoint put_child (keys : list string) (v : ptree) (t : ptree) : ptree :=
  match keys with
  | [] => t
  | [k] => set_child k v t
  | k :: ks =>
      set_child k (put_child ks v (default empty_tree (find k t))) t
  end.

(** [t.put(key, value)] for a key without separators. *)
Definition put (key : string) (value : string) (t : ptree) : ptree :=
  set_child key (Tree value (children (default empty_tree (find key t)))) t.

End pt.

(** ** Config *)

Record Proxy : Type := {
  proxy_host : string;
  proxy_user : string;
}.

Module Config.

Record t : Type := mk {
  host : string;
  storage_dir : Fs.path;
  root_project : ProjectPath.t;
  packages_dir_type : option PackagesDirType;
  proxy : Proxy;
  check_functions : gset string;
  check_includes : gset string;
  check_types : gset string;
  check_libraries : gset string;
  check_symbols : gmap string (gset string);
  bs_insertions : BuildSystemConfigInsertions;
  projects : list Project.t;
  packages : gmap string PackageInfo.t;
  indirect_dependencies : Dependencies;
  global_options : gmap string Options.t;
  dependency_tree : pt.ptree;
}.

Definition set_projects (x : list Project.t) (c : t) : t :=
  mk (host c) (storage_dir c) (root_project c) (packages_dir_type c) (proxy c)
     (check_functions c) (check_includes c) (check_types c) (check_libraries c)
     (check_symbols c) (bs_insertions c) x (packages c)
     (indirect_dependencies c) (global_options c) (dependency_tree c).
Definition set_packages (x : gmap string PackageInfo.t) (c : t) : t :=
  mk (host c) (storage_dir c) (root_project c) (packages_dir_type c) (proxy c)
     (check_functions c) (check_includes c) (check_types c) (check_libraries c)
     (check_symbols c) (bs_insertions c) (projects c) x
     (indirect_dependencies c) (global_options c) (dependency_tree c).
Definition set_indirect_dependencies (x : Dependencies) (c : t) : t :=
  mk (host c) (storage_dir c) (root_project c) (packages_dir_type c) (proxy c)
     (check_functions c) (check_includes c) (check_types c) (check_libraries c)
     (check_symbols c) (bs_insertions c) (projects c) (packages c)
     x (global_options c) (dependency_tree c).
Definition set_global_options (x : gmap string Options.t) (c : t) : t :=
  mk (host c) (storage_dir c) (root_project c) (packages_dir_type c) (proxy c)
     (check_functions c) (check_includes c) (check_types c) (check_libraries c)
     (check_symbols c) (bs_insertions c) (projects c) (packages c)
     (indirect_dependencies c) x (dependency_tree c).
Definition set_dependency_tree (x : pt.ptree) (c : t) : t :=
  mk (host c) (storage_dir c) (root_project c) (packages_dir_type c) (proxy c)
     (check_functions c) (check_includes c) (check_types c) (check_libraries c)
     (check_symbols c) (bs_insertions c) (projects c) (packages c)
     (indirect_dependencies c) (global_options c) x.
Definition set_checks (fns incs tys libs : gset string)
    (syms : gmap string (gset string)) (c : t) : t :=
  mk (host c) (storage_dir c) (root_project c) (packages_dir_type c) (proxy c)
     fns incs tys libs syms (bs_insertions c) (projects c) (packages c)
     (indirect_dependencies c) (global_options c) (dependency_tree c).

End Config.

(** ** The manifest loader *)

(** [for (auto &x : xs) ys.push_back(f(x))], stopping at the first
    exception. *)
Fixpoint omapM {A B} (f : A → outcome B) (xs : list A) : outcome (list B) :=
  match xs with
  | [] => Done []
  | x :: xs' => do y <- f x; do ys <- omapM f xs'; Done (y :: ys)
  end.

(** [get_sequence<String>(node)] *)
Definition get_sequence (n : Node) : outcome (list string) :=
  if negb (IsDefined n) then Done []
  else if IsScalar n then do s <- as_String n; Done [s]
  else if negb (IsSequence n) then Done []
  else omapM as_String (items n).

(** [get_sequence<String>(node, key)], the default being empty. *)
Definition get_sequence_key (node : Node) (key : string) : outcome (list string) :=
  do n <- subscript node key;
  if IsDefined n && negb (IsScalar n || IsSequence n)
  then Throw ("'" +:+ key +:+ "' should be a sequence")
  else get_sequence n.

(** [get_sequence_set<String>(node)] and [get_sequence_set<T, String>(node, key)] *)
Definition get_sequence_set (n : Node) : outcome (gset string) :=
  do vs <- get_sequence n; Done (list_to_set vs).
Definition get_sequence_set_key (node : Node) (key : string) : outcome (gset string) :=
  do vs <- get_sequence_key node key; Done (list_to_set vs).

(** [get_map_and_iterate(node, key, f)], [f] folding over the entries. *)
Definition get_map_and_iterate {A} (node : Node) (key : string)
    (f : A → Node * Node → outcome A) (a : A) : outcome A :=
  do n <- subscript node key;
  if IsDefined n then
    if negb (IsMap n) then Throw ("'" +:+ key +:+ "' should be a map")
    else ofold f a (entries n)
  else Done a.

Definition packages_dir_type_from_string (s : string) : outcome PackagesDirType :=
  if decide (s = "local") then Done Local
  else if decide (s = "user") then Done User
  else if decide (s = "system") then Done System
  else Throw "Unknown 'packages_dir'. Should be one of [local, user, system]".

(** [m.insert({k, v})] on a multimap: after the entries whose key is not
    greater. *)
Fixpoint multimap_insert (k v : string) (m : list (string * string))
  : list (string * string) :=
  match m with
  | [] => [(k, v)]
  | (k', v') :: rest =>
      if String.ltb k k' then (k, v) :: m else (k', v') :: multimap_insert k v rest
  end.

Section Loader.

Context {decl : Declarations}.

(** [Config::relative_name_to_absolute(name)] *)
Definition relative_name_to_absolute (this : Config.t) (name : string)
  : outcome ProjectPath.t :=
  if Str.empty name then Done []
  else if ProjectPath.is_relative is_owner_segment (ProjectPath.of_String name) then
    if ProjectPath.empty (Config.root_project this)
    then Throw "You're using relative names, but 'root_project' is missing"
    else Done (ProjectPath.div (Config.root_project this) (ProjectPath.of_String name))
  else Done (ProjectPath.of_String name).

(** [EXTRACT_VAR(r, val, var, String)]: the new value of [val]. *)
Definition EXTRACT_VAR (r : Node) (val : string) (var : string) : outcome string :=
  do v <- subscript r var;
  if IsDefined v then as_String v else Done val.

(** [Config::load_common(const YAML::Node &root)] *)
Definition load_common (this : Config.t) (root : Node) : outcome Config.t :=
  do host <- EXTRACT_VAR root (Config.host this) "host";
  do storage_dir <-
    (do v <- subscript root "storage_dir";
     if IsDefined v then do s <- as_String v; Done (Fs.of_string s)
     else Done (Config.storage_dir this));
  do root_project <-
    (do v <- subscript root "root_project";
     if IsDefined v then do s <- as_String v; Done (ProjectPath.of_String s)
     else Done (Config.root_project this));
  do p <- subscript root "proxy";
  do proxy <-
    (if IsDefined p then
       if negb (IsMap p) then Throw "'proxy' should be a map"
       else
         do h <- EXTRACT_VAR p (proxy_host (Config.proxy this)) "host";
         do u <- EXTRACT_VAR p (proxy_user (Config.proxy this)) "user";
         Done {| proxy_host := h; proxy_user := u |}
     else Done (Config.proxy this));
  do pd <- get_scalar root "packages_dir" "user";
  do packages_dir_type <- packages_dir_type_from_string pd;
  let check (a : gset string) (str : string) : outcome (gset string) :=
    do s <- get_sequence_key root str; Done (a ∪ list_to_set s) in
  do check_functions <- check (Config.check_functions this) "check_function_exists";
  do check_includes <- check (Config.check_includes this) "check_include_exists";
  do check_types <- check (Config.check_types this) "check_type_size";
  do check_libraries <- check (Config.check_libraries this) "check_library_exists";
  do check_symbols <-
    get_map_and_iterate root "check_symbol_exists"
      (λ (syms : gmap string (gset string)) '(first, second),
         do f <- as_String first;
         do s <- as_String second;
         if IsSequence second then
           do hs <- get_sequence_set second; Done (<[f := hs]> syms)
         else if IsScalar second then
           Done (<[f := default ∅ (syms !! f) ∪ {[ s ]}]> syms)
         else Throw "Symbol headers should be a scalar or a set")
      (Config.check_symbols this);
  do bs_insertions <- get_config_insertions root;
  Done (Config.mk host storage_dir root_project (Some packages_dir_type) proxy
          check_functions check_includes check_types check_libraries
          check_symbols bs_insertions (Config.projects this)
          (Config.packages this) (Config.indirect_dependencies this)
          (Config.global_options this) (Config.dependency_tree this)).

(** [GET_BOOL(b)] *)
Definition GET_BOOL (root : Node) (b : string) : outcome bool :=
  do n <- subscript root b; Done (IsDefined n).

(** The [root_directory] key of [Config::load_project]: the directory as
    written, after the check against the current path [cp]. *)
Definition get_root_directory_key (cp : Fs.path) (root : Node) : outcome string :=
  do n <- subscript root "root_directory";
  if IsDefined n then
    if negb (IsScalar n) then Throw "'root_directory' should be a scalar"
    else
      do root_directory <- as_String n;
      if Fs.lt (Fs.div cp (Fs.of_string root_directory)) cp
      then Throw ("'root_directory' cannot be less than current: "
                  +:+ root_directory +:+ ", " +:+ Fs.to_string cp)
      else Done root_directory
  else Done "".


Definition Options_default : Options.t :=
  {| Options.definitions := []; Options.include_directories := ∅;
     Options.link_directories := ∅; Options.link_libraries := ∅;
     Options.global_definitions := ∅;
     Options.bs_insertions :=
       {| pre_sources := ""; post_sources := ""; post_target := ""; post_alias := "" |} |}.

(** One entry of the [options] map of [Config::load_project]. *)
Definition load_option_level (options : gmap string Options.t)
    (opt_level : Node * Node) : outcome (gmap string Options.t) :=
  let '(first, second) := opt_level in
  do ol <- as_String first;
  if negb (bool_decide (ol = "any") || bool_decide (ol = "static")
           || bool_decide (ol = "shared"))
  then Throw "Wrong option level dicrective"
  else if negb (IsMap second) then Throw ("'" +:+ ol +:+ "' should be a map")
  else
    let option := default Options_default (options !! ol) in
    do defs <- subscript second "definitions";
    let add_defs (definitions : list (string * string)) (s : string) :=
      do dd <- get_sequence_set_key defs s;
      Done (fold_left (λ m d, multimap_insert s d m) (set_items dd) definitions) in
    do definitions <- add_defs (Options.definitions option) "public";
    do definitions <- add_defs definitions "private";
    do definitions <- add_defs definitions "interface";
    do include_directories <- get_sequence_set_key second "include_directories";
    do link_directories <- get_sequence_set_key second "link_directories";
    do link_libraries <- get_sequence_set_key second "link_libraries";
    do global_definitions <- get_sequence_set_key second "global_definitions";
    do bs_insertions <- get_config_insertions second;
    Done (<[ol := Options.mk definitions include_directories link_directories
                    link_libraries global_definitions bs_insertions]> options).

(** [for (const auto &p : n) l.push_back(p.as<String>())] *)
Definition iterate_as_String (n : Node) : outcome (list string) :=
  match n with
  | Sequence l => omapM as_String l
  | Map (_ :: _) => Throw "invalid node; this may result from using a map iterator as a sequence iterator, or vice-versa"
  | _ => Done []
  end.

(** The [get_dep] of the map form of [dependencies]. *)
Definition get_dep (this : Config.t) (deps : Dependencies) (d : Node * Node)
  : outcome Dependencies :=
  let '(first, second) := d in
  do name <- as_String first;
  do package <- relative_name_to_absolute this name;
  let dependency := Dependency.set_package package Dependency.default in
  do dependency <-
    (if IsScalar second then
       do s <- as_String second;
       do v <- Version_of_String s;
       Done (Dependency.set_version v dependency)
     else if IsMap second then
       ofold (λ dependency '(vfirst, vsecond),
                do key <- as_String vfirst;
                if decide (key = "version") then
                  do s <- as_String vsecond;
                  do v <- Version_of_String s;
                  Done (Dependency.set_version v dependency)
                else if decide (key = "package_dir") then
                  do s <- as_String vsecond;
                  do ty <- packages_dir_type_from_string s;
                  Done (Dependency.set_package_dir_type (Some ty) dependency)
                else if decide (key = "patches") then
                  do ps <- iterate_as_String vsecond;
                  Done (Dependency.set_patches (Dependency.patches dependency ++ ps)
                          dependency)
                else Throw ("Unknown key: " +:+ key))
             dependency (entries second)
     else Throw "Dependency should be a scalar or a map");
  Done (<[ProjectPath.toString (Dependency.package dependency) := dependency]> deps).

(** The [dependencies] key of [Config::load_project]. *)
Definition load_dependencies (this : Config.t) (root : Node) (dependencies : Dependencies)
  : outcome Dependencies :=
  let add (deps : Dependencies) (d : Node) : outcome Dependencies :=
    do name <- as_String d;
    do package <- relative_name_to_absolute this name;
    Done (<[ProjectPath.toString package :=
              Dependency.set_package package Dependency.default]> deps) in
  do n <- subscript root "dependencies";
  match n with
  | Scalar _ => add dependencies n
  | Sequence dall => ofold add dependencies dall
  | Map dall =>
      do dependencies_private <- get_map_and_iterate n "private" (get_dep this) ∅;
      do dependencies <- get_map_and_iterate n "public" (get_dep this) dependencies;
      let dependencies :=
        dependencies ∪ (Dependency.set_flag pfPrivate <$> dependencies_private) in
      if bool_decide (dependencies = ∅) && bool_decide (dependencies_private = ∅)
      then ofold (get_dep this) dependencies dall
      else Done dependencies
  | _ => Done dependencies
  end.

(** The [read_sources] of [Config::load_project]. *)
Definition read_sources (root : Node) (a : gset string) (key : string)
  : outcome (gset string) :=
  do files <- subscript root key;
  match files with
  | Scalar s => Done (a ∪ {[ s ]})
  | Sequence l => do vs <- omapM as_String l; Done (a ∪ list_to_set vs)
  | Map groups =>
      ofold (λ (a : gset string) '(gfirst, gsecond),
               match gsecond with
               | Scalar _ =>
                   do g <- as_String gfirst;
                   Throw ("group '" +:+ g +:+ "' cannot be a scalar")
               | Sequence l => do vs <- omapM as_String l; Done (a ∪ list_to_set vs)
               | Map _ =>
                   do root <- get_scalar gsecond "root" "";
                   do v <- get_sequence_key gsecond "files";
                   Done (a ∪ list_to_set ((λ e, Fs.div_string root e) <$> v))
               | _ => Done a
               end)
            a groups
  | _ => Done a
  end.

(** [Config::load_project(root)], [cp] being [fs::current_path()]. *)
Definition load_project (this : Config.t) (cp : Fs.path) (root : Node)
  : outcome Project.t :=
  do empty <- GET_BOOL root "empty";
  do shared_only <- GET_BOOL root "shared_only";
  do static_only <- GET_BOOL root "static_only";
  if shared_only && static_only
  then Throw "Project cannot be static and shared simultaneously"
  else
    do license <- get_scalar root "license" "";
    do root_directory <- get_root_directory_key cp root;
    do n <- subscript root "include_directories";
    do include_directories <-
      (if IsDefined n then
         if negb (IsMap n) then Throw "'include_directories' should be a map"
         else
           do pub <- get_sequence_set_key n "public";
           do priv <- get_sequence_set_key n "private";
           Done {| public_ := pub; private_ := priv |}
       else Done {| public_ := ∅; private_ := ∅ |});
    let public_ :=
      (if bool_decide (public_ include_directories = ∅)
       then {[ "include" ]} else public_ include_directories)
      ∪ {[ "${CMAKE_CURRENT_BINARY_DIR}" ]} in
    do exclude_from_build <- get_sequence_set_key root "exclude_from_build";
    do bs_insertions <- get_config_insertions root;
    do options <- get_map_and_iterate root "options" load_option_level ∅;
    do dependencies <- load_dependencies this root ∅;
    do sources <- read_sources root ∅ "files";
    do build_files <- read_sources root ∅ "build";
    Done {| Project.package := [];
            Project.cppan_filename := "";
            Project.license := license;
            Project.empty := empty;
            Project.shared_only := shared_only;
            Project.static_only := static_only;
            Project.root_directory := root_directory;
            Project.sources := sources;
            Project.build_files := build_files;
            Project.files := ∅;
            Project.exclude_from_build := exclude_from_build;
            Project.include_directories :=
              {| public_ := public_; private_ := private_ include_directories |};
            Project.header_only := false;
            Project.dependencies := dependencies;
            Project.options := options;
            Project.bs_insertions := bs_insertions |}.

(** The [set_project] of [Config::load]. *)
Definition set_project (this : Config.t) (filename : string)
    (project : Project.t) (name : string) : outcome Config.t :=
  do package <- relative_name_to_absolute this name;
  Done (Config.set_projects
          (Config.projects this
             ++ [Project.set_package package
                   (Project.set_cppan_filename filename project)])
          this).

(** [Config::load(p)]: [root] is what [YAML::LoadFile(p)] gives, [filename]
    is [p.filename().string()] and [cp] the current path.  C++ leaves open
    which of the two arguments of [set_project] is evaluated first; here it
    is the project, so that when both fail the error is the project's.  A
    successful load is the same either way. *)
Definition load (this : Config.t) (cp : Fs.path) (filename : string) (root : Node)
  : outcome Config.t :=
  do this <- load_common this root;
  do prjs <- subscript root "projects";
  if IsDefined prjs then
    if negb (IsMap prjs) then Throw "'projects' should be a map"
    else
      ofold (λ this '(first, second),
               do project <- load_project this cp second;
               do name <- as_String first;
               set_project this filename project name)
            this (entries prjs)
  else
    do project <- load_project this cp root;
    set_project this filename project "".

End Loader.

(** ** The build-file emitter *)

Module Context.

(** What the emitter asks of its [Context]: the calls, in order.  The
    class itself is declared in [context.h], which is not among the
    sources; a statement [ctx << a << b << Context::eol] is the calls
    [text a; text b; eol]. *)
Inductive op : Type :=
  | addLine (s : string)
  | emptyLines (n : Z)
  | increaseIndent
  | decreaseIndent
  | text (s : string)
  | eol
  | splitLines.

End Context.
Import Context.

(** [repeat(e, n)] *)
Fixpoint repeat (e : string) (n : nat) : string :=
  match n with
  | O => ""
  | S n' => e +:+ repeat e n'
  end.

Definition config_delimeter_short : string := repeat "#" 40.
Definition config_delimeter : string := config_delimeter_short +:+ config_delimeter_short.

(** [config_section_title(ctx, t)] *)
Definition config_section_title (t : string) : list op :=
  [addLine config_delimeter; addLine "#"; addLine ("# " +:+ t); addLine "#";
   addLine config_delimeter; addLine ""].

Definition cmake_config_filename : string := "CMakeLists.txt".
Definition cmake_helpers_filename : string := "CppanHelpers.cmake".

Section Emitter.

Context {decl : Declarations}.

(** The [print_bs_insertion] of [Config::print_package_config_file]. *)
Definition print_bs_insertion (this : Config.t) (p : Project.t) (name : string)
    (i : BuildSystemConfigInsertions → string) : list op :=
  config_section_title name
  ++ (if bool_decide (1 < length (Config.projects this))%nat
      then [addLine (i (Config.bs_insertions this)); emptyLines 1] else [])
  ++ [addLine (i (Project.bs_insertions p)); emptyLines 1]
  ++ concat
       ((λ ol : string * Options.t,
           let s := i (Options.bs_insertions ol.2) in
           if Str.empty s then []
           else if decide (ol.1 = "any") then [addLine s]
           else [addLine ("if (LIBRARY_TYPE STREQUAL " +:+ Str.quote
                          +:+ Str.to_upper ol.1 +:+ Str.quote +:+ ")");
                 increaseIndent; addLine s; decreaseIndent; addLine "endif()";
                 emptyLines 1])
        <$> map_items (Project.options p))
  ++ [emptyLines 1].

(** The settings section. *)
Definition print_settings (p : Project.t) (pi : PackageInfo.t) : list op :=
  config_section_title "settings"
  ++ [addLine "set(LIBRARY_TYPE STATIC)"; addLine "";
      addLine ("if (" +:+ Str.quote +:+ "${CPPAN_BUILD_SHARED_LIBS}" +:+ Str.quote
               +:+ " STREQUAL " +:+ Str.quote +:+ "ON" +:+ Str.quote +:+ ")");
      increaseIndent; addLine "set(LIBRARY_TYPE SHARED)"; decreaseIndent;
      addLine "endif()"; addLine "";
      addLine ("if (LIBRARY_TYPE_" +:+ PackageInfo.variable_name pi +:+ ")");
      increaseIndent;
      addLine ("set(LIBRARY_TYPE ${LIBRARY_TYPE_" +:+ PackageInfo.variable_name pi +:+ "})");
      decreaseIndent; addLine "endif()"]
  ++ (if Project.static_only p then [addLine "set(LIBRARY_TYPE STATIC)"]
      else if Project.shared_only p then [addLine "set(LIBRARY_TYPE SHARED)"]
      else [])
  ++ [emptyLines 1].

(** The sources and the excluded files. *)
Definition print_sources (p : Project.t) (header_only : bool) : list op :=
  (if negb header_only then
     config_section_title "sources"
     ++ (if bool_decide (Project.build_files p = ∅)
         then [addLine ("file(GLOB_RECURSE src " +:+ Str.quote +:+ "*" +:+ Str.quote +:+ ")")]
         else [addLine "set(src"; increaseIndent]
              ++ ((λ f, addLine ("${CMAKE_CURRENT_SOURCE_DIR}/"
                                 +:+ Str.replace "\" "/" f))
                  <$> set_items (Project.build_files p))
              ++ [decreaseIndent; addLine ")"])
     ++ [addLine ""]
   else [])
  ++ (if negb (bool_decide (Project.exclude_from_build p = ∅)) then
        config_section_title "exclude files"
        ++ concat ((λ f, [text ("list(REMOVE_ITEM src " +:+ Str.quote
                                +:+ "${CMAKE_CURRENT_SOURCE_DIR}/");
                          text f; text (Str.quote +:+ ")"); eol])
                   <$> set_items (Project.exclude_from_build p))
        ++ [emptyLines 1]
      else []).

(** The target, its include directories and the libraries it links. *)
Definition print_target (p : Project.t) (d : Dependency.t) (pi : PackageInfo.t)
    (header_only : bool) : list op :=
  let target_name := PackageInfo.target_name pi in
  config_section_title ("target: " +:+ target_name)
  ++ (if Dependency.flag pfExecutable d
      then [text "add_executable                ("; text target_name;
            text " ${src})"; eol]
      else if header_only
      then [text "add_library                   ("; text target_name;
            text " INTERFACE)"; eol]
      else [text "add_library                   ("; text target_name;
            text " ${LIBRARY_TYPE} ${src})"; eol])
  ++ (let inc := Project.include_directories p in
      (* include_directories.empty(): neither a public nor a private one *)
      if negb (bool_decide (public_ inc = ∅) && bool_decide (private_ inc = ∅)) then
        [text "target_include_directories    ("; text target_name; eol;
         increaseIndent]
        ++ (if header_only
            then (λ idir, addLine ("INTERFACE " +:+ idir)) <$> set_items (public_ inc)
            else ((λ idir, addLine ("PUBLIC " +:+ idir)) <$> set_items (public_ inc))
                 ++ ((λ idir, addLine ("PRIVATE " +:+ idir)) <$> set_items (private_ inc)))
        ++ [decreaseIndent; addLine ")"]
      else [])
  ++ [addLine ("target_link_libraries         (" +:+ target_name); increaseIndent;
      addLine ((if negb header_only then "PUBLIC" else "INTERFACE") +:+ " cppan-helpers")]
  ++ concat
       ((λ d1 : string * Dependency.t,
           let executable :=
             match Dependency.dependencies d !! d1.1 with
             | Some found => Dependency.flag pfExecutable found
             | None => false
             end in
           if executable then [] else
           let pi1 := PackageInfo.make d1.2 in
           if header_only then [addLine ("INTERFACE " +:+ PackageInfo.target_name pi1)]
           else if Dependency.flag pfPrivate d1.2
           then [addLine ("PRIVATE " +:+ PackageInfo.target_name pi1)]
           else [addLine ("PUBLIC " +:+ PackageInfo.target_name pi1)])
        <$> map_items (Project.dependencies p))
  ++ [decreaseIndent; addLine ")"]
  ++ (if negb header_only then
        [text "set_target_properties         ("; text target_name;
         text " PROPERTIES"; eol;
         text ("    FOLDER " +:+ Str.quote +:+ "cppan/");
         text (ProjectPath.toString (Dependency.package d)); text "/";
         text (Version_toString (Dependency.version d)); text Str.quote; eol;
         text ")"; eol; emptyLines 1]
      else []).

(** One alias declaration. *)
Definition alias_declaration (name target : string) : list op :=
  [text "add_library("; text name; text " ALIAS "; text target; text ")"; eol].

(** The aliases section. *)
Definition print_aliases (pi : PackageInfo.t) : list op :=
  let d := PackageInfo.dependency pi in
  let ver := Dependency.version d in
  if negb (Version.isBranch ver) then
    let name := ProjectPath.toString (Dependency.package d) in
    let ver1 := Version.set_patch (-1) ver in
    let ver2 := Version.set_minor (-1) ver1 in
    config_section_title "aliases"
    ++ alias_declaration (name +:+ "-" +:+ Version.toAnyVersion ver1)
         (PackageInfo.target_name pi)
    ++ alias_declaration (name +:+ "-" +:+ Version.toAnyVersion ver2)
         (PackageInfo.target_name pi)
    ++ alias_declaration name (PackageInfo.target_name pi)
    ++ [addLine ""]
  else [].

(** The definitions, include directories and link libraries of one option
    level. *)
Definition print_options (ol : string * Options.t) (pi : PackageInfo.t)
    (header_only : bool) : list op :=
  let target_name := PackageInfo.target_name pi in
  let print_defs :=
    if bool_decide (Options.definitions ol.2 = []) then []
    else [text "target_compile_definitions    ("; text target_name; eol;
          increaseIndent]
         ++ concat ((λ def : string * string,
                       if header_only then [text "INTERFACE "; text def.2; eol]
                       else [text (Str.to_upper def.1); text " "; text def.2; eol])
                    <$> Options.definitions ol.2)
         ++ [decreaseIndent; addLine ")"] in
  let print_set (a : gset string) (s : string) :=
    if bool_decide (a = ∅) then []
    else [text s; text "("; text target_name; eol; increaseIndent]
         ++ concat ((λ def, [text (if header_only then "INTERFACE " else "PUBLIC ");
                             text def; eol])
                    <$> set_items a)
         ++ [decreaseIndent; addLine ")"; addLine ""] in
  print_defs
  ++ print_set (Options.include_directories ol.2) "target_include_directories"
  ++ print_set (Options.link_libraries ol.2) "target_link_libraries".

Definition print_definitions (p : Project.t) (pi : PackageInfo.t)
    (header_only : bool) : list op :=
  concat
    ((λ ol : string * Options.t,
        [emptyLines 1]
        ++ (if decide (ol.1 = "any") then print_options ol pi header_only
            else [addLine ("if (LIBRARY_TYPE STREQUAL " +:+ Str.quote
                           +:+ Str.to_upper ol.1 +:+ Str.quote +:+ ")")]
                 ++ print_options ol pi header_only
                 ++ [addLine "endif()"]))
     <$> map_items (Project.options p)).

(** What the emission leaves in [parent]: the checks of the package, and
    the global definitions of every option level. *)
Definition gather (this : Config.t) (p : Project.t) (parent : Config.t) : Config.t :=
  let parent :=
    Config.set_checks
      (Config.check_functions parent ∪ Config.check_functions this)
      (Config.check_includes parent ∪ Config.check_includes this)
      (Config.check_types parent ∪ Config.check_types this)
      (Config.check_libraries parent ∪ Config.check_libraries this)
      (Config.check_symbols parent ∪ Config.check_symbols this)
      parent in
  Config.set_global_options
    (fold_left
       (λ (g : gmap string Options.t) (ol : string * Options.t),
          if negb (bool_decide (Options.global_definitions ol.2 = ∅)) then
            let o := default Options_default (g !! ol.1) in
            <[ol.1 := Options.mk (Options.definitions o)
                        (Options.include_directories o) (Options.link_directories o)
                        (Options.link_libraries o)
                        (Options.global_definitions o
                           ∪ Options.global_definitions ol.2)
                        (Options.bs_insertions o)]> g
          else g)
       (map_items (Project.options p)) (Config.global_options parent))
    parent.

(** The project of the package's manifest that is emitted. *)
Definition select_project (this : Config.t) (d : Dependency.t) : outcome Project.t :=
  match Config.projects this with
  | [] => Throw "projects[0]: no project"
  | p0 :: rest =>
      if bool_decide (1 < length (Config.projects this))%nat then
        match List.find (λ p, bool_decide (Project.package p = Dependency.package d))
                (Config.projects this) with
        | Some p => Done p
        | None => Throw ("No such project '"
                         +:+ ProjectPath.toString (Dependency.package d)
                         +:+ "' in dependencies list")
        end
      else Done p0
  end.

(** [Config::print_package_config_file(o, d, parent)]: the calls on the
    context whose text goes to [o], the new [parent] and the result. *)
Definition print_package_config_file (this : Config.t) (d : Dependency.t)
    (parent : Config.t) : outcome (list op * Config.t * PackageInfo.t) :=
  let pi := PackageInfo.make d in
  let header_only := Dependency.flag pfHeaderOnly (PackageInfo.dependency pi) in
  do p <- select_project this d;
  let target_name := PackageInfo.target_name pi in
  Done
    ([addLine "#"; addLine "# cppan";
      addLine ("# package: " +:+ ProjectPath.toString (Dependency.package d));
      addLine ("# version: " +:+ Version_toString (Dependency.version d));
      addLine "#"; addLine ""]
     ++ print_settings p pi
     ++ print_bs_insertion this p "pre sources" pre_sources
     ++ print_sources p header_only
     ++ print_bs_insertion this p "post sources" post_sources
     ++ concat ((λ ol : string * Options.t,
                   (λ ll, addLine ("link_directories(" +:+ ll +:+ ")"))
                   <$> set_items (Options.link_directories ol.2))
                <$> map_items (Project.options p))
     ++ [emptyLines 1]
     ++ print_target p d pi header_only
     ++ print_definitions p pi header_only
     ++ [emptyLines 1; addLine ("set(lib " +:+ target_name +:+ ")");
         addLine ("set(target " +:+ target_name +:+ ")"); emptyLines 1]
     ++ print_bs_insertion this p "post target" post_target
     ++ print_aliases pi
     ++ config_section_title "export"
     ++ [addLine ("export(TARGETS " +:+ target_name
                  +:+ " APPEND FILE ${CMAKE_BINARY_DIR}/cppan.cmake)");
         emptyLines 1]
     ++ print_bs_insertion this p "post alias" post_alias
     ++ [addLine config_delimeter; addLine ""; splitLines],
     gather this p parent, pi).

End Emitter.

(** ** Effects: a state, the trace of what was done, and exceptions *)

Inductive event : Type :=
  | ev_log (line : string)
  | ev_url_post (url : string) (data : pt.ptree)
  | ev_download_file (url : string) (fn : Fs.path) (dl_md5 : outcome string)
  | ev_unpack_file (fn dst : Fs.path) (unpacked : bool)
  | ev_remove_all (p : Fs.path)
  | ev_remove (p : Fs.path)
  | ev_create_directories (p : Fs.path)
  | ev_write_file (p : Fs.path) (content : string).

(** A computation takes the state to a new state, the events it produced,
    and a value or an exception; the state an exception leaves behind is
    kept, as nothing is rolled back. *)
Definition M (S A : Type) : Type := S → S * list event * outcome A.

Definition throw {S A} (msg : string) : M S A := λ s, (s, [], Throw msg).
Definition tell {S} (e : event) : M S unit := λ s, (s, [e], Done tt).
Definition gets {S A} (f : S → A) : M S A := λ s, (s, [], Done (f s)).
Definition modify {S} (f : S → S) : M S unit := λ s, (f s, [], Done tt).
Definition lift {S A} (r : outcome A) : M S A := λ s, (s, [], r).

Global Instance M_ret {S} : MRet (M S) := λ A a s, (s, [], Done a).
Global Instance M_bind {S} : MBind (M S) := λ A B k m s,
  match m s with
  | (s', t, Done a) => let '(s'', t', r) := k a s' in (s'', t ++ t', r)
  | (s', t, Throw msg) => (s', t, Throw msg)
  end.

(** [try { m } catch (...) { handler; throw; }] *)
Definition catch_rethrow {S A} (m : M S A) (handler : M S unit) : M S A := λ s,
  match m s with
  | (s', t, Throw msg) =>
      match handler s' with
      | (s'', t', Done _) => (s'', t ++ t', Throw msg)
      | (s'', t', Throw msg') => (s'', t ++ t', Throw msg')
      end
  | r => r
  end.

(** A computation on a part of the state. *)
Definition zoom {S T A} (get : S → T) (set : T → S → S) (m : M T A) : M S A := λ s,
  let '(t', tr, r) := m (get s) in (set t' s, tr, r).

(** [for (auto &x : xs) f(x)] *)
Fixpoint for_each {S A} (f : A → M S unit) (xs : list A) : M S unit :=
  match xs with
  | [] => mret tt
  | x :: xs' => f x;; for_each f xs'
  end.

(** [LOG(x)] *)
Definition LOG {S} (x : string) : M S unit := tell (ev_log x).

(** What the program is linked against and runs in: the environment, the
    YAML parser and emitter, [std::regex], the HTTP client with its JSON
    codec, the archiver and the text a [Context] renders. *)
Class Externals : Type := {
  getenv_HOME : option string;
  YAML_Load : string → outcome Node;
  YAML_Emit : list (string * string) → string;
  (** [std::regex_match(s, std::regex(e))] for the pattern [e] *)
  std_regex_match : string → string → outcome bool;
  (** [url_post(url, data)]: the response, parsed *)
  url_post : string → pt.ptree → outcome pt.ptree;
  (** [download_file(dd)]: the file at [dd.url] goes to [dd.fn]; [*dd.dl_md5]
      is the MD5 of what came *)
  download_file : string → Fs.path → Fs.tree → Fs.tree * outcome string;
  (** [unpack_file(fn, dst)] *)
  unpack_file : Fs.path → Fs.path → Fs.tree → Fs.tree * outcome unit;
  (** [ctx.getText()] after the calls *)
  getText : list Context.op → string;
}.

Section FileSystemActions.

Context {ext : Externals}.

Definition fs_exists (p : Fs.path) : M Fs.tree bool := gets (λ t, Fs.exists_ t p).

Definition fs_remove_all (p : Fs.path) : M Fs.tree unit :=
  tell (ev_remove_all p);; modify (Fs.remove_all p).

Definition fs_remove (p : Fs.path) : M Fs.tree unit :=
  tell (ev_remove p);;
  t ← gets id;
  match Fs.remove p t with
  | Done t' => modify (λ _, t')
  | Throw msg => throw msg
  end.

(** [std::ofstream ofile(p); if (ofile) { ofile << content; } else throw
    std::runtime_error(msg);] *)
Definition write_or_throw (p : Fs.path) (content : string) (msg : string)
  : M Fs.tree unit :=
  ok ← gets (λ t, Fs.can_open_for_writing t p);
  if ok : bool then
    tell (ev_write_file p content);; modify (λ t, <[p := Fs.File content]> t)
  else throw msg.

Definition do_download_file (url : string) (fn : Fs.path) : M Fs.tree string := λ t,
  let '(t', r) := download_file url fn t in
  (t', [ev_download_file url fn r], r).

Definition do_unpack_file (fn dst : Fs.path) : M Fs.tree unit := λ t,
  let '(t', r) := unpack_file fn dst t in
  (t', [ev_unpack_file fn dst (is_done r)], r).

End FileSystemActions.

(** ** The package cache *)

Section Cache.

Context {decl : Declarations} {ext : Externals}.

Definition md5_filename : string := "archive.md5".

(** What [Config::download_dependencies] does for one package once its
    directory is known: the archive is fetched, verified and unpacked,
    unless the directory is there and the stored digest is the package's.
    [url] is the host, [data_url] the data directory of the registry,
    and [version_dir] is what [dep.package_dir] has just been set to. *)
Definition fetch_package (url data_url : string) (dep : Dependency.t)
  : M Fs.tree unit :=
  let version_dir := Dependency.package_dir dep in
  let md5file :=
    Fs.div (Fs.parent_path (Dependency.package_dir dep)) [md5_filename] in
  (* store md5 of archive *)
  file_md5 ← gets (λ t, Fs.read_token t md5file);
  let must_download :=
    negb (bool_decide (file_md5 = Dependency.md5 dep))
    || Str.empty (Dependency.md5 dep) || Str.empty file_md5 in
  there ← fs_exists version_dir;
  if negb there || must_download then
    (if there : bool then fs_remove_all version_dir else mret tt);;
    let fs_path :=
      Str.replace "\" "/" (ProjectPath.toFileSystemPath (Dependency.package dep)) in
    let package_url :=
      url +:+ "/" +:+ data_url +:+ "/" +:+ fs_path +:+ "/"
      +:+ Version_toString (Dependency.version dep) +:+ ".tar.gz" in
    let fn := Fs.add_suffix version_dir ".tar.gz" in
    LOG ("Downloading: " +:+ ProjectPath.toString (Dependency.package dep) +:+ "-"
         +:+ Version_toString (Dependency.version dep));;
    dl_md5 ← do_download_file package_url fn;
    if negb (bool_decide (dl_md5 = Dependency.md5 dep)) then
      throw ("md5 does not match for package '"
             +:+ ProjectPath.toString (Dependency.package dep) +:+ "'")
    else
      write_or_throw md5file (Dependency.md5 dep)
        ("Cannot open the file '" +:+ Fs.to_string md5file +:+ "'");;
      LOG ("Unpacking: " +:+ Fs.to_string fn);;
      catch_rethrow (do_unpack_file fn version_dir) (fs_remove_all version_dir);;
      fs_remove fn
  else mret tt.

End Cache.

(** ** The registry client and resolver *)

(** The process: the [Config] at work, the file system and the current
    path. *)
Record State : Type := {
  this : Config.t;
  tree : Fs.tree;
  current_path : Fs.path;
}.

Definition set_this (x : Config.t) (s : State) : State :=
  {| this := x; tree := tree s; current_path := current_path s |}.
Definition set_tree (x : Fs.tree) (s : State) : State :=
  {| this := this s; tree := x; current_path := current_path s |}.
Definition set_current_path (x : Fs.path) (s : State) : State :=
  {| this := this s; tree := tree s; current_path := x |}.

Section Registry.

Context {decl : Declarations} {ext : Externals}.

Definition on_tree {A} (m : M Fs.tree A) : M State A := zoom tree set_tree m.

Definition get_home_directory : outcome Fs.path :=
  match getenv_HOME with
  | Some home => Done (Fs.of_string home)
  | None => Throw "Cannot get user's home directory ($HOME)"
  end.

Definition get_root_directory : outcome Fs.path :=
  do home <- get_home_directory; Done (Fs.div home [".cppan"]).

Definition get_config_filename : outcome Fs.path :=
  do root <- get_root_directory; Done (Fs.div root [".cppan"]).

(** [Config::Config()] *)
Definition Config_new : outcome Config.t :=
  do root <- get_root_directory;
  Done {| Config.host := default_host;
          Config.storage_dir := Fs.div root ["packages"];
          Config.root_project := [];
          Config.packages_dir_type := None;
          Config.proxy := {| proxy_host := ""; proxy_user := "" |};
          Config.check_functions := ∅;
          Config.check_includes := ∅;
          Config.check_types := {[ "size_t"; "void *" ]};
          Config.check_libraries := ∅;
          Config.check_symbols := ∅;
          Config.bs_insertions :=
            {| pre_sources := ""; post_sources := ""; post_target := "";
               post_alias := "" |};
          Config.projects := [];
          Config.packages := ∅;
          Config.indirect_dependencies := ∅;
          Config.global_options := ∅;
          Config.dependency_tree := pt.empty_tree |}.

(** [YAML::LoadFile(p.string())] *)
Definition YAML_LoadFile (p : Fs.path) : M State Node :=
  t ← gets tree;
  match t !! p with
  | Some (Fs.File content) => lift (YAML_Load content)
  | _ => throw "bad file"
  end.

(** [Config::load_common(const path &p)] *)
Definition load_common_file (c : Config.t) (p : Fs.path) : M State Config.t :=
  root ← YAML_LoadFile p;
  lift (load_common c root).

(** [Config::load_system_config()] *)
Definition load_system_config : M State Config.t :=
  let fn := Fs.of_string (CONFIG_ROOT +:+ "default") in
  c ← lift Config_new;
  there ← on_tree (fs_exists fn);
  if there : bool then load_common_file c fn else mret c.

(** [Config::save(p)] *)
Definition save (c : Config.t) (p : Fs.path) : M State unit :=
  on_tree
    (write_or_throw p
       (YAML_Emit [("host", Config.host c);
                   ("storage_dir", Fs.to_string (Config.storage_dir c))])
       ("Cannot open file: " +:+ Fs.to_string p)).

(** [Config::load_user_config()] *)
Definition load_user_config : M State Config.t :=
  fn ← lift get_config_filename;
  there ← on_tree (fs_exists fn);
  if there : bool then
    c ← load_system_config;
    load_common_file c fn
  else
    on_tree
      (tell (ev_create_directories (Fs.parent_path fn));;
       t ← gets id;
       match Fs.create_directories (Fs.parent_path fn) t with
       | Done t' => modify (λ _, t')
       | Throw msg => throw msg
       end);;
    c ← load_system_config;
    save c fn;;
    mret c.

(** [Config::get_packages_dir(type)]; [None] is no type at all. *)
Definition get_packages_dir (type : option PackagesDirType) : M State Fs.path :=
  match type with
  | Some Local => mret ["cppan"]
  | Some User => c ← load_user_config; mret (Config.storage_dir c)
  | Some System => c ← load_system_config; mret (Config.storage_dir c)
  | None => gets (λ s, Config.storage_dir (this s))
  end.

(** [Config::Config(const path &p)] *)
Definition Config_at (p : Fs.path) : M State Config.t :=
  c ← lift Config_new;
  old ← gets current_path;
  is_dir ← gets (λ s, Fs.is_directory (tree s) p);
  if is_dir : bool then
    modify (set_current_path p);;
    (* load_current_config() *)
    cp ← gets current_path;
    root ← YAML_LoadFile (Fs.div cp ["cppan.yml"]);
    c ← lift (load c cp "cppan.yml" root);
    modify (set_current_path old);;
    mret c
  else throw "boost::filesystem::current_path: No such file or directory".

(** The request: one entry per dependency with an absolute name. *)
Definition build_request (projects : list Project.t) : pt.ptree :=
  fold_left
    (λ data p,
       fold_left
         (λ data (d : string * Dependency.t),
            if ProjectPath.is_relative is_owner_segment (Dependency.package d.2)
            then data
            else
              let version :=
                pt.put "version" (Version_toString (Dependency.version d.2))
                  pt.empty_tree in
              pt.put_child
                (Str.split "|" (ProjectPath.toString (Dependency.package d.2)))
                version data)
         (map_items (Project.dependencies p)) data)
    projects pt.empty_tree.

(** The checks of the response: the API version and the error. *)
Definition check_response (dependency_tree : pt.ptree) : outcome unit :=
  do api <-
    (match pt.find "api" dependency_tree with
     | Some _ => pt.get_int "api" dependency_tree
     | None => Done 0
     end);
  match pt.find "error" dependency_tree with
  | Some e => Throw (pt.get_value_String e)
  | None =>
      if decide (api = 0) then Throw "Api version is missing in the response"
      else if decide (api ≠ 1) then Throw "Bad api version"
      else Done tt
  end.

(** The [Dependency] built from one entry of the response. *)
Definition read_dependency (remote_packages : list (string * pt.ptree))
    (v : string * pt.ptree) : outcome Dependency.t :=
  let dep := Dependency.set_package (ProjectPath.of_String v.1) Dependency.default in
  do vs <- pt.get_String "version" v.2;
  do version <- Version_of_String vs;
  let dep := Dependency.set_version version dep in
  do flags <- pt.get_uint64 "flags" v.2;
  let dep := Dependency.set_flags (Z.to_N flags) dep in
  do md5 <- pt.get_String "md5" v.2;
  let dep := Dependency.set_md5 md5 dep in
  match pt.find "dependencies" v.2 with
  | Some tree_deps =>
      do idx <- omapM (λ tree_dep : string * pt.ptree, pt.get_value_int tree_dep.2)
                  (pt.children tree_deps);
      do dependencies <-
        ofold (λ (deps : Dependencies) (v : string * pt.ptree),
                 do id <- pt.get_int "id" v.2;
                 if bool_decide (id ∈ idx) then
                   let dep2 :=
                     Dependency.set_package (ProjectPath.of_String v.1)
                       Dependency.default in
                   do vs <- pt.get_String "version" v.2;
                   do version <- Version_of_String vs;
                   let dep2 := Dependency.set_version version dep2 in
                   do flags <- pt.get_uint64 "flags" v.2;
                   let dep2 := Dependency.set_flags (Z.to_N flags) dep2 in
                   Done (<[ProjectPath.toString (Dependency.package dep2) := dep2]> deps)
                 else Done deps)
              (Dependency.dependencies dep) remote_packages;
      Done (Dependency.set_dependencies dependencies dep)
  | None => Done dep
  end.

(** [d.version = dep.version] for the dependency under [key] of the
    [i]-th project. *)
Definition pin_version (i : nat) (key : string) (version : Version.t) : M State unit :=
  modify (λ s,
    let projects := Config.projects (this s) in
    match projects !! i with
    | Some p =>
        let deps := Project.dependencies p in
        match deps !! key with
        | Some d =>
            set_this
              (Config.set_projects
                 (<[i := Project.set_dependencies
                           (<[key := Dependency.set_version version d]> deps) p]>
                    projects)
                 (this s)) s
        | None => s
        end
    | None => s
    end).

(** The declared dependencies of a project whose name, as a regular
    expression followed by [.*], matches the received one: the first is
    pinned, and gives the directory. *)
Fixpoint rebind_by_regex (i : nat) (dep : Dependency.t)
    (ds : list (string * Dependency.t)) : M State (option Fs.path) :=
  match ds with
  | [] => mret None
  | (key, d) :: rest =>
      matched ← lift (std_regex_match
                        (ProjectPath.toString (Dependency.package d) +:+ ".*")
                        (ProjectPath.toString (Dependency.package dep)));
      if matched : bool then
        pin_version i key (Dependency.version dep);;
        default_type ← gets (λ s, Config.packages_dir_type (this s));
        base ← get_packages_dir (Dependency.get_package_dir_type default_type d);
        mret (Some (Fs.div base
                      (Fs.of_string (ProjectPath.toString (Dependency.package dep)))))
      else rebind_by_regex i dep rest
  end.

(** One round of the loop over the projects for a direct dependency:
    [found] and [dir] before and after. *)
Definition rebind_in_project (dep : Dependency.t) (found_dir : bool * Fs.path) (i : nat)
  : M State (bool * Fs.path) :=
  projects ← gets (λ s, Config.projects (this s));
  match projects !! i with
  | None => mret found_dir
  | Some p =>
      let key := ProjectPath.toString (Dependency.package dep) in
      match Project.dependencies p !! key with
      | None =>
          r ← rebind_by_regex i dep (map_items (Project.dependencies p));
          match r with
          | Some dir => mret (true, dir)
          | None => mret found_dir
          end
      | Some d =>
          pin_version i key (Dependency.version dep);;
          default_type ← gets (λ s, Config.packages_dir_type (this s));
          base ← get_packages_dir (Dependency.get_package_dir_type default_type d);
          mret (true, Fs.div base
                        (Fs.of_string (ProjectPath.toString (Dependency.package d))))
      end
  end.

Fixpoint rebind_loop (dep : Dependency.t) (found_dir : bool * Fs.path)
    (indices : list nat) : M State (bool * Fs.path) :=
  match indices with
  | [] => mret found_dir
  | i :: rest =>
      found_dir ← rebind_in_project dep found_dir i;
      rebind_loop dep found_dir rest
  end.

(** The directory of a received package. *)
Definition locate (dep : Dependency.t) : M State Fs.path :=
  if Dependency.flag pfDirectDependency dep then
    n ← gets (λ s, length (Config.projects (this s)));
    '(found, dir) ← rebind_loop dep (false, []) (seq 0 n);
    if found : bool then mret dir
    else (* actually should not happen *)
      throw "Internal error: cannot match received dependency"
  else
    storage_dir ← gets (λ s, Config.storage_dir (this s));
    mret (Fs.div storage_dir
            (Fs.of_string (ProjectPath.toString (Dependency.package dep)))).

(** The build file of a fetched package is written and the package is
    recorded. *)
Definition emit_package (dep : Dependency.t) (version_dir : Fs.path) : M State unit :=
  let config_file := Fs.div version_dir [cmake_config_filename] in
  on_tree (write_or_throw config_file ""
             ("Cannot create a file: " +:+ Fs.to_string config_file));;
  c ← Config_at (Dependency.package_dir dep);
  parent ← gets this;
  '(ops, parent, pi) ← lift (print_package_config_file c dep parent);
  modify (set_this parent);;
  on_tree (tell (ev_write_file config_file (getText ops));;
           modify (λ t, <[config_file := Fs.File (getText ops)]> t));;
  if Dependency.flag pfDirectDependency dep then
    modify (λ s,
      set_this
        (Config.set_packages
           (<[ProjectPath.toString
                (Dependency.package (PackageInfo.dependency pi)) := pi]>
              (Config.packages (this s)))
           (this s)) s)
  else
    modify (λ s,
      set_this
        (Config.set_indirect_dependencies
           (<[ProjectPath.toString (Dependency.package dep) := dep]>
              (Config.indirect_dependencies (this s)))
           (this s)) s).

(** The body of the loop over the packages of the response. *)
Definition process_package (url data_url : string)
    (remote_packages : list (string * pt.ptree)) (v : string * pt.ptree)
  : M State unit :=
  dep ← lift (read_dependency remote_packages v);
  dir ← locate dep;
  let version_dir :=
    Fs.div dir (Fs.of_string (Version_toString (Dependency.version dep))) in
  let dep := Dependency.set_package_dir version_dir dep in
  on_tree (fetch_package url data_url dep);;
  emit_package dep version_dir.

(** The second half of [Config::download_dependencies()]: every package of
    the response is located, fetched and emitted. *)
Definition process_packages (url : string) (dependency_tree : pt.ptree)
  : M State unit :=
  let data_url :=
    match pt.find "data_dir" dependency_tree with
    | Some d => pt.get_value_String d
    | None => "data"
    end in
  remote_packages ← lift (pt.get_child "packages" dependency_tree);
  for_each (process_package url data_url (pt.children remote_packages))
    (pt.children remote_packages).

(** [Config::download_dependencies()] *)
Definition download_dependencies : M State unit :=
  (* send request *)
  url ← gets (λ s, Config.host (this s));
  data ← gets (λ s, build_request (Config.projects (this s)));
  (* no deps found *)
  if pt.empty data then mret tt
  else
    LOG "Requesting dependency list";;
    tell (ev_url_post (url +:+ "/api/find_dependencies") data);;
    dependency_tree ← lift (url_post (url +:+ "/api/find_dependencies") data);
    modify (λ s, set_this (Config.set_dependency_tree dependency_tree (this s)) s);;
    (* read deps urls, download them, unpack *)
    lift (check_response dependency_tree);;
    process_packages url dependency_tree.

End Registry.

(** ** The build files of the project itself *)

(** [isalnum(c)] in the C locale. *)
Definition isalnum (c : ascii) : bool :=
  let n := N_of_ascii c in
  ((48 <=? n) && (n <=? 57) || (65 <=? n) && (n <=? 90) || (97 <=? n) && (n <=? 122))%N.

(** [for (auto &c : s) c = f(c);] *)
Fixpoint map_chars (f : ascii → ascii) (s : string) : string :=
  match s with
  | EmptyString => EmptyString
  | String c s' => String (f c) (map_chars f s')
  end.

(** [s.substr(0, n)] *)
Fixpoint substr_0 (n : nat) (s : string) : string :=
  match n, s with
  | S n', String c s' => String c (substr_0 n' s')
  | _, _ => EmptyString
  end.

(** The [convert_function], [convert_include] and [convert_type] of
    [Config::print_helper_file]: the variable a check sets. *)
Definition convert_function (s : string) : string := "HAVE_" +:+ Str.to_upper s.

Definition convert_include (s : string) : string :=
  map_chars (λ c, if negb (isalnum c) then "_"%char else c)
    ("HAVE_" +:+ Str.to_upper s).

Definition convert_type (s : string) (prefix : string) : string :=
  map_chars (λ c, if decide (c = "*"%char) then "P"%char
                  else if negb (isalnum c) then "_"%char else c)
    (prefix +:+ Str.to_upper s).

(** The [add_checks] and [add_symbol_checks] of [Config::print_helper_file]. *)
Definition add_checks (a : gset string) (s : string) (f : string → string) : list op :=
  ((λ v, addLine (s +:+ "(" +:+ Str.quote +:+ v +:+ Str.quote +:+ " " +:+ f v +:+ ")"))
   <$> set_items a)
  ++ [emptyLines 1].

Definition add_symbol_checks (a : gmap string (gset string)) (s : string)
    (f : string → string) : list op :=
  concat ((λ v : string * gset string,
             [text (s +:+ "(" +:+ Str.quote +:+ v.1 +:+ Str.quote +:+ " " +:+ Str.quote)]
             ++ concat ((λ h, [text h; text ";"]) <$> set_items v.2)
             ++ [text (Str.quote +:+ " "); text (f v.1); text ")"; eol])
          <$> map_items a)
  ++ [emptyLines 1].

(** [add_if_definition(s, defs...)] *)
Definition add_if_definition (s : string) (defs : list string) : list op :=
  let print_def (s : string) := [text "INTERFACE "; text s; eol] in
  [addLine ("if (" +:+ s +:+ ")"); increaseIndent;
   text "target_compile_definitions(cppan-helpers"; eol; increaseIndent]
  ++ print_def s
  ++ concat (print_def <$> defs)
  ++ [decreaseIndent; addLine ")"; decreaseIndent; addLine "endif()"; addLine ""].

Definition add_check_definitions (a : gset string) (f : string → string) : list op :=
  concat ((λ v, add_if_definition (f v) []) <$> set_items a).

Definition add_check_symbol_definitions (a : gmap string (gset string))
    (f : string → string) : list op :=
  concat ((λ v : string * gset string, add_if_definition (f v.1) []) <$> map_items a).

(** The calls [Config::print_helper_file()] makes on its context. *)
Definition helper_file (this : Config.t) : list op :=
  [addLine "#"; addLine "# cppan"; addLine "# helper routines"; addLine "#"; addLine ""]
  ++ config_section_title "cmake setup"
  ++ [addLine ("# Use solution folders." +:+ Str.nl
               +:+ "set_property(GLOBAL PROPERTY USE_FOLDERS ON)");
      addLine ""]
  (* cmake includes *)
  ++ config_section_title "cmake includes"
  ++ [addLine ("include(CheckCXXSymbolExists)" +:+ Str.nl
               +:+ "include(CheckFunctionExists)" +:+ Str.nl
               +:+ "include(CheckIncludeFiles)" +:+ Str.nl
               +:+ "include(CheckLibraryExists)" +:+ Str.nl
               +:+ "include(CheckTypeSize)" +:+ Str.nl
               +:+ "include(TestBigEndian)");
      addLine ""]
  ++ config_section_title "common checks"
  ++ [addLine "test_big_endian(WORDS_BIGENDIAN)";
      (* aliases *)
      addLine ("set(BIG_ENDIAN ${WORDS_BIGENDIAN} CACHE STRING " +:+ Str.quote
               +:+ "endianness alias" +:+ Str.quote +:+ ")");
      addLine ("set(BIGENDIAN ${WORDS_BIGENDIAN} CACHE STRING " +:+ Str.quote
               +:+ "endianness alias" +:+ Str.quote +:+ ")");
      addLine ("set(HOST_BIG_ENDIAN ${WORDS_BIGENDIAN} CACHE STRING " +:+ Str.quote
               +:+ "endianness alias" +:+ Str.quote +:+ ")");
      addLine ""]
  (* checks *)
  ++ config_section_title "checks"
  ++ add_checks (Config.check_functions this) "check_function_exists" convert_function
  ++ add_symbol_checks (Config.check_symbols this) "check_cxx_symbol_exists"
       convert_function
  ++ add_checks (Config.check_includes this) "check_include_files" convert_include
  ++ add_checks (Config.check_types this) "check_type_size" (λ v, convert_type v "HAVE_")
  ++ concat ((λ v,
                [addLine ("if (" +:+ convert_type v "HAVE_" +:+ ")"); increaseIndent;
                 addLine ("set(" +:+ convert_type v "SIZE_OF_" +:+ " ${"
                          +:+ convert_type v "HAVE_" +:+ "})");
                 addLine ("set(" +:+ convert_type v "SIZEOF_" +:+ " ${"
                          +:+ convert_type v "HAVE_" +:+ "})");
                 decreaseIndent; addLine "endif()"; addLine ""])
             <$> set_items (Config.check_types this))
  (* fixups *)
  ++ [emptyLines 1]
  (* library *)
  ++ config_section_title "library"
  ++ [addLine "add_library(cppan-helpers INTERFACE)"; addLine "";
      (* common definitions *)
      text "target_compile_definitions(cppan-helpers"; eol; increaseIndent;
      addLine "INTERFACE CPPAN"; decreaseIndent; addLine ")"; addLine "";
      (* common link libraries *)
      addLine ("if (WIN32)" +:+ Str.nl
               +:+ "target_link_libraries(cppan-helpers" +:+ Str.nl
               +:+ "    INTERFACE Ws2_32" +:+ Str.nl
               +:+ ")" +:+ Str.nl
               +:+ "else()" +:+ Str.nl
               +:+ "target_link_libraries(cppan-helpers" +:+ Str.nl
               +:+ "    INTERFACE pthread" +:+ Str.nl
               +:+ ")" +:+ Str.nl
               +:+ "endif()" +:+ Str.nl);
      addLine "";
      addLine "export(TARGETS cppan-helpers FILE ${CMAKE_BINARY_DIR}/cppan.cmake)";
      emptyLines 1]
  (* global definitions *)
  ++ config_section_title "global definitions"
  ++ [text "target_compile_definitions(cppan-helpers"; eol; increaseIndent]
  ++ concat ((λ o : string * Options.t,
                (λ opt, addLine ("INTERFACE " +:+ opt))
                <$> set_items (Options.global_definitions o.2))
             <$> map_items (Config.global_options this))
  ++ [decreaseIndent; addLine ")"; addLine ""]
  (* definitions *)
  ++ config_section_title "definitions"
  ++ add_if_definition "WORDS_BIGENDIAN" ["BIGENDIAN"; "BIG_ENDIAN"; "HOST_BIG_ENDIAN"]
  ++ add_check_definitions (Config.check_functions this) convert_function
  ++ add_check_symbol_definitions (Config.check_symbols this) convert_function
  ++ add_check_definitions (Config.check_includes this) convert_include
  ++ add_check_definitions (Config.check_types this) (λ v, convert_type v "HAVE_")
  (* re-run cppan when root cppan.yml is changed *)
  ++ config_section_title "cppan regenerator"
  ++ [addLine ("add_custom_target(run-cppan" +:+ Str.nl
               +:+ "    COMMAND cppan" +:+ Str.nl
               +:+ "    WORKING_DIRECTORY ${PROJECT_SOURCE_DIR}" +:+ Str.nl
               +:+ "    DEPENDS ${PROJECT_SOURCE_DIR}/cppan.yml" +:+ Str.nl
               +:+ "    SOURCES ${PROJECT_SOURCE_DIR}/cppan.yml" +:+ Str.nl
               +:+ ")" +:+ Str.nl
               +:+ "set_target_properties(run-cppan PROPERTIES" +:+ Str.nl
               +:+ "    FOLDER " +:+ Str.quote +:+ "cppan" +:+ Str.quote +:+ Str.nl
               +:+ ")");
      addLine "";
      addLine config_delimeter; addLine ""].

Section BuildFiles.

Context {decl : Declarations} {ext : Externals}.

(** [sha1], which [common.h] declares. *)
Variable sha1 : string → string.

(** [p.filename()] of a path: its last element. *)
Definition path_filename (p : Fs.path) : Fs.path :=
  match reverse p with
  | x :: _ => [x]
  | [] => []
  end.

(** The [add_dep_subdir] of [Config::print_meta_config_file]. *)
Definition add_dep_subdir (package_dir : Fs.path) : list op :=
  let src_dir := Str.replace "\" "/" (Fs.to_string package_dir) in
  let bin_dir :=
    Fs.to_string (Fs.div (path_filename (Fs.parent_path package_dir))
                    (path_filename package_dir)) in
  let bin_dir := Str.replace "\" "/" bin_dir in
  let bin_dir := substr_0 6 (sha1 bin_dir) in
  [text "add_subdirectory("; text src_dir; text " "; text bin_dir; text ")"; eol].

(** The calls [Config::print_meta_config_file()] makes on its context. *)
Definition meta_file (this : Config.t) : list op :=
  let cppan_project_name := "cppan" in
  [addLine "#"; addLine "# cppan"; addLine "# meta config file"; addLine "#";
   addLine ""; addLine "cmake_minimum_required(VERSION 3.0.0)"; addLine "";
   addLine ("include(" +:+ cmake_helpers_filename +:+ ")"); addLine ""]
  ++ config_section_title "variables"
  ++ [addLine ("set(USES_CPPAN 1 CACHE STRING " +:+ Str.quote +:+ "CPPAN is turned on"
               +:+ Str.quote +:+ ")");
      addLine "";
      addLine "set(CPPAN_SOURCE_DIR ${CMAKE_CURRENT_SOURCE_DIR})";
      addLine "set(CPPAN_BINARY_DIR ${CMAKE_CURRENT_BINARY_DIR})";
      addLine "";
      addLine "set(CMAKE_POSITION_INDEPENDENT_CODE ON)";
      addLine ""]
  ++ (if negb (bool_decide (Config.packages this = ∅)) then
        config_section_title "direct dependencies"
        ++ concat ((λ p : string * PackageInfo.t,
                      add_dep_subdir (Dependency.package_dir (PackageInfo.dependency p.2)))
                   <$> map_items (Config.packages this))
        ++ [addLine ""]
      else [])
  ++ (if negb (bool_decide (Config.indirect_dependencies this = ∅)) then
        config_section_title "indirect dependencies"
        ++ concat ((λ id : string * Dependency.t,
                      add_dep_subdir (Dependency.package_dir id.2))
                   <$> map_items (Config.indirect_dependencies this))
        ++ [addLine ""]
      else [])
  ++ config_section_title "main library"
  ++ [addLine ("add_library                   (" +:+ cppan_project_name +:+ " INTERFACE)")]
  ++ (if negb (bool_decide (Config.packages this = ∅)) then
        [addLine ("target_link_libraries         (" +:+ cppan_project_name);
         increaseIndent]
        ++ concat ((λ p : string * PackageInfo.t,
                      if Dependency.flag pfExecutable (PackageInfo.dependency p.2)
                      then []
                      else [addLine ("INTERFACE " +:+ PackageInfo.target_name p.2)])
                   <$> map_items (Config.packages this))
        ++ [decreaseIndent; addLine ")"; addLine ""]
      else [])
  ++ [addLine ("export(TARGETS " +:+ cppan_project_name
               +:+ " APPEND FILE ${CMAKE_BINARY_DIR}/cppan.cmake)");
      emptyLines 1; addLine config_delimeter; addLine ""].

(** [fs::create_directories(p)], the throwing overload. *)
Definition fs_create_directories (p : Fs.path) : M Fs.tree unit :=
  tell (ev_create_directories p);;
  t ← gets id;
  match Fs.create_directories p t with
  | Done t' => modify (λ _, t')
  | Throw msg => throw msg
  end.

(** [Config::print_meta_config_file()] *)
Definition print_meta_config_file : M State unit :=
  cp ← gets current_path;
  let fn := Fs.div (Fs.div cp ["cppan"]) [cmake_config_filename] in
  on_tree (fs_create_directories (Fs.parent_path fn));;
  c ← gets this;
  on_tree (write_or_throw fn (getText (meta_file c))
             ("Cannot create a file: " +:+ Fs.to_string fn)).

(** [Config::print_helper_file()] *)
Definition print_helper_file : M State unit :=
  cp ← gets current_path;
  let fn := Fs.div (Fs.div cp ["cppan"]) [cmake_helpers_filename] in
  on_tree (fs_create_directories (Fs.parent_path fn));;
  c ← gets this;
  on_tree (write_or_throw fn (getText (helper_file c))
             ("Cannot create a file: " +:+ Fs.to_string fn)).

(** [Config::create_build_files()] *)
Definition create_build_files : M State unit :=
  print_meta_config_file;;
  print_helper_file.

End BuildFiles.

(** ** Names for what the theorems speak about *)

Section Observations.

Context {decl : Declarations} {ext : Externals}.

(** The digest file, the downloaded archive and its address, for a
    package whose [package_dir] is its version directory. *)
Definition md5file_of (dep : Dependency.t) : Fs.path :=
  Fs.div (Fs.parent_path (Dependency.package_dir dep)) [md5_filename].
Definition archive_of (dep : Dependency.t) : Fs.path :=
  Fs.add_suffix (Dependency.package_dir dep) ".tar.gz".
Definition package_url_of (url data_url : string) (dep : Dependency.t) : string :=
  url +:+ "/" +:+ data_url +:+ "/"
  +:+ Str.replace "\" "/" (ProjectPath.toFileSystemPath (Dependency.package dep))
  +:+ "/" +:+ Version_toString (Dependency.version dep) +:+ ".tar.gz".

(** The cache entry is reused: the directory is there and the stored
    digest is the package's, which is not empty. *)
Definition up_to_date (dep : Dependency.t) (t : Fs.tree) : bool :=
  Fs.exists_ t (Dependency.package_dir dep)
  && bool_decide (Fs.read_token t (md5file_of dep) = Dependency.md5 dep)
  && negb (Str.empty (Dependency.md5 dep)).

(** The fetcher writes the file it is asked to write, and at most the
    directories above it. *)
Definition download_confined : Prop :=
  ∀ url fn t p, ¬ p `prefix_of` fn → (download_file url fn t).1 !! p = t !! p.

(** The request of [download_dependencies]: where it goes, what it leaves
    in the trace, and the state once the response is stored. *)
Definition find_dependencies_url (s : State) : string :=
  Config.host (this s) +:+ "/api/find_dependencies".
Definition request_events (s : State) : list event :=
  [ev_log "Requesting dependency list";
   ev_url_post (find_dependencies_url s) (build_request (Config.projects (this s)))].
Definition with_response (dependency_tree : pt.ptree) (s : State) : State :=
  set_this (Config.set_dependency_tree dependency_tree (this s)) s.

End Observations.




(** The statements a context is given: the line of each [addLine], and
    what is streamed with [<<] up to each [Context::eol], joined.  [feed]
    takes the statements so far and the text of the statement being
    streamed through one call. *)
Definition feed (st : list string * string) (o : op) : list string * string :=
  match o with
  | addLine s => (st.1 ++ [s], st.2)
  | text s => (st.1, st.2 +:+ s)
  | eol => (st.1 ++ [st.2], "")
  | _ => st
  end.
Definition statements (l : list op) : list string := (fold_left feed l ([], "")).1.

(** Every statement of [l] satisfies [P], and none is left open at the
    end of [l]. *)
Definition all_statements (P : string → Prop) (l : list op) : Prop :=
  (fold_left feed l ([], "")).2 = "" ∧ Forall P (statements l).

(** Among the calls [l] are the calls [x] and, further on, the calls
    [y]. *)
Definition followed_by (l x y : list op) : Prop :=
  ∃ before between after, l = before ++ x ++ between ++ y ++ after.

(** The statement [add_symbol_checks] streams for one symbol and its
    headers. *)
Definition symbol_check (s : string) (f : string → string) (v : string * gset string)
  : list op :=
  [text (s +:+ "(" +:+ Str.quote +:+ v.1 +:+ Str.quote +:+ " " +:+ Str.quote)]
  ++ concat ((λ h, [text h; text ";"]) <$> set_items v.2)
  ++ [text (Str.quote +:+ " "); text (f v.1); text ")"; eol].

(** The insertion text as the specification words it: the value without
    its final newline, when it ends in one. *)
Definition strip_trailing_newline (s : string) : string :=
  match Str.last s with
  | Some c => if decide (c = ascii_of_nat 10) then Str.drop_last s else s
  | None => s
  end.

(** Where a path leads once [.] and [..] are resolved, and whether that is
    the directory [root] or below it. *)
Definition lexically_normal (p : Fs.path) : Fs.path :=
  fold_left
    (λ acc x,
       if decide (x = ".") then acc
       else if decide (x = "..") then
         match acc with
         | [] | ["/"] => acc
         | _ => removelast acc
         end
       else acc ++ [x])
    p [].
Definition is_under_root (p root : Fs.path) : bool :=
  bool_decide (lexically_normal root `prefix_of` lexically_normal p).

(** Every entry of a dependency map is filed under the dotted name of its
    package. *)
Definition keyed_by_name (deps : Dependencies) : Prop :=
  ∀ k d, deps !! k = Some d → k = ProjectPath.toString (Dependency.package d).

(** The characters of the variables the checks set: digits, capitals and
    the underscore. *)
Definition is_identifier_char (c : ascii) : bool :=
  let n := N_of_ascii c in
  ((48 <=? n) && (n <=? 57) || (65 <=? n) && (n <=? 90) || (n =? 95))%N.

Fixpoint all_chars (P : ascii → bool) (s : string) : bool :=
  match s with
  | EmptyString => true
  | String c s' => P c && all_chars P s'
  end.

Section Surroundings.

Context {ext : Externals}.

(** The archiver writes the directory it unpacks into and below it, and
    nothing else; when it succeeds that directory is there. *)
Definition unpack_confined : Prop :=
  ∀ fn dst t p, ¬ dst `prefix_of` p → (unpack_file fn dst t).1 !! p = t !! p.
Definition unpack_creates : Prop :=
  ∀ fn dst t, is_done (unpack_file fn dst t).2 = true →
              Fs.exists_ (unpack_file fn dst t).1 dst = true.

(** The YAML parser reads back the map of scalars the emitter wrote for
    the given keys and values. *)
Definition reads_back (kv : list (string * string)) : Prop :=
  YAML_Load (YAML_Emit kv) = Done (Map ((λ e, (Scalar e.1, Scalar e.2)) <$> kv)).

End Surroundings.

(** ** Proof automation *)

(** A hypothesis that an event is in a trace is split down to the event it
    names; what is left is closed when it contradicts itself. *)
Ltac events :=
  repeat match goal with
  | H : _ ∈ _ ++ _ |- _ => apply elem_of_app in H as [H|H]
  | H : _ ∈ (if ?b then _ else _) |- _ => destruct b
  | H : _ ∈ _ :: _ |- _ => apply elem_of_cons in H as [H|H]
  | H : _ ∈ [] |- _ => by apply elem_of_nil in H
  | H : ev_download_file _ _ _ = _ |- _ => injection H as ???; subst
  | H : ev_unpack_file _ _ _ = _ |- _ => injection H as ???; subst
  end; try congruence.

(** A chain of appended lists holds [mid]: the goal
    [∃ b a, l = b ++ mid ++ a] is walked down to the place where [mid]
    stands, with the lemma for that place and the one for a step. *)
Ltac find_infix here later :=
  repeat lazymatch goal with
  | |- ∃ b a, ?m ++ _ = b ++ ?m' ++ a =>
      first [constr_eq m m'; apply here | apply later]
  end.

(** A successful sequence of steps is taken apart into its steps. *)
Ltac steps H :=
  repeat match type of H with
  | obind (Done _) _ = Done _ => progress cbn [obind] in H
  | obind ?x _ = Done _ =>
      let E := fresh "Hstep" in
      destruct x eqn:E; cbn [obind] in H; [|discriminate H]
  | (if ?b then Throw _ else _) = Done _ =>
      let E := fresh "Hcond" in
      destruct b eqn:E; [discriminate H|]
  end.

(** A property of a chain of appended parts is proved part by part:
    [app] is the lemma for two appended parts, [joined] the one for the
    parts of a loop, [lines] the one for a loop of [addLine] calls; a
    branch of the code is taken both ways, and a part that is written out
    is computed. *)
Ltac by_sections app joined lines :=
  repeat first
    [ apply app
    | apply joined; intros ?
    | apply lines; intros ?
    | match goal with
      | |- _ (if ?b then _ else _) => destruct b
      | |- _ (match ?x with _ => _ end) => destruct x
      end
    | by split; [|repeat constructor]
    | reflexivity ].


(** ** A concrete instance *)

Module Example.

Definition component (s : string) : option Z :=
  match pt.read_number s with
  | Some (false, m, EmptyString) => Some m
  | _ => None
  end.

Definition parse_version (s : string) : outcome Version.t :=
  if decide (s = "*") then Done Version.any
  else
    match component <$> Str.split "." s with
    | [Some x] => Done (Version.mk x (-1) (-1) "")
    | [Some x; Some y] => Done (Version.mk x y (-1) "")
    | [Some x; Some y; Some z] => Done (Version.mk x y z "")
    | _ => Done (Version.mk (-1) (-1) (-1) s)
    end.

Definition render_version (v : Version.t) : string :=
  if Version.isBranch v then Version.branch v else Version.toAnyVersion v.

Definition declarations : Declarations :=
  {| is_owner_segment := λ s, bool_decide (s ∈ ["com"; "org"; "pvt"]);
     flag_index := λ f,
       match f with
       | pfHeaderOnly => 0 | pfExecutable => 1
       | pfPrivate => 2 | pfDirectDependency => 3
       end%N;
     Version_of_String := parse_version;
     Version_toString := render_version;
     default_host := "https://cppan.org";
     CONFIG_ROOT := "/etc/cppan/" |}.

(** A registry that answers every request with [response], serves
    archives whose digest is [served_md5], and an archiver that unpacks a
    manifest, or fails half way when [unpacks] is off. *)
Definition externals (response : pt.ptree) (served_md5 : string) (unpacks : bool)
  : Externals :=
  {| getenv_HOME := Some "/home/user";
     YAML_Load := λ _, Done (Map []);
     YAML_Emit := λ kv, Str.join Str.nl ((λ e : string * string, e.1 +:+ ": " +:+ e.2) <$> kv);
     std_regex_match := λ e s, Done (bool_decide (e = s +:+ ".*"));
     url_post := λ _ _, Done response;
     download_file := λ url fn t, (<[fn := Fs.File url]> t, Done served_md5);
     unpack_file := λ fn dst t,
       if unpacks
       then (<[dst ++ ["cppan.yml"] := Fs.File ""]> (<[dst := Fs.Dir]> t), Done tt)
       else (<[dst := Fs.Dir]> t, Throw "archive: truncated input");
     getText := λ ops, "" |}.

Definition leaf (key value : string) : string * pt.ptree := (key, pt.Tree value []).

Definition org_a_b : Dependency.t :=
  Dependency.set_package_dir ["packages"; "org.a.b"; "1.2.3"]
    (Dependency.set_md5 "abc"
       (Dependency.set_version (Version.mk 1 2 3 "")
          (Dependency.set_package ["org"; "a"; "b"] Dependency.default))).

(** The cache before the first fetch, and with the package in it. *)
Definition empty_cache : Fs.tree :=
  {[ ["packages"] := Fs.Dir; ["packages"; "org.a.b"] := Fs.Dir ]}.
Definition cached (stored_md5 : string) : Fs.tree :=
  <[ ["packages"; "org.a.b"; "archive.md5"] := Fs.File stored_md5 ]>
    (<[ ["packages"; "org.a.b"; "1.2.3"] := Fs.Dir ]> empty_cache).

Definition project (dependencies : Dependencies) : Project.t :=
  {| Project.package := []; Project.cppan_filename := "cppan.yml";
     Project.license := ""; Project.empty := false;
     Project.shared_only := false; Project.static_only := false;
     Project.root_directory := ""; Project.sources := ∅;
     Project.build_files := ∅; Project.files := ∅;
     Project.exclude_from_build := ∅;
     Project.include_directories := {| public_ := ∅; private_ := ∅ |};
     Project.header_only := false; Project.dependencies := dependencies;
     Project.options := ∅;
     Project.bs_insertions :=
       {| pre_sources := ""; post_sources := ""; post_target := ""; post_alias := "" |} |}.

Definition config (root_project : ProjectPath.t) (projects : list Project.t) : Config.t :=
  {| Config.host := "https://cppan.org";
     Config.storage_dir := ["packages"];
     Config.root_project := root_project;
     Config.packages_dir_type := None;
     Config.proxy := {| proxy_host := ""; proxy_user := "" |};
     Config.check_functions := ∅; Config.check_includes := ∅;
     Config.check_types := ∅; Config.check_libraries := ∅;
     Config.check_symbols := ∅;
     Config.bs_insertions :=
       {| pre_sources := ""; post_sources := ""; post_target := ""; post_alias := "" |};
     Config.projects := projects; Config.packages := ∅;
     Config.indirect_dependencies := ∅; Config.global_options := ∅;
     Config.dependency_tree := pt.empty_tree |}.

Definition state (c : Config.t) : State :=
  {| this := c; tree := empty_cache; current_path := ["/"; "home"; "user"; "project"] |}.

(** One project that depends on [org.a.b], and one whose only dependency
    has a relative name. *)
Definition with_absolute : State :=
  state (config [] [project {[ "org.a.b" :=
                                Dependency.set_package ["org"; "a"; "b"] Dependency.default ]}]).
Definition with_relative : State :=
  state (config ["org"; "me"]
           [project {[ "org.me.subproj" :=
                         Dependency.set_package ["subproj"] Dependency.default ]}]).

(** Sources: one header below [include], found by a pattern. *)
Definition discovery : Discovery :=
  {| exists_under := λ _, false;
     walk := Done [("include/x.hpp", true); ("include", false)];
     regex_compiles := λ _, true;
     regex_match := λ e s, bool_decide (e = "include/.*") && String.prefix "include/" s;
     check_filename := λ _, true;
     file_ib := λ fl, Done ((λ _, "text/x-c; charset=us-ascii") <$> fl);
     license_size := Some 1063;
     copy_manifest := Done tt |}.

Definition header_project (license : string) : Project.t :=
  {| Project.package := []; Project.cppan_filename := "cppan.yml";
     Project.license := license; Project.empty := false;
     Project.shared_only := false; Project.static_only := false;
     Project.root_directory := ""; Project.sources := {[ "include/.*" ]};
     Project.build_files := ∅; Project.files := ∅;
     Project.exclude_from_build := ∅;
     Project.include_directories := {| public_ := ∅; private_ := ∅ |};
     Project.header_only := false; Project.dependencies := ∅;
     Project.options := ∅;
     Project.bs_insertions :=
       {| pre_sources := ""; post_sources := ""; post_target := ""; post_alias := "" |} |}.

End Example.

(** ** Further instances *)

Module Scenario.

(** A line [key: value], taken apart at the first colon that a space
    follows. *)
Fixpoint key_value (key : string) (s : string) : string * string :=
  match s with
  | String ":" (String " " value) => (String.rev key, value)
  | String c s' => key_value (String c key) s'
  | EmptyString => (String.rev key, EmptyString)
  end.

(** A parser for the lines the emitter of [Example] writes, with the
    registry, the fetcher and the archiver of [Example]. *)
Definition externals : Externals :=
  {| getenv_HOME := Some "/home/user";
     YAML_Load := λ s,
       Done (Map ((λ line, let '(k, v) := key_value "" line in (Scalar k, Scalar v))
                  <$> Str.split (ascii_of_nat 10) s));
     YAML_Emit := λ kv, Str.join Str.nl ((λ e : string * string, e.1 +:+ ": " +:+ e.2) <$> kv);
     std_regex_match := λ e s, Done (bool_decide (e = s +:+ ".*"));
     url_post := λ _ _, Done pt.empty_tree;
     download_file := λ url fn t, (<[fn := Fs.File url]> t, Done "abc");
     unpack_file := λ fn dst t,
       (<[dst ++ ["cppan.yml"] := Fs.File ""]> (<[dst := Fs.Dir]> t), Done tt);
     getText := λ ops, "" |}.

(** The cache with the package unpacked in it, and with one more file. *)
Definition unpacked : Fs.tree :=
  <[ ["packages"; "org.a.b"; "1.2.3"; "cppan.yml"] := Fs.File "" ]> (Example.cached "abc").
Definition with_notes : Fs.tree :=
  <[ ["packages"; "org.a.b"; "NOTES"] := Fs.File "kept" ]> Example.empty_cache.

Definition state (t : Fs.tree) : State :=
  {| this := Example.config [] [];
     tree := t;
     current_path := ["/"; "home"; "user"; "project"] |}.

(** The first run of [load_user_config] of a user without a
    configuration file, and the configuration it gives. *)
Definition first_run : State * list event * outcome Config.t :=
  load_user_config (decl := Example.declarations) (ext := externals)
    (state Example.empty_cache).
Definition user_config : Config.t :=
  match first_run.2 with
  | Done c => c
  | Throw _ => Example.config [] []
  end.
Definition user_config_file : Fs.path := ["/"; "home"; "user"; ".cppan"; ".cppan"].


End Scenario.

(** * Properties *)

(** ** Strings and paths *)

Lemma append_cons (c : ascii) (s1 s2 : string) :
  String c s1 +:+ s2 = String c (s1 +:+ s2).
Proof. reflexivity. Qed.

Lemma string_length_app (a b : string) :
  String.length (a +:+ b) = (String.length a + String.length b)%nat.
Proof.
  induction a as [|c a IH]; [done|].
  rewrite append_cons. simpl. by rewrite IH.
Qed.

Lemma append_suffix_ne (x s : string) : s ≠ "" → x ≠ x +:+ s.
Proof.
  intros Hs Heq. apply Hs.
  assert (String.length (x +:+ s) = String.length x) as Hl by (by rewrite <-Heq).
  rewrite string_length_app in Hl.
  destruct s; [done|]. simpl in Hl. lia.
Qed.

Lemma replace_app a b (s1 s2 : string) :
  Str.replace a b (s1 +:+ s2) = Str.replace a b s1 +:+ Str.replace a b s2.
Proof.
  induction s1 as [|c s1 IH]; [done|].
  rewrite append_cons. cbn [Str.replace]. by rewrite IH, append_cons.
Qed.

Lemma drop_last_app_char (s : string) (c : ascii) :
  Str.drop_last (s +:+ String c "") = s.
Proof.
  induction s as [|x s IH]; [done|].
  rewrite append_cons. cbn [Str.drop_last]. rewrite IH.
  destruct s; [done|]. by rewrite append_cons.
Qed.

Lemma last_app_char (s : string) (c : ascii) :
  Str.last (s +:+ String c "") = Some c.
Proof.
  induction s as [|x s IH]; [done|].
  rewrite append_cons. cbn [Str.last]. rewrite IH.
  destruct s; [done|]. by rewrite append_cons.
Qed.

Lemma compare_refl (s : string) : String.compare s s = Eq.
Proof.
  induction s as [|c s IH]; simpl; [done|].
  unfold Ascii.compare. by rewrite N.compare_refl.
Qed.

(** A path that continues [cp] is never less than [cp]. *)
Lemma path_lt_app (cp q : Fs.path) : Fs.lt (cp ++ q) cp = false.
Proof.
  unfold Fs.lt. induction cp as [|x cp IH]; simpl.
  - by destruct q.
  - by rewrite compare_refl.
Qed.

Lemma add_suffix_length (p : Fs.path) (s : string) :
  p ≠ [] → length (Fs.add_suffix p s) = length p.
Proof.
  induction p as [|x p IH]; [done|]. intros _.
  destruct p as [|y p]; [done|].
  change (Fs.add_suffix (x :: y :: p) s) with (x :: Fs.add_suffix (y :: p) s).
  simpl length. f_equal. by apply IH.
Qed.

Lemma add_suffix_ne (p : Fs.path) (s : string) : s ≠ "" → Fs.add_suffix p s ≠ p.
Proof.
  intros Hs. induction p as [|x p IH]; [done|].
  destruct p as [|y p].
  - simpl. intros [= Heq]. by eapply append_suffix_ne.
  - change (Fs.add_suffix (x :: y :: p) s) with (x :: Fs.add_suffix (y :: p) s).
    intros [= Heq]. by apply IH.
Qed.

(** The archive lies beside the version directory, not below it. *)
Lemma not_prefix_add_suffix (p : Fs.path) (s : string) :
  p ≠ [] → s ≠ "" → ¬ p `prefix_of` Fs.add_suffix p s.
Proof.
  intros Hp Hs Hpre.
  apply (add_suffix_ne p s Hs). symmetry.
  apply prefix_length_eq; [done|]. by rewrite add_suffix_length.
Qed.

Lemma remove_all_lookup (p : Fs.path) (t : Fs.tree) : Fs.remove_all p t !! p = None.
Proof.
  unfold Fs.remove_all. apply map_lookup_filter_None. right.
  intros x _ Hn. by apply Hn.
Qed.

Lemma exists_false (t : Fs.tree) (p : Fs.path) : Fs.exists_ t p = false ↔ t !! p = None.
Proof.
  unfold Fs.exists_. by rewrite bool_decide_eq_false, <-eq_None_not_Some.
Qed.

Lemma elem_of_map_items {A} (m : gmap string A) k x :
  (k, x) ∈ map_items m ↔ m !! k = Some x.
Proof.
  unfold map_items. rewrite merge_sort_Permutation. apply elem_of_map_to_list.
Qed.

Lemma infix_here {A} (mid after : list A) :
  ∃ b a, mid ++ after = b ++ mid ++ a.
Proof. by exists [], after. Qed.

Lemma infix_later {A} (x l mid : list A) :
  (∃ b a, l = b ++ mid ++ a) → ∃ b a, x ++ l = b ++ mid ++ a.
Proof. intros (b & a & ->). exists (x ++ b), a. by rewrite <-(assoc_L (++)). Qed.

Lemma triple_eta {A B C} (x : A * B * C) : x = (x.1.1, x.1.2, x.2).
Proof. by destruct x as [[? ?] ?]. Qed.

(** ** The package cache *)

Section CacheProperties.

Context {decl : Declarations} {ext : Externals}.

(** [fetch_package] as the tree of its cases. *)
Lemma fetch_package_unfold url data_url dep t :
  let vd := Dependency.package_dir dep in
  let fn := archive_of dep in
  let purl := package_url_of url data_url dep in
  let md5 := Dependency.md5 dep in
  let t1 := if Fs.exists_ t vd then Fs.remove_all vd t else t in
  let pre := (if Fs.exists_ t vd then [ev_remove_all vd] else [])
             ++ [ev_log ("Downloading: " +:+ ProjectPath.toString (Dependency.package dep)
                         +:+ "-" +:+ Version_toString (Dependency.version dep))] in
  fetch_package url data_url dep t =
    if up_to_date dep t then (t, [], Done tt)
    else
      match download_file purl fn t1 with
      | (t2, Throw e) => (t2, pre ++ [ev_download_file purl fn (Throw e)], Throw e)
      | (t2, Done m) =>
          if negb (bool_decide (m = md5)) then
            (t2, pre ++ [ev_download_file purl fn (Done m)],
             Throw ("md5 does not match for package '"
                    +:+ ProjectPath.toString (Dependency.package dep) +:+ "'"))
          else if Fs.can_open_for_writing t2 (md5file_of dep) then
            let t3 := <[md5file_of dep := Fs.File md5]> t2 in
            let mid := pre ++ [ev_download_file purl fn (Done m);
                               ev_write_file (md5file_of dep) md5;
                               ev_log ("Unpacking: " +:+ Fs.to_string fn)] in
            match unpack_file fn vd t3 with
            | (t4, Throw e) =>
                (Fs.remove_all vd t4,
                 mid ++ [ev_unpack_file fn vd false; ev_remove_all vd], Throw e)
            | (t4, Done _) =>
                match Fs.remove fn t4 with
                | Done t5 => (t5, mid ++ [ev_unpack_file fn vd true; ev_remove fn], Done tt)
                | Throw e => (t4, mid ++ [ev_unpack_file fn vd true; ev_remove fn], Throw e)
                end
            end
          else
            (t2, pre ++ [ev_download_file purl fn (Done m)],
             Throw ("Cannot open the file '" +:+ Fs.to_string (md5file_of dep) +:+ "'"))
      end.
Proof.
  cbv zeta.
  unfold fetch_package, up_to_date, md5file_of, archive_of, package_url_of.
  cbv [mbind M_bind gets fs_exists mret M_ret LOG tell throw catch_rethrow
       write_or_throw fs_remove_all fs_remove do_download_file do_unpack_file modify id].
  cbv zeta.
  destruct (bool_decide (Fs.read_token t _ = Dependency.md5 dep)) eqn:Htok;
    destruct (Str.empty (Dependency.md5 dep)) eqn:Hemp;
    destruct (Str.empty (Fs.read_token t _)) eqn:Hemp2;
    try (apply bool_decide_eq_true in Htok; congruence);
    destruct (Fs.exists_ t (Dependency.package_dir dep)) eqn:Hex; simpl;
    try reflexivity.
  all: destruct (download_file _ _ _) as [t2 [m|e]]; simpl; try reflexivity.
  all: destruct (bool_decide (m = _)); simpl; try reflexivity.
  all: destruct (Fs.can_open_for_writing t2 _); simpl; try reflexivity.
  all: destruct (unpack_file _ _ _) as [t4 [[]|e]]; simpl; try reflexivity.
  all: destruct (Fs.remove _ t4) as [t5|e]; simpl; try reflexivity.
Qed.

Lemma version_dir_gone_before_download (t : Fs.tree) (vd : Fs.path) :
  (if Fs.exists_ t vd then Fs.remove_all vd t else t) !! vd = None.
Proof.
  destruct (Fs.exists_ t vd) eqn:Hex.
  - apply remove_all_lookup.
  - by apply exists_false.
Qed.

Lemma download_keeps_absent url fn t (vd : Fs.path) :
  download_confined → ¬ vd `prefix_of` fn →
  t !! vd = None → (download_file url fn t).1 !! vd = None.
Proof. intros Hc Hp Hn. by rewrite Hc. Qed.

(** C1: for a package that [download_dependencies] fetches, when the MD5
    computed for the downloaded archive differs from the one the registry
    gave, or unpacking the archive fails, the operation fails with an error
    and the version directory does not exist afterwards. *)
Theorem fetch_failure_leaves_no_version_directory url data_url dep t t' evs r :
  download_confined →
  Dependency.package_dir dep ≠ [] →
  fetch_package url data_url dep t = (t', evs, r) →
  (∃ u fn m, ev_download_file u fn (Done m) ∈ evs ∧ m ≠ Dependency.md5 dep)
  ∨ (∃ fn dst, ev_unpack_file fn dst false ∈ evs) →
  (∃ msg, r = Throw msg) ∧ Fs.exists_ t' (Dependency.package_dir dep) = false.
Proof.
  intros Hconf Hne Hrun Hev.
  rewrite fetch_package_unfold in Hrun. cbv zeta in Hrun.
  assert (Hpre : ¬ Dependency.package_dir dep `prefix_of` archive_of dep)
    by (by apply not_prefix_add_suffix).
  pose proof (download_keeps_absent
                (package_url_of url data_url dep) (archive_of dep) _ _ Hconf Hpre
                (version_dir_gone_before_download t (Dependency.package_dir dep)))
    as Habs.
  destruct (up_to_date dep t).
  { injection Hrun as <- <- <-.
    destruct Hev as [(u & fn & m & Hin & _)|(fn & dst & Hin)]; events. }
  destruct (download_file _ _ _) as [t2 [m|e]]; simpl in Habs.
  2:{ injection Hrun as <- <- <-.
      destruct Hev as [(u & fn & m & Hin & _)|(fn & dst & Hin)]; events. }
  destruct (bool_decide (m = Dependency.md5 dep)) eqn:Hm; simpl in Hrun.
  2:{ injection Hrun as <- <- <-. split; [eauto|]. by apply exists_false. }
  apply bool_decide_eq_true in Hm. subst m.
  destruct (Fs.can_open_for_writing t2 _).
  2:{ injection Hrun as <- <- <-.
      destruct Hev as [(u & fn & m & Hin & Hm)|(fn & dst & Hin)]; events. }
  destruct (unpack_file _ _ _) as [t4 [[]|e]].
  2:{ injection Hrun as <- <- <-. split; [eauto|]. apply exists_false, remove_all_lookup. }
  destruct (Fs.remove _ t4); injection Hrun as <- <- <-;
    destruct Hev as [(u & fn & m & Hin & Hm)|(fn & dst & Hin)]; events.
Qed.

(** The fetch of one package: when the first token of the sibling
    [archive.md5] file is the registry's md5, that md5 is not empty and the
    version directory exists, nothing is downloaded or unpacked and the
    file system is left as it was; otherwise any existing version directory
    is removed and the archive is downloaded, and when the fetch succeeds
    the digest was verified, [archive.md5] was rewritten, the archive was
    unpacked into the version directory and then deleted. *)
Lemma fetch_package_cases url data_url dep t t' evs r :
  let vd := Dependency.package_dir dep in
  let fn := archive_of dep in
  let md5file := md5file_of dep in
  let purl := package_url_of url data_url dep in
  let current :=
    Fs.read_token t md5file = Dependency.md5 dep ∧ Dependency.md5 dep ≠ ""
    ∧ Fs.exists_ t vd = true in
  fetch_package url data_url dep t = (t', evs, r) →
  (current → t' = t ∧ evs = [] ∧ r = Done tt)
  ∧ (¬ current →
     ∃ line dl rest,
       evs = (if Fs.exists_ t vd then [ev_remove_all vd] else [])
             ++ ev_log line :: ev_download_file purl fn dl :: rest
       ∧ (r = Done tt →
          ∃ line',
            dl = Done (Dependency.md5 dep)
            ∧ rest = [ev_write_file md5file (Dependency.md5 dep); ev_log line';
                      ev_unpack_file fn vd true; ev_remove fn]
            ∧ t' !! fn = None)).
Proof.
  intros vd fn md5file purl current Hrun.
  rewrite fetch_package_unfold in Hrun. cbv zeta in Hrun.
  fold vd fn md5file purl in Hrun.
  assert (Hcur : current ↔ up_to_date dep t = true).
  { unfold current, up_to_date. fold vd md5file.
    rewrite !andb_true_iff, bool_decide_eq_true, negb_true_iff.
    destruct (Dependency.md5 dep); simpl; naive_solver. }
  destruct (up_to_date dep t).
  { injection Hrun as <- <- <-. split; [done|]. intros Hn. exfalso. by apply Hn, Hcur. }
  split; [intros Hc; by apply Hcur in Hc|]. intros _.
  destruct (download_file _ _ _) as [t2 [m|e]].
  2:{ injection Hrun as <- <- <-. eexists _, _, _. rewrite <-app_assoc. by split. }
  destruct (bool_decide (m = Dependency.md5 dep)) eqn:Hm; simpl in Hrun.
  2:{ injection Hrun as <- <- <-. eexists _, _, _. rewrite <-app_assoc. by split. }
  apply bool_decide_eq_true in Hm. subst m.
  destruct (Fs.can_open_for_writing t2 _).
  2:{ injection Hrun as <- <- <-. eexists _, _, _. rewrite <-app_assoc. by split. }
  destruct (unpack_file _ _ _) as [t4 [[]|e]].
  2:{ injection Hrun as <- <- <-. eexists _, _, _. rewrite <-!app_assoc. by split. }
  destruct (Fs.remove fn t4) as [t5|e] eqn:Hrm; injection Hrun as <- <- <-.
  2:{ eexists _, _, _. rewrite <-!app_assoc. by split. }
  eexists _, _, _. rewrite <-!app_assoc. split; [done|].
  intros _. eexists. split; [done|]. split; [done|].
  unfold Fs.remove in Hrm.
  destruct (t4 !! fn) as [[c|]|] eqn:Hl.
  - injection Hrm as <-. apply lookup_delete_eq.
  - destruct (Fs.has_children t4 fn); [done|]. injection Hrm as <-. apply lookup_delete_eq.
  - by injection Hrm as <-.
Qed.

End CacheProperties.

(** The example fetcher writes nothing but the file it is given. *)
Lemma example_download_confined response served_md5 unpacks :
  download_confined (ext := Example.externals response served_md5 unpacks).
Proof.
  intros url fn t p Hp. simpl. apply lookup_insert_ne. by intros ->.
Qed.

Lemma fetch_failure_witness :
  let run :=
    fetch_package (decl := Example.declarations)
      (ext := Example.externals pt.empty_tree "def" true)
      "https://cppan.org" "data" Example.org_a_b Example.empty_cache in
  (∃ msg, run.2 = Throw msg)
  ∧ Fs.exists_ run.1.1 (Dependency.package_dir Example.org_a_b) = false.
Proof.
  intros run.
  apply (fetch_failure_leaves_no_version_directory
           (decl := Example.declarations)
           (ext := Example.externals pt.empty_tree "def" true)
           "https://cppan.org" "data" Example.org_a_b Example.empty_cache
           run.1.1 run.1.2 run.2).
  - apply example_download_confined.
  - discriminate.
  - apply triple_eta.
  - left. exists "https://cppan.org/data/org/a/b/1.2.3.tar.gz",
      ["packages"; "org.a.b"; "1.2.3.tar.gz"], "def".
    split; [|discriminate].
    vm_compute. apply list_elem_of_further, list_elem_of_here.
Defined.

(** ** The registry client *)

Section RegistryProperties.

Context {decl : Declarations} {ext : Externals}.

(** [download_dependencies] as the tree of its cases, down to the loop
    over the packages. *)
Lemma download_dependencies_unfold s :
  download_dependencies s =
    let data := build_request (Config.projects (this s)) in
    if pt.empty data then (s, [], Done tt)
    else
      match url_post (find_dependencies_url s) data with
      | Throw e => (s, request_events s, Throw e)
      | Done dependency_tree =>
          match check_response dependency_tree with
          | Throw e => (with_response dependency_tree s, request_events s, Throw e)
          | Done _ =>
              let '(s', evs, r) :=
                process_packages (Config.host (this s)) dependency_tree
                  (with_response dependency_tree s) in
              (s', request_events s ++ evs, r)
          end
      end.
Proof.
  unfold download_dependencies, request_events, find_dependencies_url, with_response.
  cbv [mbind M_bind gets mret M_ret LOG tell throw lift modify]. cbv zeta.
  destruct (pt.empty _); [done|].
  destruct (url_post _ _) as [dependency_tree|e]; simpl; [|done].
  destruct (check_response dependency_tree) as [[]|e]; simpl; [|done].
  by destruct (process_packages _ _ _) as [[s' evs] r].
Qed.

Lemma build_request_no_absolute (projects : list Project.t) :
  (∀ p k d, p ∈ projects → Project.dependencies p !! k = Some d →
            ProjectPath.is_relative is_owner_segment (Dependency.package d) = true) →
  build_request projects = pt.empty_tree.
Proof.
  unfold build_request.
  match goal with |- _ → fold_left ?F _ _ = _ => set (f := F) end.
  generalize pt.empty_tree as data.
  induction projects as [|p ps IH]; intros data Hrel; [done|].
  simpl. rewrite IH.
  - unfold f.
    assert (Hin : ∀ kd, kd ∈ map_items (Project.dependencies p) →
              ProjectPath.is_relative is_owner_segment (Dependency.package kd.2) = true).
    { intros [k d] Hkd. apply elem_of_map_items in Hkd.
      eapply Hrel; [left|done]. }
    induction (map_items (Project.dependencies p)) as [|kd l IHl]; [done|].
    simpl. rewrite Hin by left. apply IHl. intros ??. apply Hin. by right.
  - intros p' k d Hp'. apply Hrel. by right.
Qed.

(** C9: when no project declares a dependency whose package path is
    absolute, [download_dependencies] returns with the state as it was (so
    [packages], [indirect_dependencies] and [dependency_tree] are
    unchanged) and with an empty trace: no request, no download. *)
Theorem no_absolute_dependency_no_request s :
  (∀ p k d, p ∈ Config.projects (this s) → Project.dependencies p !! k = Some d →
            ProjectPath.is_relative is_owner_segment (Dependency.package d) = true) →
  download_dependencies s = (s, [], Done tt).
Proof.
  intros Hrel. rewrite download_dependencies_unfold. cbv zeta.
  by rewrite (build_request_no_absolute _ Hrel).
Qed.

Lemma check_response_cases (dependency_tree : pt.ptree) :
  check_response dependency_tree =
    match pt.find "api" dependency_tree, pt.find "error" dependency_tree with
    | Some a, Some e =>
        match pt.get_value_int a with
        | Done _ => Throw (pt.get_value_String e)
        | Throw msg => Throw msg
        end
    | None, Some e => Throw (pt.get_value_String e)
    | Some a, None =>
        match pt.get_value_int a with
        | Done api =>
            if decide (api = 0) then Throw "Api version is missing in the response"
            else if decide (api = 1) then Done tt else Throw "Bad api version"
        | Throw msg => Throw msg
        end
    | None, None => Throw "Api version is missing in the response"
    end.
Proof.
  unfold check_response, pt.get_int, pt.get_child.
  destruct (pt.find "api" dependency_tree) as [a|]; simpl.
  - destruct (pt.get_value_int a) as [api|msg]; simpl;
      destruct (pt.find "error" dependency_tree); try done.
    repeat case_decide; congruence.
  - by destruct (pt.find "error" dependency_tree).
Qed.

(** C3, as the code has it: once the registry has answered,
    [download_dependencies] fails with the response's error string when an
    [error] field is present and the [api] field is absent or an integer
    (an [api] that is no integer fails first, with the conversion error);
    it fails whenever an [error] field is present, when [api] is absent,
    and when [api] is present but not 1; each time nothing but the request
    is in the trace.  When [api] is 1 and there is no [error] it goes on
    to the packages. *)
Theorem response_is_checked s dependency_tree :
  pt.empty (build_request (Config.projects (this s))) = false →
  url_post (find_dependencies_url s) (build_request (Config.projects (this s)))
    = Done dependency_tree →
  let failed msg :=
    download_dependencies s
    = (with_response dependency_tree s, request_events s, Throw msg) in
  (∀ e, pt.find "error" dependency_tree = Some e →
        pt.find "api" dependency_tree = None
        ∨ is_done (pt.get_int "api" dependency_tree) = true →
        failed (pt.get_value_String e))
  ∧ (∀ e, pt.find "error" dependency_tree = Some e → ∃ msg, failed msg)
  ∧ (pt.find "api" dependency_tree = None → ∃ msg, failed msg)
  ∧ (pt.find "api" dependency_tree ≠ None →
     pt.get_int "api" dependency_tree ≠ Done 1 → ∃ msg, failed msg)
  ∧ (pt.get_int "api" dependency_tree = Done 1 →
     pt.find "error" dependency_tree = None →
     download_dependencies s
     = let '(s', evs, r) :=
         process_packages (Config.host (this s)) dependency_tree
           (with_response dependency_tree s) in
       (s', request_events s ++ evs, r)).
Proof.
  intros Hne Hpost failed. unfold failed.
  rewrite download_dependencies_unfold. cbv zeta. rewrite Hne, Hpost.
  rewrite check_response_cases.
  unfold pt.get_int, pt.get_child.
  destruct (pt.find "api" dependency_tree) as [a|]; simpl;
    [destruct (pt.get_value_int a) as [api|msg]; simpl|];
    destruct (pt.find "error" dependency_tree) as [e|]; simpl;
    repeat split; intros; simplify_eq; repeat case_decide; simplify_eq;
      eauto; try naive_solver.
Qed.

End RegistryProperties.

Lemma no_request_witness :
  download_dependencies (decl := Example.declarations)
    (ext := Example.externals pt.empty_tree "abc" true) Example.with_relative
  = (Example.with_relative, [], Done tt).
Proof.
  apply (no_absolute_dependency_no_request (decl := Example.declarations)).
  intros p k d Hp Hd.
  apply list_elem_of_singleton in Hp. subst p.
  cbn [Example.project Project.dependencies] in Hd.
  apply lookup_singleton_Some in Hd as [_ <-].
  reflexivity.
Defined.

(** C3 as stated fails where the [api] field is no integer: the conversion
    error comes before the response's error string is looked at. *)
Lemma error_hidden_by_malformed_api :
  let response := pt.Tree "" [Example.leaf "api" "x"; Example.leaf "error" "boom"] in
  let run :=
    download_dependencies (decl := Example.declarations)
      (ext := Example.externals response "abc" true) Example.with_absolute in
  pt.find "error" response = Some (pt.Tree "boom" [])
  ∧ run.2 = Throw "ptree_bad_data"
  ∧ run.2 ≠ Throw "boom".
Proof. cbv zeta. split; [|split]; by vm_compute. Qed.

Lemma response_error_witness :
  let response := pt.Tree "" [Example.leaf "api" "1"; Example.leaf "error" "boom"] in
  (download_dependencies (decl := Example.declarations)
     (ext := Example.externals response "abc" true) Example.with_absolute).2
  = Throw "boom".
Proof.
  intros response.
  destruct (response_is_checked (decl := Example.declarations)
              (ext := Example.externals response "abc" true)
              Example.with_absolute response) as (Herror & _).
  - reflexivity.
  - reflexivity.
  - rewrite (Herror (pt.Tree "boom" [])); [reflexivity|reflexivity|].
    right. reflexivity.
Defined.

(** ** Source discovery *)

Lemma none_of_spec (P : string → bool) (X : gset string) :
  none_of P X = true ↔ ∀ x, x ∈ X → P x = false.
Proof.
  unfold none_of. rewrite forallb_forall. split.
  - intros Hall x Hx. apply negb_true_iff, Hall, list_elem_of_In, elem_of_elements, Hx.
  - intros Hall x Hx. apply negb_true_iff, Hall, elem_of_elements, list_elem_of_In, Hx.
Qed.

Lemma is_valid_source_spec (p : string) :
  is_valid_source p = true ↔ Fs.extension p ∈ source_file_extensions.
Proof.
  unfold is_valid_source, Fs.has_extension, Fs.nonempty.
  destruct (Fs.extension p) eqn:He; simpl.
  - split; [done|]. intros Hin. unfold source_file_extensions in Hin.
    repeat (apply elem_of_cons in Hin as [Hin|Hin]; [done|]).
    by apply elem_of_nil in Hin.
  - apply bool_decide_eq_true.
Qed.

(** What [resolve_files] leaves as it found it. *)
Lemma resolve_files_frame (E : Discovery) (p resolved : Project.t) :
  resolve_files E p = Done resolved →
  Project.license resolved = Project.license p
  ∧ Project.cppan_filename resolved = Project.cppan_filename p.
Proof.
  unfold resolve_files. intros Hres.
  repeat match type of Hres with
  | (if ?b then _ else _) = _ => destruct b; [done|]
  | obind ?x _ = _ => destruct x; simpl in Hres; [|done]
  end.
  by injection Hres as <-.
Qed.

(** C4, as the code has it: after [findSources] succeeds, [header_only] is
    true if and only if no file of the set resolved from the source
    patterns - the file set before the license file and the manifest are
    added to it - has an extension of the source set. *)
Theorem header_only_classification (E : Discovery) (p p' : Project.t) :
  findSources E p = Done p' →
  ∃ resolved,
    resolve_files E p = Done resolved
    ∧ (Project.header_only p' = true
       ↔ ∀ f, f ∈ Project.files resolved → Fs.extension f ∉ source_file_extensions)
    ∧ Project.files p'
      = Project.files resolved
        ∪ (if Str.empty (Project.license p) then ∅ else {[ Project.license p ]})
        ∪ {[ Project.cppan_filename p ]}.
Proof.
  unfold findSources. intros Hrun.
  destruct (resolve_files E p) as [resolved|] eqn:Hres; simpl in Hrun; [|done].
  exists resolved. split; [done|].
  destruct (resolve_files_frame E p resolved Hres) as [Hl Hc].
  rewrite <-Hl, <-Hc.
  assert (Hho : none_of is_valid_source (Project.files resolved) = true
                ↔ ∀ f, f ∈ Project.files resolved → Fs.extension f ∉ source_file_extensions).
  { rewrite none_of_spec. apply forall_proper; intros f. apply forall_proper; intros _.
    rewrite <-is_valid_source_spec. by destruct (is_valid_source f). }
  clear Hl Hc Hres.
  destruct (Str.empty (Project.license resolved)); simpl in Hrun.
  - destruct (if negb (Str.empty (Project.root_directory resolved))
              then copy_manifest E else Done ()) as [[]|]; simpl in Hrun; [|done].
    injection Hrun as <-. cbn. split; [done|]. set_solver.
  - destruct (license_size E) as [size|]; simpl in Hrun; [|done].
    destruct (512 * 1024 <? size); simpl in Hrun; [done|].
    destruct (if negb (Str.empty (Project.root_directory resolved))
              then copy_manifest E else Done ()) as [[]|]; simpl in Hrun; [|done].
    injection Hrun as <-. cbn. split; [done|]. set_solver.
Qed.

(** C4 as stated fails on the file set [findSources] leaves: the license
    file joins it after the classification, whatever its extension. *)
Lemma license_with_source_extension :
  ∃ p', findSources Example.discovery (Example.header_project "LICENSE.c") = Done p'
        ∧ Project.header_only p' = true
        ∧ "LICENSE.c" ∈ Project.files p'
        ∧ Fs.extension "LICENSE.c" ∈ source_file_extensions.
Proof.
  eexists. split; [by vm_compute|].
  split; [reflexivity|]. split; by apply (bool_decide_unpack _).
Qed.

Lemma header_only_witness :
  ∃ p', findSources Example.discovery (Example.header_project "") = Done p'
        ∧ Project.header_only p' = true.
Proof.
  destruct (findSources Example.discovery (Example.header_project "")) as [p'|msg] eqn:Hrun;
    [|by vm_compute in Hrun].
  exists p'. split; [reflexivity|].
  destruct (header_only_classification _ _ _ Hrun) as (resolved & Hres & Hho & _).
  apply Hho. vm_compute in Hres. injection Hres as <-.
  intros f Hf. apply elem_of_elements in Hf. vm_compute in Hf.
  apply list_elem_of_singleton in Hf. subst f.
  by apply (bool_decide_unpack _).
Defined.

(** ** The manifest loader *)

Lemma get_config_insertion_scalar (n : Node) (key v : string) :
  subscript n key = Done (Scalar v) →
  get_config_insertion n key = Done (Str.drop_last v).
Proof.
  intros Hs. unfold get_config_insertion, get_scalar. rewrite Hs. simpl.
  by destruct v.
Qed.

(** A block that ends in a newline is stored without it, as the
    specification has it. *)
Lemma insertion_strips_final_newline (n : Node) (key v : string) :
  subscript n key = Done (Scalar (v +:+ Str.nl)) →
  get_config_insertion n key = Done v
  ∧ strip_trailing_newline (v +:+ Str.nl) = v.
Proof.
  intros Hs. rewrite (get_config_insertion_scalar _ _ _ Hs).
  unfold strip_trailing_newline, Str.nl.
  rewrite last_app_char, drop_last_app_char. by rewrite decide_True.
Qed.

(** C7, where the code departs from it: a value that does not end in a
    newline loses its last character, whereas the specification (and the
    comment in the code) strips a trailing newline only. *)
Theorem insertion_loses_last_character :
  let manifest := Map [(Scalar "pre_sources", Scalar "set(X 1)")] in
  (∃ b, get_config_insertions manifest = Done b ∧ pre_sources b = "set(X 1")
  ∧ strip_trailing_newline "set(X 1)" = "set(X 1)".
Proof. cbv zeta. split; [eexists; split|]; reflexivity. Qed.

Section LoaderProperties.

Context {decl : Declarations}.

(** The check on [root_directory] lets every scalar through. *)
Lemma root_directory_check_passes (cp : Fs.path) (root : Node) (s : string) :
  subscript root "root_directory" = Done (Scalar s) →
  get_root_directory_key cp root = Done s.
Proof.
  intros Hs. unfold get_root_directory_key. rewrite Hs. simpl.
  unfold Fs.div. by rewrite path_lt_app.
Qed.

(** C10: [relative_name_to_absolute] raises an error if and only if its
    argument is a non-empty relative name and [root_project] is empty;
    given the empty string it returns the empty path whatever
    [root_project] is, and that is the path of the single project of a
    manifest with no [projects] key. *)
Theorem relative_name_to_absolute_errors (this : Config.t) (name : string) :
  ((∃ msg, relative_name_to_absolute this name = Throw msg)
   ↔ name ≠ ""
     ∧ ProjectPath.is_relative is_owner_segment (ProjectPath.of_String name) = true
     ∧ Config.root_project this = [])
  ∧ relative_name_to_absolute this "" = Done []
  ∧ ∀ cp filename root,
      subscript root "projects" = Done Undefined →
      load this cp filename root
      = obind (load_common this root) (λ this',
          obind (load_project this' cp root) (λ project,
            Done (Config.set_projects
                    (Config.projects this'
                       ++ [Project.set_package []
                             (Project.set_cppan_filename filename project)])
                    this'))).
Proof.
  split; [|split; [done|]].
  - unfold relative_name_to_absolute.
    destruct name as [|c name]; simpl.
    { split; [by intros [? ?]|by intros [? _]]. }
    destruct (ProjectPath.is_relative _ _).
    + destruct (Config.root_project this); simpl.
      * split; [done|eauto].
      * split; [by intros [? ?]|by intros (_ & _ & ?)].
    + split; [by intros [? ?]|by intros (_ & ? & _)].
  - intros cp filename root Hp. unfold load.
    destruct (load_common this root) as [this'|msg]; simpl; [|done].
    rewrite Hp. simpl.
    by destruct (load_project this' cp root).
Qed.

End LoaderProperties.

Lemma single_project_witness :
  let root := Map [(Scalar "files", Scalar "src/.*")] in
  ∃ c, load (decl := Example.declarations) (Example.config ["org"; "me"] [])
         ["/"; "home"; "user"; "project"] "cppan.yml" root = Done c
       ∧ Project.package <$> Config.projects c = [[]].
Proof.
  intros root.
  destruct (relative_name_to_absolute_errors (decl := Example.declarations)
              (Example.config ["org"; "me"] []) "") as (_ & _ & Hload).
  rewrite (Hload ["/"; "home"; "user"; "project"] "cppan.yml" root eq_refl).
  eexists. split; [by vm_compute|reflexivity].
Defined.

(** C5, where the code departs from it: a [root_directory] that leads out
    of the current directory is accepted, since [cp / root_directory] is
    compared with [cp] element by element and never comes before it. *)
Theorem root_directory_above_current_is_accepted :
  let cp := ["/"; "home"; "user"; "project"] in
  let manifest := Map [(Scalar "root_directory", Scalar "..")] in
  (∃ p, load_project (decl := Example.declarations) (Example.config [] []) cp manifest
        = Done p
        ∧ Project.root_directory p = "..")
  ∧ lexically_normal (Fs.div cp (Fs.of_string "..")) = ["/"; "home"; "user"]
  ∧ is_under_root (Fs.div cp (Fs.of_string "..")) cp = false.
Proof.
  cbv zeta. split; [eexists; split; [by vm_compute|reflexivity]|].
  split; by vm_compute.
Qed.

(** ** Names and aliases *)

(** C6, as the code has it: [target_name] is the dotted package name,
    followed by ["-"] and the rendered version when that is not ["*"];
    [variable_name] is the package name followed by ["_"], and by ["_"] and
    the rendered version when that is not ["*"], with every ['.'] replaced
    by ['_']. *)
Theorem package_info_names (d : Dependency.t) :
  let name := ProjectPath.toString (Dependency.package d) in
  let v := Version.toAnyVersion (Dependency.version d) in
  PackageInfo.target_name (PackageInfo.make d)
    = name +:+ (if bool_decide (v = "*") then "" else "-" +:+ v)
  ∧ PackageInfo.variable_name (PackageInfo.make d)
    = Str.replace "." "_" name +:+ "_"
      +:+ (if bool_decide (v = "*") then "" else "_" +:+ Str.replace "." "_" v).
Proof.
  intros name v. split; [done|].
  unfold PackageInfo.make. cbn [PackageInfo.variable_name]. fold name v.
  rewrite !replace_app. f_equal. f_equal.
  destruct (bool_decide (v = "*")); [done|].
  by rewrite replace_app.
Qed.

(** C6 as stated fails: the variable name is not the target name with its
    dots replaced. *)
Lemma variable_name_is_not_target_name :
  let pi := PackageInfo.make Example.org_a_b in
  PackageInfo.target_name pi = "org.a.b-1.2.3"
  ∧ PackageInfo.variable_name pi = "org_a_b__1_2_3"
  ∧ PackageInfo.variable_name pi ≠ Str.replace "." "_" (PackageInfo.target_name pi).
Proof. cbv zeta. split; [|split]; by vm_compute. Qed.













Section EmitterProperties.

Context {decl : Declarations}.








End EmitterProperties.



(** * Further properties of the code *)

(** ** Folds and sequences of steps *)

Lemma ofold_invariant {A B} (P : A → Prop) (f : A → B → outcome A)
    (a : A) (xs : list B) (r : A) :
  P a →
  (∀ a x a', P a → x ∈ xs → f a x = Done a' → P a') →
  ofold f a xs = Done r → P r.
Proof.
  revert a. induction xs as [|x xs IH]; intros a Ha Hstep; simpl.
  - by intros [= <-].
  - destruct (f a x) as [a'|] eqn:Hf; simpl; [|done].
    apply IH.
    + eapply Hstep; [done|left|done].
    + intros a0 y a1 Ha0 Hy. apply Hstep; [done|by right].
Qed.

Lemma get_map_and_iterate_invariant {A} (P : A → Prop) (node : Node) (key : string)
    (f : A → Node * Node → outcome A) (a r : A) :
  P a →
  (∀ a x a', P a → f a x = Done a' → P a') →
  get_map_and_iterate node key f a = Done r → P r.
Proof.
  intros Ha Hstep. unfold get_map_and_iterate. intros Hrun.
  destruct (subscript node key) as [n|]; cbn [obind] in Hrun; [|done].
  destruct (IsDefined n); [|by injection Hrun as <-].
  destruct (negb (IsMap n)); [done|].
  eapply ofold_invariant; [exact Ha| |exact Hrun].
  intros a0 x a1 Ha0 _. by apply Hstep.
Qed.

Lemma omapM_elem_of {A B} (f : A → outcome B) (xs : list A) (ys : list B) (y : B) :
  omapM f xs = Done ys → y ∈ ys → ∃ x, x ∈ xs ∧ f x = Done y.
Proof.
  revert ys. induction xs as [|x xs IH]; intros ys; simpl.
  - intros [= <-] Hy. by apply elem_of_nil in Hy.
  - destruct (f x) as [y0|] eqn:Hf; simpl; [|done].
    destruct (omapM f xs) as [ys0|]; simpl; [|done].
    intros [= <-] Hy. apply elem_of_cons in Hy as [->|Hy].
    + exists x. split; [left|done].
    + destruct (IH ys0 eq_refl Hy) as (x0 & Hx0 & Hf0). exists x0. split; [by right|done].
Qed.

Lemma omapM_as_String (l : list Node) (vs : list string) :
  omapM as_String l = Done vs ↔ l = Scalar <$> vs.
Proof.
  revert vs. induction l as [|n l IH]; intros vs; simpl.
  - split; [by intros [= <-]|]. by destruct vs.
  - destruct n as [| |s|items|entries]; simpl;
      try (split; [done|]; by destruct vs).
    destruct (omapM as_String l) as [vs'|] eqn:Hl; simpl.
    + split.
      * intros [= <-]. simpl. f_equal. by apply IH.
      * destruct vs as [|v vs]; [done|]. intros [= -> Hvs].
        apply IH in Hvs. by injection Hvs as ->.
    + split; [done|]. destruct vs as [|v vs]; [done|]. intros [= -> Hvs].
      by apply IH in Hvs.
Qed.

Lemma elem_of_set_items (X : gset string) (x : string) : x ∈ set_items X ↔ x ∈ X.
Proof. unfold set_items. rewrite merge_sort_Permutation. apply elem_of_elements. Qed.


Lemma empty_true_iff (s : string) : Str.empty s = true ↔ s = "".
Proof. by destruct s. Qed.

Lemma append_empty_iff (a b : string) : a +:+ b = "" ↔ a = "" ∧ b = "".
Proof. destruct a; simpl; [naive_solver|]. split; [done|by intros [? _]]. Qed.


Lemma with_outcome {A B C} (x : A * B * C) (c : C) : x.2 = c → x = (x.1.1, x.1.2, c).
Proof. intros <-. apply triple_eta. Qed.

(** ** Source files and their types *)

Lemma any_equal_spec (e : string) (src : list string) :
  any_equal e src = true ↔ e ∈ src.
Proof.
  unfold any_equal. rewrite existsb_exists. split.
  - intros (x & Hin & Hx). apply bool_decide_eq_true in Hx. subst x.
    by apply list_elem_of_In.
  - intros Hin. exists e. split; [by apply list_elem_of_In|by apply bool_decide_eq_true].
Qed.

Lemma is_allowed_file_extension_spec (p : string) :
  is_allowed_file_extension p = true
  ↔ Fs.extension p ∈ header_file_extensions ++ source_file_extensions
                      ++ other_source_file_extensions.
Proof.
  unfold is_allowed_file_extension.
  rewrite !elem_of_app, <-!any_equal_spec.
  destruct (any_equal _ header_file_extensions),
    (any_equal _ source_file_extensions),
    (any_equal _ other_source_file_extensions); simpl; naive_solver.
Qed.

(** X1: a path whose extension is one of the source extensions has an
    allowed extension, and the type check with the extension test on
    accepts it whatever the [file] tool reports and whatever types are
    asked for, with no error text. *)
Theorem source_extension_is_always_accepted (p : string) :
  is_valid_source p = true →
  is_allowed_file_extension p = true
  ∧ ∀ types s, is_valid_file_type types p s true = (true, "").
Proof.
  intros Hsrc.
  assert (Hall : is_allowed_file_extension p = true).
  { apply is_allowed_file_extension_spec. apply is_valid_source_spec in Hsrc.
    rewrite !elem_of_app. auto. }
  split; [done|]. intros types s. unfold is_valid_file_type.
  rewrite Hall. by destruct (any_equal _ types).
Qed.

Lemma source_extension_witness :
  is_allowed_file_extension "src/main.cpp" = true
  ∧ ∀ types s, is_valid_file_type types "src/main.cpp" s true = (true, "").
Proof. apply (source_extension_is_always_accepted "src/main.cpp"). reflexivity. Defined.

Lemma before_char_idem (c : ascii) (s rest : string) :
  before_char c (before_char c s +:+ String c rest) = before_char c s.
Proof.
  induction s as [|x s IH]; simpl.
  - by rewrite decide_True.
  - destruct (decide (x = c)) as [->|Hne]; simpl.
    + by rewrite decide_True.
    + rewrite decide_False by done. by rewrite IH.
Qed.

Lemma file_type_error_empty (types : list string) (p s : string) (check_ext : bool) :
  (is_valid_file_type types p s check_ext).2 = ""
  ↔ (is_valid_file_type types p s check_ext).1 = true.
Proof.
  unfold is_valid_file_type. cbn [fst snd].
  destruct (if negb (any_equal _ types) && check_ext then _ else _); simpl; [done|].
  split; [|done]. discriminate.
Qed.

(** X2: the verdict of [is_valid_file_type]: the error text is empty
    exactly when the file is accepted; it is accepted exactly when the MIME
    type, which is what stands before the first [;] of the report, is among
    the given types, or the extension test is on and the extension is an
    allowed one; what follows the first [;] of the report is of no
    account. *)
Theorem file_type_verdict (types : list string) (p s : string) (check_ext : bool) :
  let r := is_valid_file_type types p s check_ext in
  (r.2 = "" ↔ r.1 = true)
  ∧ (r.1 = true ↔ before_char ";" s ∈ types
                   ∨ (check_ext = true ∧ is_allowed_file_extension p = true))
  ∧ ∀ rest, is_valid_file_type types p (before_char ";" s +:+ String ";" rest) check_ext = r.
Proof.
  cbv zeta. unfold is_valid_file_type. split; [|split].
  - cbn [fst snd].
    destruct (if negb (any_equal _ types) && check_ext then _ else _); simpl; [done|].
    split; [|done]. intros Heq. by apply append_empty_iff in Heq as [? _].
  - cbn [fst snd]. rewrite <-any_equal_spec.
    destruct (any_equal _ types), check_ext; simpl; naive_solver.
  - intros rest. by rewrite before_char_idem.
Qed.

Lemma fold_append_empty (l : list string) (acc : string) :
  fold_left (λ acc e, acc +:+ e) l acc = "" ↔ acc = "" ∧ Forall (λ e, e = "") l.
Proof.
  revert acc. induction l as [|e l IH]; intros acc; simpl.
  - split; [by intros ->|by intros [-> _]].
  - rewrite IH, append_empty_iff, Forall_cons. naive_solver.
Qed.

Lemma concat_lines_empty (l : list string) :
  Str.empty (concat_lines l) = true ↔ Forall (λ e, e = "") l.
Proof.
  unfold concat_lines.
  destruct (fold_left _ l "") eqn:Hf; simpl.
  - apply fold_append_empty in Hf as [_ Hf]. done.
  - split; [done|]. intros Hall.
    assert (fold_left (λ acc e, acc +:+ e) l "" = "") as Hf'
      by (by apply fold_append_empty).
    congruence.
Qed.

Lemma no_errors_iff {A} (f : A → option string) (l : list A) :
  (∀ x e, f x = Some e → e ≠ "") →
  Str.empty (concat_lines (omap f l)) = true ↔ ∀ x, x ∈ l → f x = None.
Proof.
  intros Hne. rewrite concat_lines_empty. induction l as [|x l IH]; simpl.
  - split; [intros _ x Hx; by apply elem_of_nil in Hx|done].
  - destruct (f x) as [e|] eqn:Hfx.
    + rewrite Forall_cons. split.
      * intros [-> _]. by apply Hne in Hfx.
      * intros Hall. specialize (Hall x (list_elem_of_here _ _)). congruence.
    + rewrite IH. split.
      * intros Hall y Hy. apply elem_of_cons in Hy as [->|Hy]; auto.
      * intros Hall y Hy. apply Hall. by right.
Qed.

(** X3: [check_file_types] passes exactly when there is no file at
    all, or every file name passes [check_filename], the [file] tool gives
    one line per file, and every file with its line is of an accepted
    type. *)
Theorem check_file_types_passes_iff (E : Discovery) (files : gset string) (root : string) :
  check_file_types E files root = Done tt
  ↔ files = ∅
    ∨ ((∀ f, f ∈ files → check_filename E (Fs.div_string root f) = true)
       ∧ ∃ lines,
           file_ib E (elements files) = Done lines
           ∧ length lines = length (elements files)
           ∧ ∀ f line, (f, line) ∈ zip (elements files) lines →
               (is_valid_file_type source_mime_types f line true).1 = true).
Proof.
  unfold check_file_types.
  destruct (bool_decide (files = ∅)) eqn:Hemp.
  { apply bool_decide_eq_true in Hemp. split; auto. }
  apply bool_decide_eq_false in Hemp.
  match goal with
  | |- context [concat_lines (omap ?F (elements files))] => set (names := F)
  end.
  assert (Hnames : Str.empty (concat_lines (omap names (elements files))) = true
                   ↔ ∀ f, f ∈ files → check_filename E (Fs.div_string root f) = true).
  { rewrite no_errors_iff.
    - split.
      + intros Hall f Hf. apply elem_of_elements in Hf. apply Hall in Hf.
        unfold names in Hf. by destruct (check_filename E _).
      + intros Hall f Hf. apply elem_of_elements in Hf. unfold names.
        by rewrite Hall.
    - intros x e. unfold names. destruct (negb _); [|done].
      intros [= <-] Heq. by apply append_empty_iff in Heq as [? _]. }
  destruct (Str.empty (concat_lines (omap names (elements files)))) eqn:Hn; cbn [obind negb].
  2:{ split; [done|]. intros [?|[Hall _]]; [done|].
      apply Hnames in Hall. congruence. }
  destruct Hnames as [Hnames _]. specialize (Hnames eq_refl).
  destruct (file_ib E (elements files)) as [lines|msg]; cbn [obind negb].
  2:{ split; [done|]. by intros [?|[_ (lines & ? & _)]]. }
  destruct (bool_decide (length lines = length (elements files))) eqn:Hlen; cbn [obind negb].
  2:{ apply bool_decide_eq_false in Hlen.
      split; [done|]. intros [?|[_ (lines' & [= <-] & ? & _)]]; done. }
  apply bool_decide_eq_true in Hlen.
  match goal with
  | |- context [concat_lines (omap ?F (zip _ _))] => set (types := F)
  end.
  assert (Htypes : Str.empty (concat_lines (omap types (zip (elements files) lines))) = true
                   ↔ ∀ f line, (f, line) ∈ zip (elements files) lines →
                       (is_valid_file_type source_mime_types f line true).1 = true).
  { rewrite no_errors_iff.
    - split.
      + intros Hall f line Hf. apply Hall in Hf. unfold types in Hf.
        pose proof (file_type_error_empty source_mime_types f line true) as Hv.
        apply Hv, empty_true_iff.
        by destruct (Str.empty (is_valid_file_type _ _ _ _).2).
      + intros Hall [f line] Hf. apply Hall in Hf. unfold types.
        pose proof (file_type_error_empty source_mime_types f line true) as Hv.
        apply Hv in Hf. cbv zeta. by rewrite Hf.
    - intros [f line] e. unfold types.
      generalize ((is_valid_file_type source_mime_types f line true).2) as err.
      intros [|c err]; [done|]. cbn [Str.empty negb].
      intros [= <-] Heq. by apply append_empty_iff in Heq as [? _]. }
  destruct (Str.empty (concat_lines (omap types _))) eqn:Ht; cbn [obind negb].
  - split; [|done]. intros _. right. split; [done|].
    exists lines. split; [done|]. split; [done|]. by apply Htypes.
  - split; [done|]. intros [?|[_ (lines' & [= <-] & _ & Hall)]]; [done|].
    apply Htypes in Hall. congruence.
Qed.

Lemma resolve_files_spec (E : Discovery) (p r : Project.t) :
  resolve_files E p = Done r →
  let literal := filter (λ i, exists_under E i = true) (Project.sources p) in
  ∃ entries,
    walk E = Done entries
    ∧ Project.sources r = Project.sources p ∖ literal
    ∧ Project.files r
      = Project.files p ∪ literal
        ∪ list_to_set
            (List.filter
               (λ '(s, regular),
                  regular && existsb (λ e, regex_match E e s)
                               (elements (Project.sources p ∖ literal)))
               entries).*1
    ∧ check_file_types E (Project.files r) (Project.root_directory p) = Done tt
    ∧ Project.license r = Project.license p
    ∧ Project.cppan_filename r = Project.cppan_filename p
    ∧ Project.root_directory r = Project.root_directory p
    ∧ Project.empty r = Project.empty p.
Proof.
  unfold resolve_files. cbv zeta. intros Hres.
  destruct (_ && negb (Project.empty p)); [done|].
  destruct (negb (forallb _ _)); [done|].
  destruct (walk E) as [entries|]; cbn [obind] in Hres; [|done].
  destruct (_ && negb (Project.empty p)); [done|].
  destruct (check_file_types E _ _) as [[]|] eqn:Hchk; cbn [obind] in Hres; [|done].
  injection Hres as <-. exists entries. cbn. by rewrite Hchk.
Qed.

(** X4: where the files of a project come from, once [findSources]
    has succeeded: a file was there before, or is a source pattern that names
    an existing path, or is a regular file below the root matched by one of
    the remaining patterns, or is the license, or the manifest; and the
    patterns left in [sources] are those that name no existing path. *)
Theorem findSources_provenance (E : Discovery) (p p' : Project.t) :
  findSources E p = Done p' →
  (∀ i, i ∈ Project.sources p' ↔ i ∈ Project.sources p ∧ exists_under E i = false)
  ∧ ∀ f, f ∈ Project.files p'
      ↔ f ∈ Project.files p
        ∨ (f ∈ Project.sources p ∧ exists_under E f = true)
        ∨ (∃ entries e, walk E = Done entries ∧ (f, true) ∈ entries
                        ∧ e ∈ Project.sources p' ∧ regex_match E e f = true)
        ∨ (Project.license p ≠ "" ∧ f = Project.license p)
        ∨ f = Project.cppan_filename p.
Proof.
  unfold findSources. intros Hrun.
  destruct (resolve_files E p) as [r|] eqn:Hres; cbn [obind] in Hrun; [|done].
  apply resolve_files_spec in Hres. cbv zeta in Hres.
  destruct Hres as (entries & Hwalk & Hsrc & Hfiles & _ & Hlic & Hman & _ & _).
  assert (Hsources : ∀ i, i ∈ Project.sources r
                          ↔ i ∈ Project.sources p ∧ exists_under E i = false).
  { intros i. rewrite Hsrc, elem_of_difference, elem_of_filter.
    destruct (exists_under E i); naive_solver. }
  assert (Hresolved : ∀ f, f ∈ Project.files r
            ↔ f ∈ Project.files p
              ∨ (f ∈ Project.sources p ∧ exists_under E f = true)
              ∨ (∃ e, (f, true) ∈ entries ∧ e ∈ Project.sources r
                      ∧ regex_match E e f = true)).
  { intros f. rewrite Hfiles, !elem_of_union, elem_of_filter, elem_of_list_to_set,
      list_elem_of_fmap, <-Hsrc.
    split.
    - intros [[?|[? ?]]|([f' regular] & -> & Hin)]; [auto|auto|].
      apply list_elem_of_In, filter_In in Hin as [Hin Hm].
      apply andb_true_iff in Hm as [-> Hm].
      apply existsb_exists in Hm as (e & He & Hm).
      right. right. exists e. split; [by apply list_elem_of_In|].
      split; [|done]. by apply elem_of_elements, list_elem_of_In.
    - intros [?|[[? ?]|(e & Hin & He & Hm)]]; [auto|auto|].
      right. exists (f, true). split; [done|].
      apply list_elem_of_In, filter_In. split; [by apply list_elem_of_In|].
      apply andb_true_iff. split; [done|].
      apply existsb_exists. exists e. split; [|done].
      by apply list_elem_of_In, elem_of_elements. }
  set (r1 := Project.set_header_only _ r) in Hrun.
  change (Project.license r1) with (Project.license r) in Hrun.
  rewrite Hlic in Hrun.
  assert (Hend : ∀ r2 : Project.t,
            Project.sources r2 = Project.sources r →
            Project.cppan_filename r2 = Project.cppan_filename p →
            (∀ f, f ∈ Project.files r2
                  ↔ f ∈ Project.files r ∨ (Project.license p ≠ "" ∧ f = Project.license p)) →
            obind (if negb (Str.empty (Project.root_directory r2))
                   then copy_manifest E else Done ())
              (λ _, Done (Project.set_files
                            (Project.files r2 ∪ {[ Project.cppan_filename r2 ]}) r2))
            = Done p' →
            (∀ i, i ∈ Project.sources p' ↔ i ∈ Project.sources p ∧ exists_under E i = false)
            ∧ ∀ f, f ∈ Project.files p'
                ↔ f ∈ Project.files p
                  ∨ (f ∈ Project.sources p ∧ exists_under E f = true)
                  ∨ (∃ entries e, walk E = Done entries ∧ (f, true) ∈ entries
                                  ∧ e ∈ Project.sources p' ∧ regex_match E e f = true)
                  ∨ (Project.license p ≠ "" ∧ f = Project.license p)
                  ∨ f = Project.cppan_filename p).
  { intros r2 Hs2 Hm2 Hf2 Hrun2.
    destruct (if negb (Str.empty (Project.root_directory r2)) then copy_manifest E else Done ())
      as [[]|]; cbn [obind] in Hrun2; [|done].
    injection Hrun2 as <-. cbn. rewrite Hs2, Hm2. split; [done|].
    intros f. rewrite elem_of_union, elem_of_singleton, Hf2, Hresolved.
    split.
    - intros [[[?|[?|(e & ? & ? & ?)]]|?]|?]; eauto 10.
    - intros [?|[?|[(entries' & e & Hw & ? & ? & ?)|[?|?]]]]; eauto 10.
      rewrite Hwalk in Hw. injection Hw as <-. eauto 10. }
  destruct (Project.license p) as [|c l] eqn:Hl; cbn [Str.empty negb obind] in Hrun.
  - apply Hend in Hrun; [done|done|done|]. intros f. cbn. naive_solver.
  - destruct (license_size E) as [size|]; [|done].
    destruct (512 * 1024 <? size); [done|]. cbn [obind] in Hrun.
    apply Hend in Hrun; [done|done|done|]. intros f. cbn.
    rewrite elem_of_union, elem_of_singleton. naive_solver.
Qed.

Lemma provenance_witness :
  ∃ p', findSources Example.discovery (Example.header_project "") = Done p'
        ∧ "include/x.hpp" ∈ Project.files p'.
Proof.
  destruct (findSources Example.discovery (Example.header_project "")) as [p'|msg] eqn:Hrun;
    [|by vm_compute in Hrun].
  exists p'. split; [reflexivity|].
  destruct (findSources_provenance _ _ _ Hrun) as [Hsources Hfiles].
  apply Hfiles. right. right. left.
  exists [("include/x.hpp", true); ("include", false)], "include/.*".
  split; [reflexivity|]. split; [apply list_elem_of_here|].
  split; [|reflexivity].
  apply Hsources. split; [|reflexivity].
  change ("include/.*" ∈ ({[ "include/.*" ]} : gset string)).
  by apply elem_of_singleton.
Defined.

(** X5: a project that is not marked [empty] and has no file yet:
    without source patterns [findSources] fails with "'files' must be
    populated"; with patterns that name no existing path, compile, and match
    no regular file below the root, it fails with "no files found". *)
Theorem findSources_without_files (E : Discovery) (p : Project.t) :
  Project.empty p = false →
  Project.files p = ∅ →
  (Project.sources p = ∅ → findSources E p = Throw "'files' must be populated")
  ∧ (∀ entries,
       Project.sources p ≠ ∅ →
       (∀ i, i ∈ Project.sources p →
             exists_under E i = false ∧ regex_compiles E i = true) →
       walk E = Done entries →
       (∀ f e, (f, true) ∈ entries → e ∈ Project.sources p → regex_match E e f = false) →
       findSources E p = Throw "no files found").
Proof.
  intros Hempty Hfiles. unfold findSources, resolve_files. cbv zeta.
  rewrite Hempty, Hfiles. split.
  - intros ->.
    assert (filter (λ i, exists_under E i = true) (∅ : gset string) = ∅) as ->
      by (apply set_eq; intros i; rewrite elem_of_filter; set_solver).
    assert ((∅ : gset string) ∖ ∅ = ∅) as -> by set_solver.
    assert ((∅ : gset string) ∪ ∅ = ∅) as -> by set_solver.
    by rewrite !bool_decide_eq_true_2.
  - intros entries Hne Hsrc Hwalk Hno.
    assert (Hlit : filter (λ i, exists_under E i = true) (Project.sources p) = ∅).
    { apply set_eq. intros i. rewrite elem_of_filter. split; [|set_solver].
      intros [Hex Hi]. apply Hsrc in Hi as [Hi _]. congruence. }
    rewrite Hlit.
    assert (Project.sources p ∖ ∅ = Project.sources p) as -> by set_solver.
    assert ((∅ : gset string) ∪ ∅ = ∅) as -> by set_solver.
    rewrite (bool_decide_eq_false_2 (Project.sources p = ∅)) by done.
    cbn [andb negb].
    assert (Hcomp : forallb (regex_compiles E) (elements (Project.sources p)) = true).
    { apply forallb_forall. intros i Hi.
      apply list_elem_of_In, elem_of_elements in Hi. by apply Hsrc. }
    rewrite Hcomp, Hwalk. cbn [negb obind].
    match goal with
    | |- context [List.filter ?F entries] =>
        assert (Hnone : List.filter F entries = [])
    end.
    { clear Hwalk. induction entries as [|[f regular] entries IH]; [done|].
      cbn [List.filter].
      assert (regular && existsb (λ e, regex_match E e f) (elements (Project.sources p))
              = false) as ->.
      { destruct regular; [|done]. cbn [andb].
        apply not_true_is_false. intros Hm.
        apply existsb_exists in Hm as (e & He & Hm).
        apply list_elem_of_In, elem_of_elements in He.
        rewrite (Hno f e) in Hm; [done|left|done]. }
      apply IH. intros f' e Hin. apply Hno. by right. }
    rewrite Hnone. cbn [fmap list_fmap].
    assert ((∅ : gset string) ∪ list_to_set [] = ∅) as -> by set_solver.
    by rewrite bool_decide_eq_true_2.
Qed.

Lemma without_files_witness :
  findSources Example.discovery (Example.project ∅) = Throw "'files' must be populated".
Proof.
  apply (findSources_without_files Example.discovery (Example.project ∅));
    reflexivity.
Defined.

(** ** The manifest loader, further *)

(** X6: [get_sequence_set<T, String>(node, key)] succeeds exactly in
    three cases: the key is absent and the set is empty; its value is a
    scalar and the set holds it alone; its value is a sequence of scalars
    and the set holds them.  A map, a null value or a sequence with an entry
    that is no scalar is an error. *)
Theorem get_sequence_set_key_elements (node : Node) (key : string) (X : gset string) :
  get_sequence_set_key node key = Done X
  ↔ (subscript node key = Done Undefined ∧ X = ∅)
    ∨ (∃ s, subscript node key = Done (Scalar s) ∧ X = {[ s ]})
    ∨ (∃ vs, subscript node key = Done (Sequence (Scalar <$> vs)) ∧ X = list_to_set vs).
Proof.
  unfold get_sequence_set_key, get_sequence_key, get_sequence. split.
  - intros Hrun.
    destruct (subscript node key) as [n|]; cbn [obind] in Hrun; [|done].
    destruct n as [| |s|l|es]; cbn in Hrun; try done.
    + left. by injection Hrun as <-.
    + right. left. exists s. split; [done|]. injection Hrun as <-. set_solver.
    + right. right. destruct (omapM as_String l) as [vs|] eqn:Hl; [|done].
      cbn in Hrun. injection Hrun as <-. exists vs. split; [|done].
      apply omapM_as_String in Hl. by rewrite Hl.
  - intros [[-> ->]|[(s & -> & ->)|(vs & -> & ->)]]; cbn.
    + done.
    + f_equal. set_solver.
    + assert (omapM as_String (Scalar <$> vs) = Done vs) as -> by (by apply omapM_as_String).
      done.
Qed.

Section LoaderMore.

Context {decl : Declarations}.

Lemma load_common_inv (this : Config.t) (root : Node) (c : Config.t) :
  load_common this root = Done c →
  ∃ pd ty fns incs tys libs,
    get_scalar root "packages_dir" "user" = Done pd
    ∧ packages_dir_type_from_string pd = Done ty
    ∧ Config.packages_dir_type c = Some ty
    ∧ get_sequence_key root "check_function_exists" = Done fns
    ∧ Config.check_functions c = Config.check_functions this ∪ list_to_set fns
    ∧ get_sequence_key root "check_include_exists" = Done incs
    ∧ Config.check_includes c = Config.check_includes this ∪ list_to_set incs
    ∧ get_sequence_key root "check_type_size" = Done tys
    ∧ Config.check_types c = Config.check_types this ∪ list_to_set tys
    ∧ get_sequence_key root "check_library_exists" = Done libs
    ∧ Config.check_libraries c = Config.check_libraries this ∪ list_to_set libs
    ∧ get_config_insertions root = Done (Config.bs_insertions c)
    ∧ Config.projects c = Config.projects this
    ∧ Config.packages c = Config.packages this
    ∧ Config.indirect_dependencies c = Config.indirect_dependencies this
    ∧ Config.global_options c = Config.global_options this
    ∧ Config.dependency_tree c = Config.dependency_tree this.
Proof.
  unfold load_common. intros Hrun. steps Hrun.
  injection Hrun as <-. cbn.
  repeat match goal with
  | H : obind ?x _ = Done _ |- _ => steps H; injection H as <-
  end.
  eexists _, _, _, _, _, _. repeat split; try done; eauto.
Qed.

(** X7: [load_common] only adds to what a [Config] has gathered: the
    four check sets and the symbols checked for grow or stay, and the
    projects, the packages, the indirect dependencies, the global options
    and the dependency tree are left as they were. *)
Theorem load_common_accumulates (this : Config.t) (root : Node) (c : Config.t) :
  load_common this root = Done c →
  Config.check_functions this ⊆ Config.check_functions c
  ∧ Config.check_includes this ⊆ Config.check_includes c
  ∧ Config.check_types this ⊆ Config.check_types c
  ∧ Config.check_libraries this ⊆ Config.check_libraries c
  ∧ dom (Config.check_symbols this) ⊆ dom (Config.check_symbols c)
  ∧ Config.projects c = Config.projects this
  ∧ Config.packages c = Config.packages this
  ∧ Config.indirect_dependencies c = Config.indirect_dependencies this
  ∧ Config.global_options c = Config.global_options this
  ∧ Config.dependency_tree c = Config.dependency_tree this.
Proof.
  intros Hrun.
  assert (Hsym : dom (Config.check_symbols this) ⊆ dom (Config.check_symbols c)).
  { unfold load_common in Hrun. steps Hrun. injection Hrun as <-. cbn.
    match goal with
    | H : get_map_and_iterate _ _ _ _ = Done _ |- _ =>
        eapply (get_map_and_iterate_invariant
                  (λ m, dom (Config.check_symbols this) ⊆ dom m)); [done| |exact H]
    end.
    intros syms [first second] syms' Hsub Hsym. steps Hsym.
    destruct (IsSequence second).
    - steps Hsym. injection Hsym as <-. set_solver.
    - destruct (IsScalar second); [|done]. injection Hsym as <-. set_solver. }
  apply load_common_inv in Hrun
    as (pd & ty & fns & incs & tys & libs & _ & _ & _ & _ & -> & _ & -> & _ & ->
        & _ & -> & _ & -> & -> & -> & -> & ->).
  repeat split; try done; set_solver.
Qed.

(** X8: what [load_common] does for a key the file lacks: [host],
    [storage_dir], [root_project] and [proxy] keep their value, whereas
    [packages_dir] becomes [User] and the four insertion blocks become
    empty, whatever the [Config] held before. *)
Theorem load_common_missing_keys (this : Config.t) (root : Node) (c : Config.t) :
  load_common this root = Done c →
  (subscript root "host" = Done Undefined → Config.host c = Config.host this)
  ∧ (subscript root "storage_dir" = Done Undefined →
     Config.storage_dir c = Config.storage_dir this)
  ∧ (subscript root "root_project" = Done Undefined →
     Config.root_project c = Config.root_project this)
  ∧ (subscript root "proxy" = Done Undefined → Config.proxy c = Config.proxy this)
  ∧ (subscript root "packages_dir" = Done Undefined →
     Config.packages_dir_type c = Some User)
  ∧ (subscript root "pre_sources" = Done Undefined →
     pre_sources (Config.bs_insertions c) = "")
  ∧ (subscript root "post_sources" = Done Undefined →
     post_sources (Config.bs_insertions c) = "")
  ∧ (subscript root "post_target" = Done Undefined →
     post_target (Config.bs_insertions c) = "")
  ∧ (subscript root "post_alias" = Done Undefined →
     post_alias (Config.bs_insertions c) = "").
Proof.
  intros Hrun.
  pose proof (load_common_inv _ _ _ Hrun)
    as (pd & ty & _ & _ & _ & _ & Hpd & Hty & -> & _ & _ & _ & _ & _ & _ & _ & _
        & Hins & _).
  assert (Hblock : ∀ key, subscript root key = Done Undefined →
                          get_config_insertion root key = Done "").
  { intros key Hk. unfold get_config_insertion, get_scalar. by rewrite Hk. }
  unfold get_config_insertions in Hins.
  unfold load_common, EXTRACT_VAR in Hrun.
  repeat split; intros Hk.
  - rewrite Hk in Hrun. cbn [obind IsDefined] in Hrun. steps Hrun.
    injection Hrun as Hc. by rewrite <-Hc.
  - rewrite Hk in Hrun. cbn [obind IsDefined] in Hrun. steps Hrun.
    injection Hrun as Hc. by rewrite <-Hc.
  - rewrite Hk in Hrun. cbn [obind IsDefined] in Hrun. steps Hrun.
    injection Hrun as Hc. by rewrite <-Hc.
  - rewrite Hk in Hrun. cbn [obind IsDefined] in Hrun. steps Hrun.
    injection Hrun as Hc. by rewrite <-Hc.
  - unfold get_scalar in Hpd. rewrite Hk in Hpd. cbn [obind IsDefined] in Hpd.
    injection Hpd as <-. by injection Hty as <-.
  - rewrite (Hblock _ Hk) in Hins. steps Hins. injection Hins as Hc. by rewrite <-Hc.
  - rewrite (Hblock _ Hk) in Hins. steps Hins. injection Hins as Hc. by rewrite <-Hc.
  - rewrite (Hblock _ Hk) in Hins. steps Hins. injection Hins as Hc. by rewrite <-Hc.
  - rewrite (Hblock _ Hk) in Hins. steps Hins. injection Hins as Hc. by rewrite <-Hc.
Qed.

(** X9: a project whose manifest has both the key [shared_only] and
    the key [static_only] is rejected, whatever else the manifest holds. *)
Theorem static_and_shared_is_rejected (this : Config.t) (cp : Fs.path)
    (es : list (Node * Node)) :
  find_entry "shared_only" es ≠ Undefined →
  find_entry "static_only" es ≠ Undefined →
  load_project this cp (Map es)
  = Throw "Project cannot be static and shared simultaneously".
Proof.
  intros Hshared Hstatic. unfold load_project, GET_BOOL. cbn [subscript obind].
  destruct (find_entry "shared_only" es); [done|..];
    destruct (find_entry "static_only" es); done.
Qed.

Lemma load_project_inv (this : Config.t) (cp : Fs.path) (root : Node) (p : Project.t) :
  load_project this cp root = Done p →
  ∃ n declared options dependencies,
    subscript root "include_directories" = Done n
    ∧ (if IsDefined n then
         if negb (IsMap n) then Throw "'include_directories' should be a map"
         else
           do pub <- get_sequence_set_key n "public";
           do priv <- get_sequence_set_key n "private";
           Done {| public_ := pub; private_ := priv |}
       else Done {| public_ := ∅; private_ := ∅ |}) = Done declared
    ∧ public_ (Project.include_directories p)
      = (if bool_decide (public_ declared = ∅) then {[ "include" ]} else public_ declared)
        ∪ {[ "${CMAKE_CURRENT_BINARY_DIR}" ]}
    ∧ private_ (Project.include_directories p) = private_ declared
    ∧ get_map_and_iterate root "options" load_option_level ∅ = Done options
    ∧ Project.options p = options
    ∧ load_dependencies this root ∅ = Done dependencies
    ∧ Project.dependencies p = dependencies
    ∧ (Project.shared_only p && Project.static_only p = false)
    ∧ Project.package p = []
    ∧ Project.files p = ∅.
Proof.
  unfold load_project. intros Hrun. steps Hrun. injection Hrun as <-. cbn.
  eexists _, _, _, _. repeat split; eauto.
Qed.

(** X10: every loaded project has the public include directory
    [${CMAKE_CURRENT_BINARY_DIR}]; without the key [include_directories] its
    public directories are that one and [include], and it has no private one.
    So the emitter writes a [target_include_directories] statement for every
    loaded project. *)
Theorem loaded_project_has_include_directories (this : Config.t) (cp : Fs.path)
    (root : Node) (p : Project.t) :
  load_project this cp root = Done p →
  "${CMAKE_CURRENT_BINARY_DIR}" ∈ public_ (Project.include_directories p)
  ∧ (subscript root "include_directories" = Done Undefined →
     public_ (Project.include_directories p)
     = {[ "include"; "${CMAKE_CURRENT_BINARY_DIR}" ]}
     ∧ private_ (Project.include_directories p) = ∅)
  ∧ ∀ d pi header_only,
      ∃ before after,
        print_target p d pi header_only
        = before
          ++ [text "target_include_directories    ("; text (PackageInfo.target_name pi);
              eol; increaseIndent]
          ++ after.
Proof.
  intros Hrun.
  apply load_project_inv in Hrun
    as (n & declared & _ & _ & Hn & Hdecl & Hpub & Hpriv & _).
  assert (Hin : "${CMAKE_CURRENT_BINARY_DIR}" ∈ public_ (Project.include_directories p)).
  { rewrite Hpub. set_solver. }
  split; [done|]. split.
  - intros Hu. rewrite Hu in Hn. injection Hn as <-. cbn [IsDefined] in Hdecl.
    injection Hdecl as <-. rewrite Hpub, Hpriv. cbn [public_ private_].
    by rewrite bool_decide_eq_true_2.
  - intros d pi header_only. unfold print_target. cbv zeta.
    rewrite (bool_decide_eq_false_2 (public_ (Project.include_directories p) = ∅))
      by set_solver.
    cbn [andb negb].
    rewrite <-!(assoc_L (++)).
    find_infix @infix_here @infix_later.
Qed.

(** X11: the option levels of a loaded project are among [any],
    [static] and [shared]. *)
Theorem loaded_option_levels (this : Config.t) (cp : Fs.path)
    (root : Node) (p : Project.t) :
  load_project this cp root = Done p →
  ∀ ol, is_Some (Project.options p !! ol) → ol ∈ ["any"; "static"; "shared"].
Proof.
  intros Hrun.
  apply load_project_inv in Hrun
    as (_ & _ & options & _ & _ & _ & _ & _ & Hopt & -> & _).
  eapply (get_map_and_iterate_invariant
            (λ m : gmap string Options.t,
               ∀ ol, is_Some (m !! ol) → ol ∈ ["any"; "static"; "shared"]));
    [| |exact Hopt].
  - intros ol [o Ho]. by rewrite lookup_empty in Ho.
  - intros opts [first second] opts' IH Hstep. unfold load_option_level in Hstep.
    steps Hstep. destruct (negb (IsMap second)); [done|]. steps Hstep.
    injection Hstep as <-. intros ol Hol.
    apply lookup_insert_is_Some in Hol as [<-|[_ Hol]]; [|by apply IH].
    apply negb_false_iff in Hcond. rewrite !orb_true_iff, !bool_decide_eq_true in Hcond.
    set_solver.
Qed.

Lemma keyed_by_name_insert (deps : Dependencies) (d : Dependency.t) :
  keyed_by_name deps →
  keyed_by_name (<[ProjectPath.toString (Dependency.package d) := d]> deps).
Proof.
  intros Hdeps k d' Hk. apply lookup_insert_Some in Hk as [[<- <-]|[_ Hk]]; [done|].
  by apply Hdeps.
Qed.

Lemma get_dep_keyed (this : Config.t) (deps deps' : Dependencies) (d : Node * Node) :
  keyed_by_name deps → get_dep this deps d = Done deps' → keyed_by_name deps'.
Proof.
  intros Hdeps Hrun. destruct d as [first second]. unfold get_dep in Hrun.
  steps Hrun. injection Hrun as <-. by apply keyed_by_name_insert.
Qed.

(** X12: every dependency of a loaded project is filed under the
    dotted name of its own package, in each of the forms the [dependencies]
    key takes. *)
Theorem loaded_dependencies_are_keyed_by_name (this : Config.t) (cp : Fs.path)
    (root : Node) (p : Project.t) :
  load_project this cp root = Done p →
  ∀ k d, Project.dependencies p !! k = Some d →
         k = ProjectPath.toString (Dependency.package d).
Proof.
  intros Hrun.
  apply load_project_inv in Hrun
    as (_ & _ & _ & deps & _ & _ & _ & _ & _ & _ & Hdeps & -> & _).
  fold (keyed_by_name deps).
  assert (Hempty : keyed_by_name ∅) by (intros k d Hk; by rewrite lookup_empty in Hk).
  unfold load_dependencies in Hdeps.
  destruct (subscript root "dependencies") as [n|]; cbn [obind] in Hdeps; [|done].
  assert (Hadd : ∀ deps1 deps2 d,
            keyed_by_name deps1 →
            (do name <- as_String d;
             do package <- relative_name_to_absolute this name;
             Done (<[ProjectPath.toString package :=
                       Dependency.set_package package Dependency.default]> deps1))
            = Done deps2 →
            keyed_by_name deps2).
  { intros deps1 deps2 d Hk Hrun. steps Hrun. injection Hrun as <-.
    by apply (keyed_by_name_insert deps1 (Dependency.set_package _ Dependency.default)). }
  destruct n as [| |s|dall|dall].
  - by injection Hdeps as <-.
  - by injection Hdeps as <-.
  - by eapply Hadd.
  - eapply (ofold_invariant keyed_by_name); [exact Hempty| |exact Hdeps].
    intros a x a' Ha _. by apply Hadd.
  - steps Hdeps.
    match goal with
    | H : get_map_and_iterate _ "private" _ _ = Done ?priv |- _ =>
        assert (Hpriv : keyed_by_name priv)
          by (eapply (get_map_and_iterate_invariant keyed_by_name); [| |exact H];
              [intros k d Hk; by rewrite lookup_empty in Hk
              |intros ????; by apply get_dep_keyed])
    end.
    match goal with
    | H : get_map_and_iterate _ "public" _ _ = Done ?pub |- _ =>
        assert (Hpub : keyed_by_name pub)
          by (eapply (get_map_and_iterate_invariant keyed_by_name); [| |exact H];
              [done|intros ????; by apply get_dep_keyed])
    end.
    match type of Hdeps with
    | (if _ then ofold _ ?u _ else _) = _ => assert (Hunion : keyed_by_name u)
    end.
    { intros k d Hk. apply lookup_union_Some_raw in Hk as [Hk|[_ Hk]].
      - by apply Hpub.
      - apply lookup_fmap_Some in Hk as (d0 & <- & Hk). by apply (Hpriv k d0). }
    destruct (_ && _).
    + eapply (ofold_invariant keyed_by_name); [exact Hunion| |exact Hdeps].
      intros ? ? ? ? _. by apply get_dep_keyed.
    + by injection Hdeps as <-.
Qed.

(** X13: [Config::load] keeps the projects the [Config] has and
    appends one project for every entry of the [projects] map, or a single
    one when the manifest has no such key; every project it appends carries
    the file name of the manifest. *)
Theorem load_appends_projects (this : Config.t) (cp : Fs.path) (filename : string)
    (root : Node) (c : Config.t) :
  load this cp filename root = Done c →
  ∃ new,
    Config.projects c = Config.projects this ++ new
    ∧ Forall (λ p, Project.cppan_filename p = filename) new
    ∧ length new = match subscript root "projects" with
                   | Done (Map es) => length es
                   | _ => 1%nat
                   end.
Proof.
  unfold load. intros Hrun.
  destruct (load_common this root) as [this'|] eqn:Hcommon; cbn [obind] in Hrun; [|done].
  apply load_common_inv in Hcommon.
  destruct Hcommon as (_ & _ & _ & _ & _ & _ & _ & _ & _ & _ & _ & _ & _ & _ & _ & _ & _
                       & _ & <- & _).
  assert (Hset : ∀ (c0 c1 : Config.t) project name,
            set_project c0 filename project name = Done c1 →
            ∃ p, Config.projects c1 = Config.projects c0 ++ [p]
                 ∧ Project.cppan_filename p = filename).
  { intros c0 c1 project name Hs. unfold set_project in Hs. steps Hs.
    injection Hs as <-. eexists. split; [reflexivity|done]. }
  destruct (subscript root "projects") as [prjs|]; cbn [obind] in Hrun; [|done].
  destruct prjs as [| |s|l|es]; cbn [IsDefined IsMap negb] in Hrun; try done.
  - steps Hrun. apply Hset in Hrun as (p & -> & Hp). exists [p]. by repeat constructor.
  - cbn [entries] in Hrun. revert Hrun. generalize this' as c0.
    induction es as [|[first second] es IH]; intros c0 Hrun; cbn [ofold] in Hrun.
    + injection Hrun as <-. exists []. by rewrite app_nil_r.
    + steps Hrun.
      match goal with
      | H : obind _ _ = Done _ |- _ => steps H; apply Hset in H as (p & Hp & Hfile)
      end.
      apply IH in Hrun as (new & -> & Hall & Hlen).
      exists (p :: new). rewrite Hp, <-(assoc_L (++)). split; [done|].
      split; [by constructor|]. simpl. by rewrite Hlen.
Qed.

End LoaderMore.

Lemma load_common_accumulates_witness :
  ∃ c, load_common (Example.config [] [])
         (Map [(Scalar "check_function_exists", Scalar "fork")]) = Done c
       ∧ Config.check_functions (Example.config [] []) ⊆ Config.check_functions c.
Proof.
  destruct (load_common (Example.config [] [])
              (Map [(Scalar "check_function_exists", Scalar "fork")]))
    as [c|msg] eqn:Hrun; [|by vm_compute in Hrun].
  exists c. split; [reflexivity|].
  by destruct (load_common_accumulates _ _ _ Hrun) as (? & _).
Defined.

Lemma load_common_missing_keys_witness :
  ∃ c, load_common (Example.config [] [])
         (Map [(Scalar "check_function_exists", Scalar "fork")]) = Done c
       ∧ Config.packages_dir_type c = Some User.
Proof.
  destruct (load_common (Example.config [] [])
              (Map [(Scalar "check_function_exists", Scalar "fork")]))
    as [c|msg] eqn:Hrun; [|by vm_compute in Hrun].
  exists c. split; [reflexivity|].
  destruct (load_common_missing_keys _ _ _ Hrun) as (_ & _ & _ & _ & Hdir & _).
  by apply Hdir.
Defined.

Lemma static_and_shared_witness :
  load_project (decl := Example.declarations) (Example.config [] [])
    ["/"; "home"; "user"; "project"]
    (Map [(Scalar "shared_only", Null); (Scalar "static_only", Null)])
  = Throw "Project cannot be static and shared simultaneously".
Proof. apply static_and_shared_is_rejected; intros Heq; by vm_compute in Heq. Defined.

Lemma include_directories_witness :
  ∃ p, load_project (decl := Example.declarations) (Example.config [] [])
         ["/"; "home"; "user"; "project"] (Map []) = Done p
       ∧ public_ (Project.include_directories p)
         = {[ "include"; "${CMAKE_CURRENT_BINARY_DIR}" ]}.
Proof.
  destruct (load_project (decl := Example.declarations) (Example.config [] [])
              ["/"; "home"; "user"; "project"] (Map []))
    as [p|msg] eqn:Hrun; [|by vm_compute in Hrun].
  exists p. split; [reflexivity|].
  destruct (loaded_project_has_include_directories _ _ _ _ Hrun) as (_ & Hnone & _).
  by apply Hnone.
Defined.

Lemma option_levels_witness :
  ∃ p, load_project (decl := Example.declarations) (Example.config [] [])
         ["/"; "home"; "user"; "project"]
         (Map [(Scalar "options",
                 Map [(Scalar "shared", Map [(Scalar "definitions", Map [])])])]) = Done p
       ∧ ∀ ol, is_Some (Project.options p !! ol) → ol ∈ ["any"; "static"; "shared"].
Proof.
  destruct (load_project (decl := Example.declarations) (Example.config [] [])
              ["/"; "home"; "user"; "project"]
              (Map [(Scalar "options",
                 Map [(Scalar "shared", Map [(Scalar "definitions", Map [])])])]))
    as [p|msg] eqn:Hrun; [|by vm_compute in Hrun].
  exists p. split; [reflexivity|].
  exact (loaded_option_levels _ _ _ _ Hrun).
Defined.

Lemma keyed_by_name_witness :
  ∃ p, load_project (decl := Example.declarations) (Example.config [] [])
         ["/"; "home"; "user"; "project"]
         (Map [(Scalar "dependencies", Scalar "org.a.b")]) = Done p
       ∧ ∀ k d, Project.dependencies p !! k = Some d →
                k = ProjectPath.toString (Dependency.package d).
Proof.
  destruct (load_project (decl := Example.declarations) (Example.config [] [])
              ["/"; "home"; "user"; "project"]
              (Map [(Scalar "dependencies", Scalar "org.a.b")]))
    as [p|msg] eqn:Hrun; [|by vm_compute in Hrun].
  exists p. split; [reflexivity|].
  exact (loaded_dependencies_are_keyed_by_name _ _ _ _ Hrun).
Defined.

Lemma load_appends_witness :
  ∃ c new,
    load (decl := Example.declarations) (Example.config [] [Example.project ∅])
      ["/"; "home"; "user"; "project"] "cppan.yml" (Map []) = Done c
    ∧ Config.projects c = [Example.project ∅] ++ new
    ∧ length new = 1%nat.
Proof.
  destruct (load (decl := Example.declarations) (Example.config [] [Example.project ∅])
              ["/"; "home"; "user"; "project"] "cppan.yml" (Map []))
    as [c|msg] eqn:Hrun; [|by vm_compute in Hrun].
  destruct (load_appends_projects _ _ _ _ _ Hrun) as (new & Hprojects & _ & Hlen).
  exists c, new. split; [reflexivity|]. split; [exact Hprojects|exact Hlen].
Defined.

(** ** The registry client, further *)

Lemma split_go_nonempty (sep : ascii) (cur s : string) : Str.split_go sep cur s ≠ [].
Proof.
  revert cur. induction s as [|c s IH]; intros cur; simpl; [done|].
  destruct (decide (c = sep)); [done|apply IH].
Qed.

Lemma set_child_nonempty key v t : pt.empty (pt.set_child key v t) = false.
Proof.
  unfold pt.set_child, pt.find, pt.empty. destruct (pt.assoc key (pt.children t)) eqn:Ha.
  - cbn [pt.children]. destruct (pt.children t) as [|[k c] l]; [done|].
    simpl. by destruct (decide (k = key)).
  - cbn [pt.children]. by destruct (pt.children t).
Qed.

Lemma put_child_nonempty keys v t : keys ≠ [] → pt.empty (pt.put_child keys v t) = false.
Proof.
  destruct keys as [|k ks]; [done|]. intros _.
  destruct ks; simpl; apply set_child_nonempty.
Qed.

Section RegistryMore.

Context {decl : Declarations} {ext : Externals}.

Lemma build_request_some_absolute (projects : list Project.t) p k d :
  p ∈ projects → Project.dependencies p !! k = Some d →
  ProjectPath.is_relative is_owner_segment (Dependency.package d) = false →
  pt.empty (build_request projects) = false.
Proof.
  intros Hp Hd Habs. unfold build_request.
  match goal with |- pt.empty (fold_left ?F _ _) = _ => set (f := F) end.
  assert (Hkeep : ∀ q data, pt.empty data = false → pt.empty (f data q) = false).
  { intros q data Hdata. unfold f.
    induction (map_items (Project.dependencies q)) as [|kd l IH] using rev_ind; [done|].
    rewrite fold_left_app. simpl.
    destruct (ProjectPath.is_relative is_owner_segment (Dependency.package kd.2)); [done|].
    apply put_child_nonempty, split_go_nonempty. }
  assert (Hkeeps : ∀ qs data, pt.empty data = false → pt.empty (fold_left f qs data) = false).
  { induction qs as [|q qs IH]; intros data Hdata; [done|]. simpl. by apply IH, Hkeep. }
  generalize pt.empty_tree as data.
  induction projects as [|q qs IH]; intros data; [by apply elem_of_nil in Hp|].
  simpl. apply elem_of_cons in Hp as [<-|Hp]; [|by apply IH].
  apply Hkeeps. unfold f.
  assert (Hin : (k, d) ∈ map_items (Project.dependencies p)) by (by apply elem_of_map_items).
  revert data.
  induction (map_items (Project.dependencies p)) as [|kd l IHl]; intros data;
    [by apply elem_of_nil in Hin|].
  simpl. apply elem_of_cons in Hin as [<-|Hin]; [|by apply IHl].
  simpl. rewrite Habs.
  match goal with |- pt.empty (fold_left ?G l ?x) = false => 
    assert (Hx : pt.empty x = false) by apply put_child_nonempty, split_go_nonempty;
    revert Hx; generalize x
  end.
  clear. induction l as [|kd l IH]; intros x Hx; [done|].
  simpl. apply IH.
  destruct (ProjectPath.is_relative is_owner_segment (Dependency.package kd.2)); [done|].
  apply put_child_nonempty, split_go_nonempty.
Qed.

(** X14: when some project declares a dependency whose package path
    is absolute, [download_dependencies] asks the registry: its trace starts
    with the log line and the request. *)
Theorem absolute_dependency_is_requested (s : State) p k d :
  p ∈ Config.projects (this s) →
  Project.dependencies p !! k = Some d →
  ProjectPath.is_relative is_owner_segment (Dependency.package d) = false →
  ∃ s' evs r, download_dependencies s = (s', request_events s ++ evs, r).
Proof.
  intros Hp Hd Habs. rewrite download_dependencies_unfold. cbv zeta.
  rewrite (build_request_some_absolute _ _ _ _ Hp Hd Habs).
  destruct (url_post _ _) as [dependency_tree|e].
  - destruct (check_response dependency_tree) as [[]|e].
    + destruct (process_packages _ _ _) as [[s' evs] r]. by eexists _, _, _.
    + eexists _, [], _. by rewrite app_nil_r.
  - eexists _, [], _. by rewrite app_nil_r.
Qed.

(** X15: a response that passes the checks of the API version and of
    the error: without a [packages] field [download_dependencies] fails with
    "No such node (packages)"; with an empty one it returns normally.
    Either way the response is kept in [dependency_tree] and nothing but the
    request is in the trace. *)
Theorem response_without_packages (s : State) (dependency_tree : pt.ptree) :
  pt.empty (build_request (Config.projects (this s))) = false →
  url_post (find_dependencies_url s) (build_request (Config.projects (this s)))
  = Done dependency_tree →
  check_response dependency_tree = Done tt →
  (pt.find "packages" dependency_tree = None →
   download_dependencies s
   = (with_response dependency_tree s, request_events s, Throw "No such node (packages)"))
  ∧ (∀ data, pt.find "packages" dependency_tree = Some (pt.Tree data []) →
     download_dependencies s
     = (with_response dependency_tree s, request_events s, Done tt)).
Proof.
  intros Hne Hpost Hcheck. rewrite download_dependencies_unfold. cbv zeta.
  rewrite Hne, Hpost, Hcheck. unfold process_packages, pt.get_child.
  cbv [mbind M_bind lift]. split.
  - intros ->. by rewrite app_nil_r.
  - intros data ->. cbn [pt.children for_each mret M_ret app].
    by rewrite !app_nil_r.
Qed.

(** X16: the [Dependency] read from an entry of the response: its
    package is the entry's key, its version, flags and md5 are the entry's
    fields, and it has no directory yet; without a [dependencies] field it
    has no dependency; each dependency it records is a package of the
    response whose [id] is listed in that field, and carries neither an md5
    nor dependencies of its own. *)
Theorem read_dependency_fields (remote_packages : list (string * pt.ptree))
    (v : string * pt.ptree) (dep : Dependency.t) :
  read_dependency remote_packages v = Done dep →
  Dependency.package dep = ProjectPath.of_String v.1
  ∧ (∃ vs, pt.get_String "version" v.2 = Done vs
           ∧ Version_of_String vs = Done (Dependency.version dep))
  ∧ (∃ fl, pt.get_uint64 "flags" v.2 = Done fl ∧ Dependency.flags dep = Z.to_N fl)
  ∧ pt.get_String "md5" v.2 = Done (Dependency.md5 dep)
  ∧ Dependency.package_dir dep = []
  ∧ (pt.find "dependencies" v.2 = None → Dependency.dependencies dep = ∅)
  ∧ ∀ k d2, Dependency.dependencies dep !! k = Some d2 →
      ∃ tree_deps listed v2 id,
        pt.find "dependencies" v.2 = Some tree_deps
        ∧ listed ∈ pt.children tree_deps
        ∧ pt.get_value_int listed.2 = Done id
        ∧ v2 ∈ remote_packages
        ∧ pt.get_int "id" v2.2 = Done id
        ∧ Dependency.package d2 = ProjectPath.of_String v2.1
        ∧ k = ProjectPath.toString (Dependency.package d2)
        ∧ Dependency.md5 d2 = ""
        ∧ Dependency.dependencies d2 = ∅.
Proof.
  unfold read_dependency. intros Hrun. steps Hrun.
  destruct (pt.find "dependencies" v.2) as [tree_deps|] eqn:Htd.
  2:{ injection Hrun as <-. repeat split; eauto.
      intros k d2 Hk. discriminate Hk. }
  steps Hrun. injection Hrun as <-. cbn.
  repeat split; eauto; [done|].
  match goal with
  | H : ofold _ _ _ = Done ?deps |- _ =>
      eapply (ofold_invariant
                (λ deps : Dependencies, ∀ k d2, deps !! k = Some d2 → _)); [| |exact H]
  end.
  - intros k d2 Hk. discriminate Hk.
  - intros deps v2 deps' IH Hv2 Hsub. cbv beta in Hsub. steps Hsub.
    destruct (bool_decide _) eqn:Hidx.
    + apply bool_decide_eq_true in Hidx. steps Hsub. injection Hsub as <-.
      intros k d2 Hk. apply lookup_insert_Some in Hk as [[<- <-]|[_ Hk]]; [|by apply IH].
      match goal with
      | H : omapM _ _ = Done _ |- _ =>
          destruct (omapM_elem_of _ _ _ _ H Hidx) as (listed & Hlisted & Hid)
      end.
      exists tree_deps, listed, v2. eexists. repeat split; eauto.
    + injection Hsub as <-. apply IH.
Qed.

End RegistryMore.

Lemma absolute_dependency_witness :
  ∃ s' evs r,
    download_dependencies (decl := Example.declarations)
      (ext := Example.externals pt.empty_tree "abc" true) Example.with_absolute
    = (s', request_events (decl := Example.declarations) Example.with_absolute ++ evs, r).
Proof.
  apply (absolute_dependency_is_requested (decl := Example.declarations)
           Example.with_absolute
           (Example.project
              {[ "org.a.b" := Dependency.set_package ["org"; "a"; "b"] Dependency.default ]})
           "org.a.b" (Dependency.set_package ["org"; "a"; "b"] Dependency.default)).
  - apply list_elem_of_here.
  - apply lookup_singleton_eq.
  - reflexivity.
Defined.

Lemma response_without_packages_witness :
  let response := pt.Tree "" [Example.leaf "api" "1"] in
  (download_dependencies (decl := Example.declarations)
     (ext := Example.externals response "abc" true) Example.with_absolute).2
  = Throw "No such node (packages)".
Proof.
  intros response.
  destruct (response_without_packages (decl := Example.declarations)
              (ext := Example.externals response "abc" true)
              Example.with_absolute response) as [Hmissing _].
  - reflexivity.
  - reflexivity.
  - reflexivity.
  - by rewrite Hmissing.
Defined.

Lemma read_dependency_witness :
  let entry :=
    ("org.a.b", pt.Tree "" [Example.leaf "version" "1.2.3"; Example.leaf "flags" "8";
                            Example.leaf "md5" "abc"]) in
  ∃ dep, read_dependency (decl := Example.declarations) [entry] entry = Done dep
         ∧ Dependency.package dep = ["org"; "a"; "b"]
         ∧ Dependency.dependencies dep = ∅.
Proof.
  intros entry.
  destruct (read_dependency (decl := Example.declarations) [entry] entry)
    as [dep|msg] eqn:Hrun; [|by vm_compute in Hrun].
  exists dep. split; [reflexivity|].
  destruct (read_dependency_fields _ _ _ Hrun) as (Hpackage & _ & _ & _ & _ & Hnone & _).
  split; [by rewrite Hpackage|]. by apply Hnone.
Defined.

(** ** The package cache, further *)

Lemma add_suffix_last (p : Fs.path) (s : string) :
  p ≠ [] → Fs.add_suffix p s = removelast p ++ [List.last p "" +:+ s].
Proof.
  induction p as [|x p IH]; [done|]. intros _.
  destruct p as [|y p]; [done|].
  change (Fs.add_suffix (x :: y :: p) s) with (x :: Fs.add_suffix (y :: p) s).
  rewrite IH by done. done.
Qed.

Lemma archive_name_is_not_digest_name (x : string) : x +:+ ".tar.gz" ≠ "archive.md5".
Proof.
  intros Heq.
  assert (Hlen : String.length x = 4%nat).
  { apply (f_equal String.length) in Heq. rewrite string_length_app in Heq.
    simpl in Heq. lia. }
  do 5 (destruct x as [|? x]; simpl in Hlen; try lia).
  by vm_compute in Heq.
Qed.

Section CacheMore.

Context {decl : Declarations} {ext : Externals}.

Lemma remove_all_lookup_ne (p q : Fs.path) (t : Fs.tree) :
  ¬ p `prefix_of` q → Fs.remove_all p t !! q = t !! q.
Proof.
  intros Hp. unfold Fs.remove_all. destruct (t !! q) as [x|] eqn:Hq.
  - by apply map_lookup_filter_Some_2.
  - apply map_lookup_filter_None. by left.
Qed.

Lemma remove_lookup_ne (p q : Fs.path) (t t' : Fs.tree) :
  p ≠ q → Fs.remove p t = Done t' → t' !! q = t !! q.
Proof.
  intros Hne. unfold Fs.remove. destruct (t !! p) as [[c|]|].
  - intros [= <-]. by apply lookup_delete_ne.
  - destruct (Fs.has_children t p); [done|]. intros [= <-]. by apply lookup_delete_ne.
  - by intros [= <-].
Qed.

(** X17: what a fetch touches: with a fetcher and an archiver that
    keep to their places, a path that is not in the version directory, is
    neither the downloaded archive nor a directory above it, and is not the
    digest file, is after the fetch what it was before, whether the fetch
    succeeds or fails. *)
Theorem fetch_package_frame url data_url dep t t' evs r (p : Fs.path) :
  download_confined → unpack_confined →
  fetch_package url data_url dep t = (t', evs, r) →
  ¬ Dependency.package_dir dep `prefix_of` p →
  ¬ p `prefix_of` archive_of dep →
  p ≠ md5file_of dep →
  t' !! p = t !! p.
Proof.
  intros Hdl Hun Hrun Hvd Hfn Hmd5.
  rewrite fetch_package_unfold in Hrun. cbv zeta in Hrun.
  assert (Hne : archive_of dep ≠ p) by (intros <-; by apply Hfn).
  destruct (up_to_date dep t); [by injection Hrun as <- _ _|].
  set (t1 := if Fs.exists_ t _ then _ else t) in Hrun.
  assert (H1 : t1 !! p = t !! p).
  { unfold t1. destruct (Fs.exists_ t _); [|done]. by apply remove_all_lookup_ne. }
  pose proof (Hdl (package_url_of url data_url dep) (archive_of dep) t1 p Hfn) as H2.
  destruct (download_file _ _ t1) as [t2 [m|e]]; simpl in H2.
  2:{ injection Hrun as <- _ _. congruence. }
  destruct (negb (bool_decide (m = Dependency.md5 dep))).
  { injection Hrun as <- _ _. congruence. }
  destruct (Fs.can_open_for_writing t2 _).
  2:{ injection Hrun as <- _ _. congruence. }
  set (t3 := <[md5file_of dep := _]> t2) in Hrun.
  assert (H3 : t3 !! p = t !! p).
  { unfold t3. rewrite lookup_insert_ne by done. congruence. }
  pose proof (Hun (archive_of dep) (Dependency.package_dir dep) t3 p Hvd) as H4.
  destruct (unpack_file _ _ t3) as [t4 [[]|e]]; simpl in H4.
  - destruct (Fs.remove _ t4) as [t5|e] eqn:Hrm; injection Hrun as <- _ _.
    + rewrite (remove_lookup_ne _ _ _ _ Hne Hrm). congruence.
    + congruence.
  - injection Hrun as <- _ _. rewrite remove_all_lookup_ne by done. congruence.
Qed.

Lemma archive_is_not_digest (dep : Dependency.t) :
  Dependency.package_dir dep ≠ [] → archive_of dep ≠ md5file_of dep.
Proof.
  intros Hne. unfold archive_of, md5file_of, Fs.div, Fs.parent_path, md5_filename.
  rewrite add_suffix_last by done. cbn [Fs.strip_root].
  intros Heq. apply app_inj_tail in Heq as [_ Heq].
  by apply archive_name_is_not_digest_name in Heq.
Qed.

Lemma digest_not_below_version_dir (dep : Dependency.t) :
  Dependency.package_dir dep ≠ [] →
  md5file_of dep ≠ Dependency.package_dir dep →
  ¬ Dependency.package_dir dep `prefix_of` md5file_of dep.
Proof.
  intros Hne Hneq Hpre. apply Hneq. symmetry.
  apply prefix_length_eq; [done|].
  unfold md5file_of, Fs.div, Fs.parent_path. cbn [Fs.strip_root md5_filename].
  rewrite length_app. simpl.
  destruct (Dependency.package_dir dep) as [|x l] using rev_ind; [done|].
  rewrite removelast_last, length_app. simpl. lia.
Qed.

(** X18: a fetch that has succeeded need not be repeated: for a
    package with an md5 of one word, fetched by a fetcher and an archiver
    that keep to their places, a second fetch downloads and unpacks nothing
    and leaves the file system as the first one left it. *)
Theorem fetch_package_is_idempotent url data_url dep t t' evs :
  download_confined → unpack_confined → unpack_creates →
  Dependency.package_dir dep ≠ [] →
  md5file_of dep ≠ Dependency.package_dir dep →
  Dependency.md5 dep ≠ "" →
  Str.first_token (Dependency.md5 dep) = Dependency.md5 dep →
  fetch_package url data_url dep t = (t', evs, Done tt) →
  fetch_package url data_url dep t' = (t', [], Done tt).
Proof.
  intros Hdl Hun Hcr Hne Hdig Hmd5 Htok Hrun.
  assert (Hup : up_to_date dep t' = true); [|by rewrite fetch_package_unfold; cbv zeta; rewrite Hup].
  rewrite fetch_package_unfold in Hrun. cbv zeta in Hrun.
  destruct (up_to_date dep t) eqn:Hup; [by injection Hrun as <- _|].
  destruct (download_file _ _ _) as [t2 [m|e]]; [|done].
  destruct (bool_decide (m = Dependency.md5 dep)) eqn:Hm; cbn [negb] in Hrun; [|done].
  destruct (Fs.can_open_for_writing t2 _); [|done].
  set (t3 := <[md5file_of dep := _]> t2) in Hrun.
  pose proof (Hun (archive_of dep) (Dependency.package_dir dep) t3 (md5file_of dep)
                (digest_not_below_version_dir dep Hne Hdig)) as H4.
  pose proof (Hcr (archive_of dep) (Dependency.package_dir dep) t3) as H4'.
  destruct (unpack_file _ _ t3) as [t4 [[]|e]]; [|done]. simpl in H4, H4'.
  destruct (Fs.remove _ t4) as [t5|e] eqn:Hrm; [|done].
  injection Hrun as <- _.
  unfold up_to_date, Fs.exists_, Fs.read_token.
  rewrite (remove_lookup_ne _ _ _ _ (archive_is_not_digest dep Hne) Hrm).
  rewrite (remove_lookup_ne _ (Dependency.package_dir dep) _ _ 
             (add_suffix_ne _ ".tar.gz" ltac:(done)) Hrm).
  rewrite H4. unfold t3. rewrite lookup_insert_eq, Htok.
  specialize (H4' eq_refl). unfold Fs.exists_ in H4'. rewrite H4'.
  rewrite bool_decide_eq_true_2 by done.
  by destruct (Dependency.md5 dep).
Qed.

End CacheMore.

(** The example archiver writes the directory it unpacks into and the
    manifest in it. *)

Lemma example_unpack_confined response served_md5 unpacks :
  unpack_confined (ext := Example.externals response served_md5 unpacks).
Proof.
  intros fn dst t p Hp. simpl. destruct unpacks; simpl.
  - rewrite !lookup_insert_ne; [done|by intros ->|].
    intros <-. apply Hp. by apply prefix_app_r.
  - rewrite lookup_insert_ne; [done|by intros ->].
Qed.

Lemma example_unpack_creates response served_md5 unpacks :
  unpack_creates (ext := Example.externals response served_md5 unpacks).
Proof.
  intros fn dst t. simpl. destruct unpacks; simpl; [|done]. intros _.
  unfold Fs.exists_. apply bool_decide_eq_true.
  destruct (decide (dst ++ ["cppan.yml"] = dst)) as [Heq|Hne].
  - rewrite Heq, lookup_insert_eq. eauto.
  - rewrite lookup_insert_ne, lookup_insert_eq by done. eauto.
Qed.

Lemma fetch_frame_witness :
  let notes := ["packages"; "org.a.b"; "NOTES"] in
  (fetch_package (decl := Example.declarations)
     (ext := Example.externals pt.empty_tree "abc" true)
     "https://cppan.org" "data" Example.org_a_b Scenario.with_notes).1.1 !! notes
  = Some (Fs.File "kept").
Proof.
  intros notes.
  set (run := fetch_package _ _ _ _).
  rewrite (fetch_package_frame (decl := Example.declarations)
             (ext := Example.externals pt.empty_tree "abc" true)
             "https://cppan.org" "data" Example.org_a_b Scenario.with_notes
             run.1.1 run.1.2 run.2 notes).
  - reflexivity.
  - apply example_download_confined.
  - apply example_unpack_confined.
  - apply triple_eta.
  - by apply (bool_decide_unpack _).
  - by apply (bool_decide_unpack _).
  - discriminate.
Defined.

Lemma fetch_idempotent_witness :
  let fetch :=
    fetch_package (decl := Example.declarations)
      (ext := Example.externals pt.empty_tree "abc" true)
      "https://cppan.org" "data" Example.org_a_b in
  let fetched := (fetch Example.empty_cache).1.1 in
  fetch fetched = (fetched, [], Done tt).
Proof.
  intros fetch fetched.
  apply (fetch_package_is_idempotent (decl := Example.declarations)
           (ext := Example.externals pt.empty_tree "abc" true)
           "https://cppan.org" "data" Example.org_a_b Example.empty_cache
           fetched (fetch Example.empty_cache).1.2).
  - apply example_download_confined.
  - apply example_unpack_confined.
  - apply example_unpack_creates.
  - discriminate.
  - discriminate.
  - discriminate.
  - reflexivity.
  - rewrite (triple_eta (fetch Example.empty_cache)). reflexivity.
Defined.

(** ** The configuration files *)

Section ConfigFiles.

Context {decl : Declarations} {ext : Externals}.

Lemma set_tree_same (s : State) : set_tree (tree s) s = s.
Proof. by destruct s. Qed.

Lemma YAML_LoadFile_reads_only (p : Fs.path) (s : State) :
  ∃ r, YAML_LoadFile p s = (s, [], r).
Proof.
  unfold YAML_LoadFile. cbv [mbind M_bind gets lift throw].
  destruct (tree s !! p) as [[content|]|]; eauto.
Qed.

Lemma load_system_config_reads_only (s : State) :
  ∃ r, load_system_config s = (s, [], r)
       ∧ (Fs.exists_ (tree s) (Fs.of_string (CONFIG_ROOT +:+ "default")) = false →
          r = Config_new).
Proof.
  unfold load_system_config, load_common_file, on_tree, zoom, fs_exists.
  cbv [mbind M_bind gets lift mret M_ret]. rewrite set_tree_same.
  destruct Config_new as [c|msg]; [|by eexists].
  destruct (Fs.exists_ (tree s) _) eqn:Hex; simpl.
  - destruct (YAML_LoadFile_reads_only (Fs.of_string (CONFIG_ROOT +:+ "default")) s)
      as [[root|msg] ->]; simpl.
    + destruct (load_common c root); by eexists.
    + by eexists.
  - by eexists.
Qed.

Lemma load_user_config_creates (s s' : State) evs (c : Config.t) (fn : Fs.path) :
  get_config_filename = Done fn →
  Fs.exists_ (tree s) fn = false →
  load_user_config s = (s', evs, Done c) →
  let content :=
    YAML_Emit [("host", Config.host c);
               ("storage_dir", Fs.to_string (Config.storage_dir c))] in
  ∃ t1,
    Fs.create_directories (Fs.parent_path fn) (tree s) = Done t1
    ∧ load_system_config (set_tree t1 s) = (set_tree t1 s, [], Done c)
    ∧ s' = set_tree (<[fn := Fs.File content]> t1) s
    ∧ evs = [ev_create_directories (Fs.parent_path fn); ev_write_file fn content]
    ∧ Fs.exists_ (tree s') fn = true.
Proof.
  intros Hfn Hex Hrun content. unfold load_user_config in Hrun.
  cbv [mbind M_bind lift] in Hrun. rewrite Hfn in Hrun.
  unfold on_tree at 1, zoom, fs_exists, gets in Hrun. rewrite Hex in Hrun.
  unfold on_tree at 1, zoom in Hrun.
  cbv [mbind M_bind tell gets modify throw id] in Hrun.
  cbn [tree set_tree] in Hrun.
  destruct (Fs.create_directories (Fs.parent_path fn) (tree s)) as [t1|msg];
    cbn [tree set_tree app] in Hrun; [|done].
  exists t1. split; [done|].
  change (set_tree t1 (set_tree (tree s) s)) with (set_tree t1 s) in Hrun.
  destruct (load_system_config_reads_only (set_tree t1 s)) as (r & Hsys & _).
 rewrite Hsys in Hrun. destruct r as [c'|msg]; [|done].
  unfold save, on_tree, zoom, write_or_throw in Hrun.
  cbv [mbind M_bind tell gets modify throw mret M_ret] in Hrun.
  cbn [tree set_tree] in Hrun.
  destruct (Fs.can_open_for_writing t1 fn); [|done].
  cbn in Hrun. injection Hrun as <- <- <-.
  split; [done|]. split; [done|]. split; [done|].
  unfold Fs.exists_. cbn [tree set_tree]. by rewrite lookup_insert_eq.
Qed.

(** X19: the first run of [load_user_config], when the user has no
    configuration file: the directory of the file is created, the
    configuration is the system's, and the file is written with its host and
    storage directory; these are the only two effects. *)
Theorem load_user_config_first_run (s s' : State) evs (c : Config.t) (fn : Fs.path) :
  get_config_filename = Done fn →
  Fs.exists_ (tree s) fn = false →
  load_user_config s = (s', evs, Done c) →
  let content :=
    YAML_Emit [("host", Config.host c);
               ("storage_dir", Fs.to_string (Config.storage_dir c))] in
  tree s' !! fn = Some (Fs.File content)
  ∧ evs = [ev_create_directories (Fs.parent_path fn); ev_write_file fn content]
  ∧ this s' = this s
  ∧ current_path s' = current_path s
  ∧ ∃ t1,
      Fs.create_directories (Fs.parent_path fn) (tree s) = Done t1
      ∧ tree s' = <[fn := Fs.File content]> t1
      ∧ load_system_config (set_tree t1 s) = (set_tree t1 s, [], Done c).
Proof.
  intros Hfn Hex Hrun content.
  destruct (load_user_config_creates _ _ _ _ _ Hfn Hex Hrun)
    as (t1 & Hdirs & Hsys & -> & -> & _).
  fold content. cbn [tree set_tree this current_path].
  split; [by rewrite lookup_insert_eq|]. repeat (split; [done|]).
  by exists t1.
Qed.

Lemma load_system_config_depends (s1 s2 : State) :
  tree s1 !! Fs.of_string (CONFIG_ROOT +:+ "default")
  = tree s2 !! Fs.of_string (CONFIG_ROOT +:+ "default") →
  (load_system_config s1).2 = (load_system_config s2).2.
Proof.
  intros Heq.
  unfold load_system_config, load_common_file, YAML_LoadFile, on_tree, zoom, fs_exists,
    Fs.exists_.
  cbv [mbind M_bind gets lift mret M_ret throw]. cbn [tree set_tree].
  destruct Config_new as [c|msg]; [|done]. rewrite Heq.
  destruct (bool_decide _); [|done]. cbn [tree set_tree].
  rewrite Heq.
  destruct (tree s2 !! _) as [[content|]|]; try done.
  destruct (YAML_Load content) as [root|]; [|done].
  cbn. by destruct (load_common c root).
Qed.

Lemma load_common_of_saved (c : Config.t) (host storage_dir : string) :
  ∃ c',
    load_common c (Map [(Scalar "host", Scalar host);
                        (Scalar "storage_dir", Scalar storage_dir)]) = Done c'
    ∧ Config.host c' = host
    ∧ Config.storage_dir c' = Fs.of_string storage_dir
    ∧ Config.packages_dir_type c' = Some User
    ∧ Config.root_project c' = Config.root_project c
    ∧ Config.check_functions c' = Config.check_functions c
    ∧ Config.check_includes c' = Config.check_includes c
    ∧ Config.check_types c' = Config.check_types c
    ∧ Config.check_libraries c' = Config.check_libraries c
    ∧ Config.check_symbols c' = Config.check_symbols c.
Proof.
  eexists. split; [reflexivity|]. cbn.
  repeat split; set_solver.
Qed.

(** X20: the configuration file written by the first run of
    [load_user_config] is read back by the next: with a YAML parser that
    reads what the emitter wrote, and a system file that is not the user's,
    the second run changes nothing, and gives a configuration with the same
    host, with the storage directory parsed from its string, with
    [packages_dir] [User], and with the root project and the checks of the
    first. *)
Theorem saved_user_config_is_read_back (s s' : State) evs (c : Config.t) (fn : Fs.path) :
  reads_back [("host", Config.host c);
              ("storage_dir", Fs.to_string (Config.storage_dir c))] →
  get_config_filename = Done fn →
  Fs.of_string (CONFIG_ROOT +:+ "default") ≠ fn →
  Fs.exists_ (tree s) fn = false →
  load_user_config s = (s', evs, Done c) →
  ∃ c',
    load_user_config s' = (s', [], Done c')
    ∧ Config.host c' = Config.host c
    ∧ Config.storage_dir c' = Fs.of_string (Fs.to_string (Config.storage_dir c))
    ∧ Config.packages_dir_type c' = Some User
    ∧ Config.root_project c' = Config.root_project c
    ∧ Config.check_functions c' = Config.check_functions c
    ∧ Config.check_includes c' = Config.check_includes c
    ∧ Config.check_types c' = Config.check_types c
    ∧ Config.check_libraries c' = Config.check_libraries c
    ∧ Config.check_symbols c' = Config.check_symbols c.
Proof.
  intros Hyaml Hfn Hsys Hex Hrun.
  destruct (load_user_config_creates _ _ _ _ _ Hfn Hex Hrun)
    as (t1 & _ & Hfirst & -> & _ & Hthere).
  destruct (load_common_of_saved c (Config.host c) (Fs.to_string (Config.storage_dir c)))
    as (c' & Hload & Hfields).
  exists c'. split; [|done].
  set (content := YAML_Emit _) in *.
  set (s' := set_tree _ s) in *.
  assert (Hsys' : load_system_config s' = (s', [], Done c)).
  { destruct (load_system_config_reads_only s') as (r & Hr & _). rewrite Hr.
    f_equal. change r with ((s', @nil event, r).2). rewrite <-Hr.
    rewrite (load_system_config_depends s' (set_tree t1 s)); [by rewrite Hfirst|].
    unfold s'. cbn [tree set_tree]. by rewrite lookup_insert_ne. }
  unfold load_user_config. cbv [mbind M_bind lift]. rewrite Hfn.
  unfold on_tree, zoom, fs_exists, gets. rewrite Hthere.
  rewrite set_tree_same, Hsys'.
  unfold load_common_file, YAML_LoadFile. cbv [mbind M_bind gets lift].
  unfold s' at 1 2. cbn [tree set_tree]. rewrite lookup_insert_eq.
  unfold content. unfold reads_back in Hyaml. rewrite Hyaml. cbn [fmap list_fmap fst snd].
  by rewrite Hload.
Qed.

Lemma set_current_path_same (s : State) : set_current_path (current_path s) s = s.
Proof. by destruct s. Qed.

(** [Config::Config(const path &p)] touches neither the [Config] at work
    nor the file system, and when it succeeds the current path is what it
    was. *)
Lemma Config_at_frame (p : Fs.path) (s s' : State) evs (r : outcome Config.t) :
  Config_at p s = (s', evs, r) →
  this s' = this s ∧ tree s' = tree s ∧ evs = [] ∧ (is_done r = true → s' = s).
Proof.
  unfold Config_at. cbv [mbind M_bind lift gets modify mret M_ret throw].
  destruct Config_new as [c|msg]; [|by intros [= <- <- <-]].
  cbn [tree set_current_path current_path this].
  destruct (Fs.is_directory (tree s) p); [|by intros [= <- <- <-]].
  destruct (YAML_LoadFile_reads_only (Fs.div p ["cppan.yml"]) (set_current_path p s))
    as [[root|msg] Hload].
  - rewrite Hload. cbn [app].
    destruct (load c p "cppan.yml" root) as [c'|msg].
    + cbn [tree set_current_path current_path this app].
      intros [= <- <- <-]. cbn. repeat split; try done. intros _. by destruct s.
    + by intros [= <- <- <-].
  - rewrite Hload. by intros [= <- <- <-].
Qed.

(** X21: [Config::Config(const path &p)] and the current path: the
    constructor leaves the [Config] at work and the file system alone and
    produces no event; when it succeeds the current path is restored; when
    it fails after it has entered the directory [p] - the manifest there
    cannot be read or loaded - the current path is left at [p]. *)
Theorem Config_at_current_path (p : Fs.path) (s s' : State) evs (r : outcome Config.t) :
  Config_at p s = (s', evs, r) →
  this s' = this s ∧ tree s' = tree s ∧ evs = []
  ∧ (is_done r = true → s' = s)
  ∧ (is_done r = false → is_done Config_new = true →
     Fs.is_directory (tree s) p = true → (∃ rest, p = "/" :: rest) →
     current_path s' = p).
Proof.
  unfold Config_at. cbv [mbind M_bind lift gets modify mret M_ret throw].
  destruct Config_new as [c|msg]; [|by intros [= <- <- <-]].
  cbn [tree set_current_path current_path this].
  destruct (Fs.is_directory (tree s) p); [|by intros [= <- <- <-]].
  destruct (YAML_LoadFile_reads_only (Fs.div p ["cppan.yml"]) (set_current_path p s))
    as [[root|msg] Hload].
  - rewrite Hload. cbn [app].
    destruct (load c p "cppan.yml" root) as [c'|msg].
    + cbn [tree set_current_path current_path this app].
      intros [= <- <- <-]. cbn. repeat split; try done. intros _. by destruct s.
    + by intros [= <- <- <-].
  - rewrite Hload. by intros [= <- <- <-].
Qed.

End ConfigFiles.

Lemma first_run_witness :
  tree Scenario.first_run.1.1 !! Scenario.user_config_file
  = Some (Fs.File ("host: https://cppan.org" +:+ Str.nl
                   +:+ "storage_dir: /home/user/.cppan/packages")).
Proof.
  destruct (load_user_config_first_run (decl := Example.declarations)
              (ext := Scenario.externals) (Scenario.state Example.empty_cache)
              Scenario.first_run.1.1 Scenario.first_run.1.2 Scenario.user_config
              Scenario.user_config_file) as (Hfile & _).
  - reflexivity.
  - reflexivity.
  - apply (with_outcome Scenario.first_run). by vm_compute.
  - rewrite Hfile. reflexivity.
Defined.

Lemma read_back_witness :
  ∃ c', load_user_config (decl := Example.declarations) (ext := Scenario.externals)
          Scenario.first_run.1.1
        = (Scenario.first_run.1.1, [], Done c')
        ∧ Config.host c' = "https://cppan.org"
        ∧ Config.storage_dir c' = ["/"; "home"; "user"; ".cppan"; "packages"].
Proof.
  destruct (saved_user_config_is_read_back (decl := Example.declarations)
              (ext := Scenario.externals) (Scenario.state Example.empty_cache)
              Scenario.first_run.1.1 Scenario.first_run.1.2 Scenario.user_config
              Scenario.user_config_file) as (c' & Hagain & Hhost & Hdir & _).
  - reflexivity.
  - reflexivity.
  - discriminate.
  - reflexivity.
  - apply (with_outcome Scenario.first_run). by vm_compute.
  - exists c'. split; [exact Hagain|]. split; [by rewrite Hhost|by rewrite Hdir].
Defined.

Lemma current_path_witness :
  let version_dir := ["/"; "packages"; "org.a.b"; "1.2.3"] in
  let s := Scenario.state {[ version_dir := Fs.Dir ]} in
  current_path
    (Config_at (decl := Example.declarations) (ext := Scenario.externals) version_dir s).1.1
  = version_dir.
Proof.
  intros version_dir s.
  set (run := Config_at _ _).
  destruct (Config_at_current_path (decl := Example.declarations)
              (ext := Scenario.externals) version_dir s run.1.1 run.1.2 run.2)
    as (_ & _ & _ & _ & Hleft).
  - apply triple_eta.
  - apply Hleft; [reflexivity|reflexivity|reflexivity|by eexists].
Defined.

(** ** The emission of a package *)

Section EmissionMore.

Context {decl : Declarations} {ext : Externals}.

(** X22: what the emission of a fetched package leaves when it
    succeeds: a direct dependency is recorded in [packages] under its name,
    with the [PackageInfo] built from it, and an indirect one in
    [indirect_dependencies]; the other map, the projects and the current
    path are as before; the build file is opened empty and then written
    with the text of the emitted calls, and nothing else is written. *)
Theorem emit_package_records (dep : Dependency.t) (version_dir : Fs.path)
    (s s' : State) evs :
  emit_package dep version_dir s = (s', evs, Done tt) →
  let name := ProjectPath.toString (Dependency.package dep) in
  let config_file := Fs.div version_dir [cmake_config_filename] in
  let opened := set_tree (<[config_file := Fs.File ""]> (tree s)) s in
  (if Dependency.flag pfDirectDependency dep then
     Config.packages (this s') = <[name := PackageInfo.make dep]> (Config.packages (this s))
     ∧ Config.indirect_dependencies (this s') = Config.indirect_dependencies (this s)
   else
     Config.packages (this s') = Config.packages (this s)
     ∧ Config.indirect_dependencies (this s')
       = <[name := dep]> (Config.indirect_dependencies (this s)))
  ∧ Config.projects (this s') = Config.projects (this s)
  ∧ current_path s' = current_path s
  ∧ ∃ c ops parent,
      Config_at (Dependency.package_dir dep) opened = (opened, [], Done c)
      ∧ print_package_config_file c dep (this s) = Done (ops, parent, PackageInfo.make dep)
      ∧ tree s' = <[config_file := Fs.File (getText ops)]> (tree s)
      ∧ evs = [ev_write_file config_file ""; ev_write_file config_file (getText ops)].
Proof.
  intros Hrun name config_file opened. unfold emit_package in Hrun.
  fold config_file in Hrun.
  unfold on_tree, zoom, write_or_throw in Hrun.
  cbv [mbind M_bind gets tell modify throw] in Hrun.
  destruct (Fs.can_open_for_writing (tree s) config_file); [|done].
  cbn [app] in Hrun. fold opened in Hrun.
  destruct (Config_at (Dependency.package_dir dep) opened) as [[s1 evs1] r1] eqn:Hat.
  destruct (Config_at_frame _ _ _ _ _ Hat) as (_ & _ & -> & Hs1).
  destruct r1 as [c|msg]; [|done]. rewrite (Hs1 eq_refl) in *. clear Hs1.
  cbv [lift] in Hrun. cbn [this opened set_tree] in Hrun.
  destruct (print_package_config_file c dep (this s)) as [[[ops parent] pi]|msg] eqn:Hprint;
    [|done].
  assert (Hpi : pi = PackageInfo.make dep ∧ ∃ p, parent = gather c p (this s)).
  { unfold print_package_config_file in Hprint.
    destruct (select_project c dep) as [p|]; [|discriminate Hprint].
    unfold obind in Hprint. split; [congruence|]. exists p. congruence. }
  destruct Hpi as [-> [p ->]].
  cbn [app set_this this tree opened set_tree current_path] in Hrun.
  destruct (Dependency.flag pfDirectDependency dep);
    cbn [app set_this this tree opened set_tree current_path] in Hrun;
    injection Hrun as <- <-; cbn [this tree current_path];
    (split; [done|]); (split; [done|]); (split; [done|]);
    exists c, ops, (gather c p (this s));
    (split; [done|]); (split; [done|]); (split; [|done]);
    unfold opened; cbn [tree set_tree]; by rewrite insert_insert_eq.
Qed.

(** X23: the build file of a package is opened before the manifest of
    the package is loaded: when the manifest cannot be loaded, the emission
    fails with the loader's error, an empty build file is left behind, and
    the [Config] at work is unchanged. *)
Theorem emit_package_failure_leaves_empty_file (dep : Dependency.t)
    (version_dir : Fs.path) (s s1 : State) evs1 (msg : string) :
  let config_file := Fs.div version_dir [cmake_config_filename] in
  let opened := set_tree (<[config_file := Fs.File ""]> (tree s)) s in
  Fs.can_open_for_writing (tree s) config_file = true →
  Config_at (Dependency.package_dir dep) opened = (s1, evs1, Throw msg) →
  emit_package dep version_dir s = (s1, [ev_write_file config_file ""], Throw msg)
  ∧ tree s1 !! config_file = Some (Fs.File "")
  ∧ this s1 = this s.
Proof.
  intros config_file opened Hopen Hat. unfold emit_package. fold config_file.
  unfold on_tree, zoom, write_or_throw.
  cbv [mbind M_bind gets tell modify throw]. rewrite Hopen. cbn [app].
  fold opened. rewrite Hat.
  destruct (Config_at_frame _ _ _ _ _ Hat) as (Hthis & Htree & -> & _).
  split; [done|]. rewrite Htree, Hthis. split; [|done].
  unfold opened. cbn [tree set_tree]. by rewrite lookup_insert_eq.
Qed.

End EmissionMore.

Lemma emit_package_witness :
  let version_dir := Dependency.package_dir Example.org_a_b in
  let run :=
    emit_package (decl := Example.declarations) (ext := Scenario.externals)
      Example.org_a_b version_dir (Scenario.state Scenario.unpacked) in
  Config.indirect_dependencies (this run.1.1)
  = <[ "org.a.b" := Example.org_a_b ]> ∅.
Proof.
  intros version_dir run.
  destruct (emit_package_records (decl := Example.declarations)
              (ext := Scenario.externals) Example.org_a_b version_dir
              (Scenario.state Scenario.unpacked) run.1.1 run.1.2)
    as ([_ Hrecorded] & _).
  - apply with_outcome. by vm_compute.
  - exact Hrecorded.
Defined.

Lemma emit_package_failure_witness :
  let version_dir := Dependency.package_dir Example.org_a_b in
  let run :=
    emit_package (decl := Example.declarations) (ext := Scenario.externals)
      Example.org_a_b version_dir (Scenario.state (Example.cached "abc")) in
  run.2 = Throw "bad file"
  ∧ tree run.1.1 !! (version_dir ++ ["CMakeLists.txt"]) = Some (Fs.File "").
Proof.
  intros version_dir run.
  set (opened :=
         set_tree (<[version_dir ++ ["CMakeLists.txt"] := Fs.File ""]> (Example.cached "abc"))
           (Scenario.state (Example.cached "abc"))).
  set (loaded := Config_at (decl := Example.declarations) (ext := Scenario.externals)
                   version_dir opened).
  destruct (emit_package_failure_leaves_empty_file (decl := Example.declarations)
              (ext := Scenario.externals) Example.org_a_b version_dir
              (Scenario.state (Example.cached "abc"))
              loaded.1.1 loaded.1.2 "bad file")
    as (Hrun & Hfile & _).
  - reflexivity.
  - apply (with_outcome loaded). by vm_compute.
  - unfold run. rewrite Hrun. split; [reflexivity|exact Hfile].
Defined.

(** ** One package of the response: fetched, then emitted *)

Section PackageStep.

Context {decl : Declarations} {ext : Externals}.

(** The emission writes the build file and no other: it is opened, and
    when the manifest of the package loads and is emitted, written. *)
Lemma emit_package_writes (dep : Dependency.t) (version_dir : Fs.path)
    (s s' : State) evs r :
  emit_package dep version_dir s = (s', evs, r) →
  let config_file := Fs.div version_dir [cmake_config_filename] in
  (∀ p, p ≠ config_file → tree s' !! p = tree s !! p)
  ∧ (∀ e, e ∈ evs → ∃ content, e = ev_write_file config_file content)
  ∧ (r = Done tt →
     ∃ content, evs = [ev_write_file config_file ""; ev_write_file config_file content]
                ∧ tree s' !! config_file = Some (Fs.File content)).
Proof.
  intros Hrun config_file. unfold emit_package in Hrun. fold config_file in Hrun.
  unfold on_tree, zoom, write_or_throw in Hrun.
  cbv [mbind M_bind gets tell modify throw] in Hrun.
  destruct (Fs.can_open_for_writing (tree s) config_file).
  2:{ injection Hrun as <- <- <-. split; [by destruct s|]. split; [|done].
      intros e He. by apply elem_of_nil in He. }
  cbn [app] in Hrun.
  set (opened := set_tree (<[config_file := Fs.File ""]> (tree s)) s) in Hrun.
  destruct (Config_at (Dependency.package_dir dep) opened) as [[s1 evs1] r1] eqn:Hat.
  destruct (Config_at_frame _ _ _ _ _ Hat) as (_ & Htree1 & -> & Hs1).
  destruct r1 as [c|msg].
  2:{ injection Hrun as <- <- <-. rewrite Htree1. unfold opened. cbn [tree set_tree].
      split; [intros p Hp; by rewrite lookup_insert_ne|]. split; [|done].
      intros e He. apply list_elem_of_singleton in He. by exists "". }
  rewrite (Hs1 eq_refl) in *. clear Hs1 Htree1.
  cbv [lift] in Hrun. cbn [this opened set_tree] in Hrun.
  destruct (print_package_config_file c dep (this s)) as [[[ops parent] pi]|msg].
  2:{ injection Hrun as <- <- <-. unfold opened. cbn [tree set_tree].
      split; [intros p Hp; by rewrite lookup_insert_ne|]. split; [|done].
      intros e He. apply list_elem_of_singleton in He. by exists "". }
  cbn [app set_this this tree opened set_tree current_path] in Hrun.
  destruct (Dependency.flag pfDirectDependency dep);
    cbn [app set_this this tree opened set_tree current_path] in Hrun;
    injection Hrun as <- <- <-; unfold opened; cbn [this tree set_tree set_this current_path];
    (split; [intros p Hp; by rewrite !lookup_insert_ne|]);
    (split; [intros e [->| ->%list_elem_of_singleton]%elem_of_cons; by eexists|]);
    intros _; exists (getText ops); (split; [done|]); by rewrite lookup_insert_eq.
Qed.

Lemma archive_is_not_build_file (vd : Fs.path) :
  Fs.add_suffix vd ".tar.gz" ≠ Fs.div vd [cmake_config_filename].
Proof.
  unfold Fs.div. cbn [Fs.strip_root cmake_config_filename].
  destruct vd as [|x vd]; [done|].
  intros Heq. apply (f_equal length) in Heq.
  rewrite add_suffix_length, length_app in Heq by done. simpl in Heq. lia.
Qed.

(** C2, as the code has it, for the body of the loop of
    [download_dependencies] over the packages, from where the package is
    read and its directory located: when the first token of the sibling
    [archive.md5] file is the registry's md5, that md5 is not empty and the
    version directory exists, nothing is downloaded, unpacked or removed; the
    only file written is the build file [CMakeLists.txt] in the version
    directory, which is opened anew and, when the step succeeds, holds the
    emitted text; every other path is as it was.  Otherwise any existing
    version directory is removed and the archive is downloaded, and when
    the step succeeds the digest was verified, [archive.md5] was rewritten,
    the archive was unpacked into the version directory and then deleted,
    and the build file was written. *)
Theorem package_reuse_or_materialize url data_url remote_packages
    (v : string * pt.ptree) (s s1 s' : State) (dep0 : Dependency.t) (dir : Fs.path)
    evs1 evs r :
  let dep :=
    Dependency.set_package_dir
      (Fs.div dir (Fs.of_string (Version_toString (Dependency.version dep0)))) dep0 in
  let vd := Dependency.package_dir dep in
  let fn := archive_of dep in
  let md5file := md5file_of dep in
  let purl := package_url_of url data_url dep in
  let build_file := Fs.div vd [cmake_config_filename] in
  let current :=
    Fs.read_token (tree s1) md5file = Dependency.md5 dep ∧ Dependency.md5 dep ≠ ""
    ∧ Fs.exists_ (tree s1) vd = true in
  read_dependency remote_packages v = Done dep0 →
  locate dep0 s = (s1, evs1, Done dir) →
  process_package url data_url remote_packages v s = (s', evs, r) →
  ∃ evs2,
    evs = evs1 ++ evs2
    ∧ (current →
       (∀ e, e ∈ evs2 → ∃ content, e = ev_write_file build_file content)
       ∧ (∀ p, p ≠ build_file → tree s' !! p = tree s1 !! p)
       ∧ (r = Done tt →
          ∃ content,
            evs2 = [ev_write_file build_file ""; ev_write_file build_file content]
            ∧ tree s' !! build_file = Some (Fs.File content)))
    ∧ (¬ current →
       ∃ line dl rest,
         evs2 = (if Fs.exists_ (tree s1) vd then [ev_remove_all vd] else [])
                ++ ev_log line :: ev_download_file purl fn dl :: rest
         ∧ (r = Done tt →
            ∃ line' content,
              dl = Done (Dependency.md5 dep)
              ∧ rest = [ev_write_file md5file (Dependency.md5 dep); ev_log line';
                        ev_unpack_file fn vd true; ev_remove fn;
                        ev_write_file build_file "";
                        ev_write_file build_file content]
              ∧ tree s' !! fn = None
              ∧ tree s' !! build_file = Some (Fs.File content))).
Proof.
  intros dep vd fn md5file purl build_file current Hread Hlocate Hrun.
  unfold process_package in Hrun. cbv [mbind M_bind lift] in Hrun.
  rewrite Hread, Hlocate in Hrun. cbn [app] in Hrun.
  fold dep in Hrun. change (Fs.div dir _) with vd in Hrun.
  unfold on_tree, zoom in Hrun.
  destruct (fetch_package url data_url dep (tree s1)) as [[t1 evsF] rF] eqn:Hfetch.
  destruct (fetch_package_cases _ _ _ _ _ _ _ Hfetch) as [Hreuse Hmaterialize].
  fold vd fn md5file purl current in Hreuse, Hmaterialize.
  destruct rF as [[]|msg].
  - destruct (emit_package dep vd (set_tree t1 s1)) as [[s2 evsE] rE] eqn:Hemit.
    injection Hrun as <- <- <-.
    destruct (emit_package_writes _ _ _ _ _ _ Hemit) as (Hframe & Hwrites & Hdone).
    fold build_file in Hframe, Hwrites, Hdone. cbn [tree set_tree] in Hframe.
    exists (evsF ++ evsE). split; [done|]. split.
    + intros Hcur. by destruct (Hreuse Hcur) as (-> & -> & _).
    + intros Hcur. destruct (Hmaterialize Hcur) as (line & dl & rest & -> & Hrest).
      destruct (Hrest eq_refl) as (line' & -> & -> & Hgone).
      exists line, (Done (Dependency.md5 dep)),
        ([ev_write_file md5file (Dependency.md5 dep); ev_log line';
          ev_unpack_file fn vd true; ev_remove fn] ++ evsE).
      split; [by rewrite <-(assoc_L (++))|].
      intros ->. destruct (Hdone eq_refl) as (content & -> & Hfile).
      exists line', content. split; [done|]. split; [done|]. split; [|done].
      rewrite Hframe; [done|]. apply archive_is_not_build_file.
  - injection Hrun as <- <- <-. exists evsF. split; [done|]. split.
    + intros Hcur. by destruct (Hreuse Hcur) as (_ & _ & ?).
    + intros Hcur. destruct (Hmaterialize Hcur) as (line & dl & rest & -> & _).
      exists line, dl, rest. by split.
Qed.

End PackageStep.

(** C2 as stated fails three ways.  An empty md5 that equals the (empty)
    content of [archive.md5] is fetched again although the version directory
    exists.  A stored digest followed by a newline differs from the md5 as a
    content, yet the entry is reused.  And an entry that is reused does not
    keep the contents of its version directory: the build file
    [CMakeLists.txt], which was not there, is written into it. *)
Lemma reuse_as_stated_fails :
  let fetch :=
    fetch_package (decl := Example.declarations)
      (ext := Example.externals pt.empty_tree "" true) "https://cppan.org" "data" in
  let dep := Dependency.set_md5 "" Example.org_a_b in
  let t := Example.cached "" in
  let t' := Example.cached ("abc" +:+ Str.nl) in
  let entry :=
    ("org.a.b", pt.Tree "" [Example.leaf "version" "1.2.3"; Example.leaf "flags" "0";
                           Example.leaf "md5" "abc"]) in
  let run :=
    process_package (decl := Example.declarations) (ext := Scenario.externals)
      "https://cppan.org" "data" [entry] entry (Scenario.state Scenario.unpacked) in
  let build_file := ["packages"; "org.a.b"; "1.2.3"; "CMakeLists.txt"] in
  (t !! md5file_of dep = Some (Fs.File (Dependency.md5 dep))
   ∧ Fs.exists_ t (Dependency.package_dir dep) = true
   ∧ (fetch dep t).1.2 ≠ [])
  ∧ (t' !! md5file_of Example.org_a_b ≠ Some (Fs.File (Dependency.md5 Example.org_a_b))
     ∧ (fetch Example.org_a_b t').1.2 = [])
  ∧ (Scenario.unpacked !! ["packages"; "org.a.b"; "archive.md5"] = Some (Fs.File "abc")
     ∧ Fs.exists_ Scenario.unpacked ["packages"; "org.a.b"; "1.2.3"] = true
     ∧ run.2 = Done tt
     ∧ Scenario.unpacked !! build_file = None
     ∧ tree run.1.1 !! build_file = Some (Fs.File "")).
Proof.
  cbv zeta. repeat split; by vm_compute.
Qed.

Lemma reuse_witness :
  let entry :=
    ("org.a.b", pt.Tree "" [Example.leaf "version" "1.2.3"; Example.leaf "flags" "0";
                           Example.leaf "md5" "abc"]) in
  let run :=
    process_package (decl := Example.declarations) (ext := Scenario.externals)
      "https://cppan.org" "data" [entry] entry (Scenario.state Scenario.unpacked) in
  tree run.1.1 !! ["packages"; "org.a.b"; "1.2.3"; "cppan.yml"] = Some (Fs.File "")
  ∧ tree run.1.1 !! ["packages"; "org.a.b"; "archive.md5"] = Some (Fs.File "abc").
Proof.
  intros entry run.
  set (dep0 := Dependency.set_md5 "abc"
                 (Dependency.set_version (Version.mk 1 2 3 "")
                    (Dependency.set_package ["org"; "a"; "b"] Dependency.default))).
  set (located := locate (decl := Example.declarations) (ext := Scenario.externals)
                    dep0 (Scenario.state Scenario.unpacked)).
  destruct (package_reuse_or_materialize (decl := Example.declarations)
              (ext := Scenario.externals) "https://cppan.org" "data" [entry] entry
              (Scenario.state Scenario.unpacked) located.1.1 run.1.1
              dep0 ["packages"; "org.a.b"] located.1.2 run.1.2 run.2)
    as (evs2 & _ & Hreuse & _).
  - by vm_compute.
  - apply (with_outcome located). by vm_compute.
  - apply triple_eta.
  - destruct Hreuse as (_ & Hframe & _).
    + split; [by vm_compute|]. split; [discriminate|by vm_compute].
    + split; (rewrite Hframe; [by vm_compute|discriminate]).
Defined.

Section EmitterMore.

Context {decl : Declarations}.

Lemma gather_global_options (this : Config.t) (p : Project.t) (parent : Config.t) :
  ∀ k o, Config.global_options parent !! k = Some o →
    ∃ o', Config.global_options (gather this p parent) !! k = Some o'
          ∧ Options.global_definitions o ⊆ Options.global_definitions o'.
Proof.
  unfold gather. cbn [Config.global_options Config.set_global_options Config.set_checks].
  generalize (Config.global_options parent) as g.
  induction (map_items (Project.options p)) as [|ol l IH]; intros g k o Hk; simpl.
  - by exists o.
  - destruct (negb (bool_decide (Options.global_definitions ol.2 = ∅))); [|by apply IH].
    destruct (decide (ol.1 = k)) as [<-|Hne].
    + match goal with
      | |- context [fold_left _ l (<[ol.1 := ?x]> g)] =>
          destruct (IH (<[ol.1 := x]> g) ol.1 x (lookup_insert_eq _ _ _))
            as (o' & Ho' & Hsub)
      end.
      exists o'. split; [done|]. rewrite Hk in Hsub. cbn in Hsub. set_solver.
    + apply IH. by rewrite lookup_insert_ne.
Qed.

(** X24: what [print_package_config_file] does with [parent]: the
    four check sets of the package are added to those of [parent]; a symbol
    [parent] already checks keeps its headers; a level of global options
    [parent] has keeps its global definitions; the projects, the packages
    and the indirect dependencies of [parent] are untouched; and the emitted
    calls and the [PackageInfo] do not depend on [parent]. *)
Theorem emission_only_adds_to_parent (this : Config.t) (d : Dependency.t)
    (parent : Config.t) ops parent' pi :
  print_package_config_file this d parent = Done (ops, parent', pi) →
  Config.check_functions parent' = Config.check_functions parent ∪ Config.check_functions this
  ∧ Config.check_includes parent' = Config.check_includes parent ∪ Config.check_includes this
  ∧ Config.check_types parent' = Config.check_types parent ∪ Config.check_types this
  ∧ Config.check_libraries parent' = Config.check_libraries parent ∪ Config.check_libraries this
  ∧ (∀ f hs, Config.check_symbols parent !! f = Some hs →
             Config.check_symbols parent' !! f = Some hs)
  ∧ (∀ k o, Config.global_options parent !! k = Some o →
       ∃ o', Config.global_options parent' !! k = Some o'
             ∧ Options.global_definitions o ⊆ Options.global_definitions o')
  ∧ Config.projects parent' = Config.projects parent
  ∧ Config.packages parent' = Config.packages parent
  ∧ Config.indirect_dependencies parent' = Config.indirect_dependencies parent
  ∧ ∀ other, ∃ other',
      print_package_config_file this d other = Done (ops, other', pi).
Proof.
  unfold print_package_config_file. intros Hrun.
  destruct (select_project this d) as [p|msg]; [|discriminate Hrun].
  unfold obind in Hrun |- *.
  match type of Hrun with
  | Done (?X, _, ?Z) = _ =>
      assert (Hops : ops = X) by congruence;
      assert (Hpi : pi = Z) by congruence
  end.
  assert (Hparent : parent' = gather this p parent) by congruence.
  clear Hrun. subst parent'.
  repeat split; try done.
  - intros f hs Hf. unfold gather.
    cbn [Config.check_symbols Config.set_global_options Config.set_checks].
    by apply lookup_union_Some_l.
  - apply gather_global_options.
  - intros other. exists (gather this p other). by rewrite Hops, Hpi.
Qed.

(** How the statements of a chain of calls are those of its parts. *)
Lemma feed_lines (l : list op) (L : list string) (cur : string) :
  fold_left feed l (L, cur)
  = (L ++ (fold_left feed l ([], cur)).1, (fold_left feed l ([], cur)).2).
Proof.
  revert L cur. induction l as [|o l IH]; intros L cur.
  - by rewrite app_nil_r.
  - cbn [fold_left]. destruct o; cbn [feed fst snd app]; try apply IH.
    + rewrite IH, (IH [s]). cbn [fst snd]. by rewrite (assoc_L (++)).
    + rewrite IH, (IH [cur]). cbn [fst snd]. by rewrite (assoc_L (++)).
Qed.

Lemma statements_app (l1 l2 : list op) :
  (fold_left feed l1 ([], "")).2 = "" →
  statements (l1 ++ l2) = statements l1 ++ statements l2
  ∧ (fold_left feed (l1 ++ l2) ([], "")).2 = (fold_left feed l2 ([], "")).2.
Proof.
  intros Hclosed. unfold statements. rewrite fold_left_app.
  rewrite (surjective_pairing (fold_left feed l1 _)), Hclosed.
  by rewrite feed_lines.
Qed.

Lemma all_statements_app P (l1 l2 : list op) :
  all_statements P l1 → all_statements P l2 → all_statements P (l1 ++ l2).
Proof.
  intros [C1 F1] [C2 F2]. destruct (statements_app l1 l2 C1) as [Hs Hc].
  split; [by rewrite Hc|]. rewrite Hs. by apply Forall_app.
Qed.

Lemma all_statements_concat {A} P (f : A → list op) (xs : list A) :
  (∀ x, all_statements P (f x)) → all_statements P (concat (f <$> xs)).
Proof.
  intros Hf. induction xs as [|x xs IH]; [by split|].
  cbn [fmap list_fmap concat]. by apply all_statements_app.
Qed.

Lemma all_statements_lines {A} (P : string → Prop) (f : A → string) (xs : list A) :
  (∀ x, P (f x)) → all_statements P ((λ x, addLine (f x)) <$> xs).
Proof.
  intros Hf. induction xs as [|x xs IH]; [by split|].
  change ((λ x, addLine (f x)) <$> x :: xs)
    with ([addLine (f x)] ++ ((λ x, addLine (f x)) <$> xs)).
  apply all_statements_app; [|done]. split; [done|]. by repeat constructor.
Qed.

Lemma all_statements_elem P (l : list op) (s : string) :
  all_statements P l → s ∈ statements l → P s.
Proof. intros [_ Hall] Hs. by apply (proj1 (Forall_forall _ _) Hall). Qed.

(** X25: the keywords of a package file follow [header_only].  For a
    header-only package no statement of the target section and none of the
    definitions of the option levels starts with [PUBLIC] or [PRIVATE]; for
    a package that is not header-only no statement of the target section
    starts with [INTERFACE].  The statements are the lines given to
    [addLine] and those streamed up to [Context::eol]. *)
Theorem target_keywords_follow_header_only (p : Project.t) (d : Dependency.t)
    (pi : PackageInfo.t) :
  (∀ s, s ∈ statements (print_target p d pi true) →
        String.prefix "PUBLIC " s = false ∧ String.prefix "PRIVATE " s = false)
  ∧ (∀ s, s ∈ statements (print_definitions p pi true) →
          String.prefix "PUBLIC " s = false ∧ String.prefix "PRIVATE " s = false)
  ∧ (∀ s, s ∈ statements (print_target p d pi false) →
          String.prefix "INTERFACE " s = false).
Proof.
  split; [|split]; intros s.
  - apply (all_statements_elem
             (λ s, String.prefix "PUBLIC " s = false ∧ String.prefix "PRIVATE " s = false)).
    unfold print_target. cbv zeta. cbn [negb].
    by_sections all_statements_app @all_statements_concat @all_statements_lines.
  - apply (all_statements_elem
             (λ s, String.prefix "PUBLIC " s = false ∧ String.prefix "PRIVATE " s = false)).
    unfold print_definitions, print_options. cbv zeta.
    by_sections all_statements_app @all_statements_concat @all_statements_lines.
  - apply (all_statements_elem (λ s, String.prefix "INTERFACE " s = false)).
    unfold print_target. cbv zeta. cbn [negb].
    by_sections all_statements_app @all_statements_concat @all_statements_lines.
Qed.

End EmitterMore.

Lemma emission_witness :
  let this := Example.config [] [Example.project ∅] in
  ∃ ops parent' pi,
    print_package_config_file (decl := Example.declarations) this Example.org_a_b
      (Example.config [] []) = Done (ops, parent', pi)
    ∧ Config.packages parent' = ∅.
Proof.
  intros this.
  destruct (print_package_config_file (decl := Example.declarations) this Example.org_a_b
              (Example.config [] [])) as [[[ops parent'] pi]|msg] eqn:Hrun;
    [|by vm_compute in Hrun].
  exists ops, parent', pi. split; [reflexivity|].
  by destruct (emission_only_adds_to_parent _ _ _ _ _ _ Hrun)
    as (_ & _ & _ & _ & _ & _ & _ & -> & _).
Defined.

(** ** The build files of the project itself *)

Lemma all_chars_app P (a b : string) :
  all_chars P (a +:+ b) = all_chars P a && all_chars P b.
Proof.
  induction a as [|c a IH]; [done|].
  rewrite append_cons. simpl. by rewrite IH, andb_assoc.
Qed.

Lemma upper_char_not_lower (c : ascii) :
  let n := N_of_ascii (Str.upper_char c) in ((97 <=? n) && (n <=? 122))%N = false.
Proof.
  cbv zeta. unfold Str.upper_char.
  destruct ((97 <=? N_of_ascii c) && (N_of_ascii c <=? 122))%N eqn:Hc.
  - apply andb_true_iff in Hc as [H1 H2]. apply N.leb_le in H1, H2.
    rewrite N_ascii_embedding by lia.
    apply andb_false_iff. left. apply N.leb_gt. lia.
  - done.
Qed.

Lemma map_chars_app f (a b : string) :
  map_chars f (a +:+ b) = map_chars f a +:+ map_chars f b.
Proof.
  induction a as [|c a IH]; [done|].
  rewrite append_cons. simpl. by rewrite IH.
Qed.

Lemma all_chars_map_upper P f (s : string) :
  (∀ c, P (f (Str.upper_char c)) = true) →
  all_chars P (map_chars f (Str.to_upper s)) = true.
Proof. intros Hf. induction s as [|c s IH]; [done|]. simpl. by rewrite Hf, IH. Qed.

Lemma sanitized_upper_char (c : ascii) :
  let c' := Str.upper_char c in
  is_identifier_char (if negb (isalnum c') then "_"%char else c') = true
  ∧ is_identifier_char
      (if decide (c' = "*"%char) then "P"%char
       else if negb (isalnum c') then "_"%char else c') = true.
Proof.
  cbv zeta. pose proof (upper_char_not_lower c) as Hlow. cbv zeta in Hlow.
  assert (Hid : isalnum (Str.upper_char c) = true →
                is_identifier_char (Str.upper_char c) = true).
  { unfold isalnum, is_identifier_char. rewrite Hlow, orb_false_r. intros ->. done. }
  split.
  - destruct (isalnum (Str.upper_char c)) eqn:Ha; [by apply Hid|done].
  - destruct (decide _); [done|].
    destruct (isalnum (Str.upper_char c)) eqn:Ha; [by apply Hid|done].
Qed.

Lemma length_map_chars f (s : string) : String.length (map_chars f s) = String.length s.
Proof. induction s as [|c s IH]; [done|]. simpl. by rewrite IH. Qed.

Lemma length_to_upper (s : string) : String.length (Str.to_upper s) = String.length s.
Proof. induction s as [|c s IH]; [done|]. simpl. by rewrite IH. Qed.

(** X26: the variable that [convert_include] or [convert_type] makes
    of a name consists of digits, capitals and underscores only, whatever
    the name, and is five characters longer than the name. *)
Theorem check_variables_are_identifiers (s : string) :
  all_chars is_identifier_char (convert_include s) = true
  ∧ all_chars is_identifier_char (convert_type s "HAVE_") = true
  ∧ all_chars is_identifier_char (convert_type s "SIZE_OF_") = true
  ∧ all_chars is_identifier_char (convert_type s "SIZEOF_") = true
  ∧ String.length (convert_include s) = (5 + String.length s)%nat
  ∧ String.length (convert_type s "HAVE_") = (5 + String.length s)%nat.
Proof.
  unfold convert_include, convert_type.
  rewrite !map_chars_app, !all_chars_app, !string_length_app, !length_map_chars,
    !length_to_upper.
  repeat split; try done;
    (apply andb_true_iff; split; [done|]);
    apply all_chars_map_upper; intros c; apply sanitized_upper_char.
Qed.

Lemma infix_inside {A} (l rest mid : list A) :
  (∃ b a, l = b ++ mid ++ a) → ∃ b a, l ++ rest = b ++ mid ++ a.
Proof. intros (b & a & ->). exists b, (a ++ rest). by rewrite <-!(assoc_L (++)). Qed.

Lemma infix_concat {A B} (f : A → list B) (xs : list A) (x : A) :
  x ∈ xs → ∃ b a, concat (f <$> xs) = b ++ f x ++ a.
Proof.
  intros (l1 & l2 & ->)%list_elem_of_split.
  exists (concat (f <$> l1)), (concat (f <$> l2)).
  by rewrite fmap_app, concat_app.
Qed.

Lemma infix_fmap {A B} (f : A → B) (xs : list A) (x : A) :
  x ∈ xs → ∃ b a, f <$> xs = b ++ [f x] ++ a.
Proof.
  intros (l1 & l2 & ->)%list_elem_of_split.
  exists (f <$> l1), (f <$> l2). by rewrite fmap_app.
Qed.

(** [x] is in the part [l], and [y] in what follows it. *)
Lemma followed_by_split {A} (l rest x y : list A) :
  (∃ b a, l = b ++ x ++ a) → (∃ b a, rest = b ++ y ++ a) →
  ∃ before between after, l ++ rest = before ++ x ++ between ++ y ++ after.
Proof.
  intros (b1 & a1 & ->) (b2 & a2 & ->).
  exists b1, (a1 ++ b2), a2. by rewrite <-!(assoc_L (++)).
Qed.

Lemma followed_by_later {A} (h l x y : list A) :
  (∃ before between after, l = before ++ x ++ between ++ y ++ after) →
  ∃ before between after, h ++ l = before ++ x ++ between ++ y ++ after.
Proof.
  intros (b & m & a & ->). exists (h ++ b), m, a. by rewrite <-!(assoc_L (++)).
Qed.

Lemma add_checks_infix (a : gset string) (s : string) (f : string → string) (v : string) :
  v ∈ a →
  ∃ before after,
    add_checks a s f
    = before
      ++ [addLine (s +:+ "(" +:+ Str.quote +:+ v +:+ Str.quote +:+ " " +:+ f v +:+ ")")]
      ++ after.
Proof.
  intros Hv. unfold add_checks. apply infix_inside.
  apply (infix_fmap (λ v, addLine (s +:+ "(" +:+ Str.quote +:+ v +:+ Str.quote +:+ " "
                                    +:+ f v +:+ ")"))).
  by apply elem_of_set_items.
Qed.

Lemma add_symbol_checks_infix (a : gmap string (gset string)) (s : string)
    (f : string → string) (v : string) (hs : gset string) :
  a !! v = Some hs →
  ∃ before after, add_symbol_checks a s f = before ++ symbol_check s f (v, hs) ++ after.
Proof.
  intros Hv. unfold add_symbol_checks. apply infix_inside.
  apply (infix_concat (symbol_check s f)). by apply elem_of_map_items.
Qed.

Lemma add_check_definitions_infix (a : gset string) (f : string → string) (v : string) :
  v ∈ a →
  ∃ before after, add_check_definitions a f = before ++ add_if_definition (f v) [] ++ after.
Proof.
  intros Hv. unfold add_check_definitions.
  apply (infix_concat (λ v, add_if_definition (f v) [])). by apply elem_of_set_items.
Qed.

Lemma add_check_symbol_definitions_infix (a : gmap string (gset string))
    (f : string → string) (v : string) (hs : gset string) :
  a !! v = Some hs →
  ∃ before after,
    add_check_symbol_definitions a f = before ++ add_if_definition (f v) [] ++ after.
Proof.
  intros Hv. unfold add_check_symbol_definitions.
  apply (infix_concat (λ v : string * gset string, add_if_definition (f v.1) []) _ (v, hs)).
  by apply elem_of_map_items.
Qed.

(** X27: in the helper file every check is followed, further on, by
    the definition of the variable it sets: for a function, a symbol with
    its headers, an include file and a type, the file holds the check and
    after it the whole block [add_if_definition] writes for the variable,
    whose statements are [if (V)], the [target_compile_definitions] of
    [cppan-helpers] with [INTERFACE V], and [endif()]. *)
Theorem every_check_has_its_definition (this : Config.t) :
  (∀ v, v ∈ Config.check_functions this →
     followed_by (helper_file this)
       [addLine ("check_function_exists(" +:+ Str.quote +:+ v +:+ Str.quote +:+ " "
                 +:+ convert_function v +:+ ")")]
       (add_if_definition (convert_function v) []))
  ∧ (∀ v hs, Config.check_symbols this !! v = Some hs →
     followed_by (helper_file this)
       (symbol_check "check_cxx_symbol_exists" convert_function (v, hs))
       (add_if_definition (convert_function v) []))
  ∧ (∀ v, v ∈ Config.check_includes this →
     followed_by (helper_file this)
       [addLine ("check_include_files(" +:+ Str.quote +:+ v +:+ Str.quote +:+ " "
                 +:+ convert_include v +:+ ")")]
       (add_if_definition (convert_include v) []))
  ∧ (∀ v, v ∈ Config.check_types this →
     followed_by (helper_file this)
       [addLine ("check_type_size(" +:+ Str.quote +:+ v +:+ Str.quote +:+ " "
                 +:+ convert_type v "HAVE_" +:+ ")")]
       (add_if_definition (convert_type v "HAVE_") []))
  ∧ (∀ V, statements (add_if_definition V [])
          = ["if (" +:+ V +:+ ")"; "target_compile_definitions(cppan-helpers";
             "INTERFACE " +:+ V; ")"; "endif()"; ""]).
Proof.
  unfold followed_by, helper_file.
  split; [|split; [|split; [|split]]]; [intros v Hv|intros v hs Hv|intros v Hv..|done];
    repeat first
      [ apply followed_by_split;
        [ solve [ apply (add_checks_infix _ "check_function_exists"); assumption
                | apply (add_checks_infix _ "check_include_files"); assumption
                | apply (add_checks_infix _ "check_type_size"
                           (λ v, convert_type v "HAVE_")); assumption
                | eapply add_symbol_checks_infix; eassumption ]
        | repeat first
            [ apply infix_inside;
              solve [ apply (add_check_definitions_infix _ convert_function); assumption
                    | apply (add_check_definitions_infix _ convert_include); assumption
                    | apply (add_check_definitions_infix _ (λ v, convert_type v "HAVE_"));
                      assumption
                    | eapply add_check_symbol_definitions_infix; eassumption ]
            | apply infix_later ] ]
      | apply followed_by_later ].
Qed.


Section BuildFileProperties.

Context {decl : Declarations} {ext : Externals}.
Variable sha1 : string → string.


Lemma elem_of_prefixes (q p : Fs.path) : q ∈ Fs.prefixes p ↔ q `prefix_of` p.
Proof.
  revert q. induction p as [|x p IH]; intros q; simpl.
  - rewrite list_elem_of_singleton. split; [intros ->; done|].
    intros Hq. by apply prefix_nil_inv in Hq.
  - rewrite elem_of_cons, list_elem_of_fmap. split.
    + intros [->|(q' & -> & Hq')]; [apply prefix_nil|].
      apply prefix_cons. by apply IH.
    + destruct q as [|y q]; [by left|]. intros Hq. right.
      pose proof (prefix_cons_inv_1 _ _ _ _ Hq) as ->.
      apply prefix_cons_inv_2 in Hq. exists q. split; [done|]. by apply IH.
Qed.

Lemma fold_insert_dir_lookup (l : list Fs.path) (t : Fs.tree) (q : Fs.path) :
  fold_left (λ t q, <[q := Fs.Dir]> t) l t !! q
  = if bool_decide (q ∈ l) then Some Fs.Dir else t !! q.
Proof.
  revert t. induction l as [|x l IH]; intros t; simpl; [done|].
  rewrite IH. destruct (bool_decide (q ∈ l)) eqn:Hl.
  - apply bool_decide_eq_true in Hl. rewrite bool_decide_eq_true_2; [done|by right].
  - apply bool_decide_eq_false in Hl. destruct (decide (q = x)) as [->|Hne].
    + rewrite lookup_insert_eq. rewrite bool_decide_eq_true_2; [done|by left].
    + rewrite lookup_insert_ne by done. rewrite bool_decide_eq_false_2; [done|].
      intros Hin. apply elem_of_cons in Hin as [?|?]; done.
Qed.

Lemma create_directories_lookup (p q : Fs.path) (t t' : Fs.tree) :
  Fs.create_directories p t = Done t' →
  t' !! q = if bool_decide (q ≠ [] ∧ q `prefix_of` p) then Some Fs.Dir else t !! q.
Proof.
  unfold Fs.create_directories. destruct (existsb _ _); [done|]. intros [= <-].
  rewrite fold_insert_dir_lookup. apply (f_equal (λ b : bool, if b then _ else _)).
  apply bool_decide_ext. rewrite list_elem_of_In, filter_In, <-list_elem_of_In.
  rewrite elem_of_prefixes, negb_true_iff, bool_decide_eq_false. tauto.
Qed.

Lemma print_meta_config_file_run (s : State) :
  let fn := Fs.div (Fs.div (current_path s) ["cppan"]) [cmake_config_filename] in
  let content := getText (meta_file sha1 (this s)) in
  let made := ev_create_directories (Fs.parent_path fn) in
  print_meta_config_file sha1 s
  = match Fs.create_directories (Fs.parent_path fn) (tree s) with
    | Throw msg => (s, [made], Throw msg)
    | Done t1 =>
        if Fs.can_open_for_writing t1 fn
        then (set_tree (<[fn := Fs.File content]> t1) s,
              [made; ev_write_file fn content], Done tt)
        else (set_tree t1 s, [made],
              Throw ("Cannot create a file: " +:+ Fs.to_string fn))
    end.
Proof.
  cbv zeta. unfold print_meta_config_file, fs_create_directories, on_tree, zoom,
    write_or_throw.
  cbv [mbind M_bind gets tell modify throw id]. cbn [tree set_tree this current_path app].
  destruct (Fs.create_directories _ (tree s)) as [t1|msg]; cbn [tree set_tree this app].
  - destruct (Fs.can_open_for_writing t1 _); by destruct s.
  - by destruct s.
Qed.

Lemma print_helper_file_run (s : State) :
  let fn := Fs.div (Fs.div (current_path s) ["cppan"]) [cmake_helpers_filename] in
  let content := getText (helper_file (this s)) in
  let made := ev_create_directories (Fs.parent_path fn) in
  print_helper_file s
  = match Fs.create_directories (Fs.parent_path fn) (tree s) with
    | Throw msg => (s, [made], Throw msg)
    | Done t1 =>
        if Fs.can_open_for_writing t1 fn
        then (set_tree (<[fn := Fs.File content]> t1) s,
              [made; ev_write_file fn content], Done tt)
        else (set_tree t1 s, [made],
              Throw ("Cannot create a file: " +:+ Fs.to_string fn))
    end.
Proof.
  cbv zeta. unfold print_helper_file, fs_create_directories, on_tree, zoom,
    write_or_throw.
  cbv [mbind M_bind gets tell modify throw id]. cbn [tree set_tree this current_path app].
  destruct (Fs.create_directories _ (tree s)) as [t1|msg]; cbn [tree set_tree this app].
  - destruct (Fs.can_open_for_writing t1 _); by destruct s.
  - by destruct s.
Qed.

Lemma div_name (d : Fs.path) (x : string) : x ≠ "/" → Fs.div d [x] = d ++ [x].
Proof.
  intros Hx. unfold Fs.div. f_equal.
  unfold Fs.strip_root. destruct x as [|[b0 b1 b2 b3 b4 b5 b6 b7] x]; [done|].
  destruct b0, b1, b2, b3, b4, b5, b6, b7; try done.
  destruct x; [by destruct Hx|done].
Qed.

Lemma parent_path_div (d : Fs.path) (x : string) :
  x ≠ "/" → Fs.parent_path (Fs.div d [x]) = d.
Proof. intros Hx. rewrite div_name by done. apply removelast_last. Qed.

Lemma name_not_above (d : Fs.path) (x : string) : ¬ (d ++ [x]) `prefix_of` d.
Proof. intros Hp. apply prefix_length in Hp. rewrite length_app in Hp. simpl in Hp. lia. Qed.

(** X30: when [create_build_files] succeeds, the directory [cppan]
    below the current path is there and holds the meta file and the helper
    file with the text of their calls; every other path that is not a
    directory above them is as before; the [Config] and the current path are
    unchanged, and the trace is the four steps. *)
Theorem create_build_files_writes_both (s s' : State) evs :
  create_build_files sha1 s = (s', evs, Done tt) →
  let dir := Fs.div (current_path s) ["cppan"] in
  let meta := Fs.div dir [cmake_config_filename] in
  let helpers := Fs.div dir [cmake_helpers_filename] in
  tree s' !! meta = Some (Fs.File (getText (meta_file sha1 (this s))))
  ∧ tree s' !! helpers = Some (Fs.File (getText (helper_file (this s))))
  ∧ Fs.is_directory (tree s') dir = true
  ∧ (∀ q, ¬ q `prefix_of` dir → q ≠ meta → q ≠ helpers → tree s' !! q = tree s !! q)
  ∧ this s' = this s
  ∧ current_path s' = current_path s
  ∧ evs = [ev_create_directories dir;
           ev_write_file meta (getText (meta_file sha1 (this s)));
           ev_create_directories dir;
           ev_write_file helpers (getText (helper_file (this s)))].
Proof.
  intros Hrun dir meta helpers. unfold create_build_files in Hrun.
  cbv [mbind M_bind] in Hrun.
  rewrite print_meta_config_file_run in Hrun. cbv zeta in Hrun.
  fold dir meta in Hrun.
  assert (Hpm : Fs.parent_path meta = dir) by (by apply parent_path_div).
  assert (Hph : Fs.parent_path helpers = dir) by (by apply parent_path_div).
  rewrite Hpm in Hrun.
  destruct (Fs.create_directories dir (tree s)) as [t1|] eqn:H1; [|done].
  destruct (Fs.can_open_for_writing t1 meta); [|done].
  rewrite print_helper_file_run in Hrun. cbv zeta in Hrun.
  cbn [tree set_tree this current_path] in Hrun. fold dir helpers in Hrun.
  rewrite Hph in Hrun.
  destruct (Fs.create_directories dir (<[meta:=_]> t1)) as [t3|] eqn:H3; [|done].
  destruct (Fs.can_open_for_writing t3 helpers); [|done].
  injection Hrun as <- <-. cbn [tree set_tree this current_path app].
  assert (Hm : meta = dir ++ [cmake_config_filename]) by (by apply div_name).
  assert (Hh : helpers = dir ++ [cmake_helpers_filename]) by (by apply div_name).
  assert (Hmh : meta ≠ helpers).
  { rewrite Hm, Hh. intros Heq. by apply app_inv_head in Heq. }
  assert (Hnm : ¬ (meta ≠ [] ∧ meta `prefix_of` dir)).
  { rewrite Hm. intros [_ Hp]. by apply name_not_above in Hp. }
  assert (Hnh : helpers ≠ dir).
  { rewrite Hh. intros Heq. apply (name_not_above dir cmake_helpers_filename).
    by rewrite Heq. }
  assert (Hdir : dir ≠ []).
  { unfold dir. rewrite div_name by done. by destruct (current_path s). }
  repeat split.
  - rewrite lookup_insert_ne by done.
    rewrite (create_directories_lookup _ meta _ _ H3).
    rewrite bool_decide_eq_false_2 by done. by rewrite lookup_insert_eq.
  - by rewrite lookup_insert_eq.
  - unfold Fs.is_directory. rewrite lookup_insert_ne by done.
    rewrite (create_directories_lookup _ dir _ _ H3).
    by rewrite bool_decide_eq_true_2.
  - intros q Hq Hqm Hqh. rewrite lookup_insert_ne by done.
    rewrite (create_directories_lookup _ q _ _ H3).
    rewrite bool_decide_eq_false_2 by (by intros [_ ?]).
    rewrite lookup_insert_ne by done.
    rewrite (create_directories_lookup _ q _ _ H1).
    by rewrite bool_decide_eq_false_2 by (by intros [_ ?]).
Qed.

End BuildFileProperties.

Lemma create_build_files_witness :
  let s := Scenario.state Example.empty_cache in
  let run :=
    create_build_files (decl := Example.declarations) (ext := Scenario.externals)
      (λ s, s) s in
  Fs.is_directory (tree run.1.1) ["/"; "home"; "user"; "project"; "cppan"] = true.
Proof.
  intros s run.
  destruct (create_build_files_writes_both (decl := Example.declarations)
              (ext := Scenario.externals) (λ s, s)
              s run.1.1 run.1.2) as (_ & _ & Hdir & _).
  - apply with_outcome. by vm_compute.
  - exact Hdir.
Defined.

